(** * update_cursor_mcp_config.py: the Cursor MCP configuration updater

    A shallow embedding of [server/scripts/update_cursor_mcp_config.py] and
    the properties of its only procedure, [main].

    What is modelled, and how:
    - A Python [str] is a list of Unicode code points ([text]); a text file
      is modelled by the [str] that reading it in text mode returns.
    - A value built by [json.load] is a [pyobj]; a [dict] is an association
      list, because Python dicts keep insertion order and [json.dump] writes
      the keys in that order.
    - [in], [x[k]] and [x[k] = v] follow Python on every kind of value that
      [json.load] can return, with the exceptions [TypeError] and [KeyError].
    - [json.load] is the recursive-descent decoder of [json.decoder] and
      [json.scanner]; [json.dump(..., indent=2, ensure_ascii=False)] is the
      chunk generator of [json.encoder].
    - Writing a file opened with [encoding='utf-8'] raises
      [UnicodeEncodeError] at the first chunk that holds a surrogate code
      point; the chunks before it reach the file.
    - [main] runs in a [world]: the home directory, the three files it
      touches, and the log of what it did to them and printed.

    - A float is carried by the text [json.dump] writes for it.  The
      function [float_repr] from a literal to that text stands for
      [float.__repr__(float(lit))]; it is a parameter, of which the round
      trip through [float] is assumed.

    The environment of a run is its home directory; the rest of it is the
    same for every run: the locale decodes the key file, the standard
    output encodes every line printed, the three paths are regular files
    that can be read and written, the home directory is not the root, and
    Python's limits on recursion depth and on the number of digits of an
    [int] are not reached. *)

From Stdlib Require Import String Ascii List NArith ZArith Bool Lia.
From Stdlib Require Import DecimalN DecimalZ DecimalFacts.
Import ListNotations.

(* ================================================================== *)
(** * Text *)

Definition text := list N.

(** An ASCII literal as a [text]. *)
Definition str (s : string) : text :=
  map N_of_ascii (list_ascii_of_string s).

(** The same, with every apostrophe standing for a double quote: the way
    JSON texts are written down in this file. *)
Definition jstr (s : string) : text :=
  map (fun c => if N.eqb c 39 then 34%N else c) (str s).

Fixpoint text_eqb (a b : text) : bool :=
  match a, b with
  | [], [] => true
  | x :: a', y :: b' => N.eqb x y && text_eqb a' b'
  | _, _ => false
  end.

(** [s.startswith(p)] *)
Fixpoint startswith (p s : text) : bool :=
  match p, s with
  | [], _ => true
  | x :: p', y :: s' => N.eqb x y && startswith p' s'
  | _ :: _, [] => false
  end.

(** [p in s] for two strings: [p] occurs in [s] as a substring. *)
Fixpoint substring_in (p s : text) : bool :=
  startswith p s ||
  match s with
  | [] => false
  | _ :: s' => substring_in p s'
  end.

(** [str.isspace] on one code point (Python's [Py_UNICODE_ISSPACE]). *)
Definition isspace (c : N) : bool :=
  ((9 <=? c) && (c <=? 13) || (28 <=? c) && (c <=? 32)
   || (c =? 133) || (c =? 160) || (c =? 5760)
   || (8192 <=? c) && (c <=? 8202)
   || (c =? 8232) || (c =? 8233) || (c =? 8239) || (c =? 8287)
   || (c =? 12288))%N.

Fixpoint lstrip (s : text) : text :=
  match s with
  | [] => []
  | c :: s' => if isspace c then lstrip s' else s
  end.

Definition rstrip (s : text) : text := rev (lstrip (rev s)).

(** [s.strip()] *)
Definition strip (s : text) : text := rstrip (lstrip s).

(** A surrogate code point cannot be encoded as UTF-8. *)
Definition is_surrogate (c : N) : bool := ((55296 <=? c) && (c <=? 57343))%N.

Definition encodable (s : text) : bool := forallb (fun c => negb (is_surrogate c)) s.

(* ================================================================== *)
(** * Python values *)

#[warnings="-register-all"]
Inductive pyobj : Type :=
| PyNone
| PyBool (b : bool)
| PyInt (z : Z)
| PyFloat (repr : text)
| PyStr (s : text)
| PyList (items : list pyobj)
| PyDict (items : list (text * pyobj)).

Definition dict := list (text * pyobj).

(** Induction with the hypotheses for the values held in lists and dicts. *)
Section PyobjInd.
Variable P : pyobj -> Prop.
Hypothesis HNone : P PyNone.
Hypothesis HBool : forall b, P (PyBool b).
Hypothesis HInt : forall z, P (PyInt z).
Hypothesis HFloat : forall l, P (PyFloat l).
Hypothesis HStr : forall s, P (PyStr s).
Hypothesis HList : forall l, Forall P l -> P (PyList l).
Hypothesis HDict : forall d, Forall (fun kv => P (snd kv)) d -> P (PyDict d).

Fixpoint pyobj_nested_ind (o : pyobj) : P o :=
  match o with
  | PyNone => HNone
  | PyBool b => HBool b
  | PyInt z => HInt z
  | PyFloat l => HFloat l
  | PyStr s => HStr s
  | PyList l =>
      HList l ((fix go (l : list pyobj) : Forall P l :=
                match l with
                | [] => Forall_nil _
                | x :: l' => Forall_cons _ (pyobj_nested_ind x) (go l')
                end) l)
  | PyDict d =>
      HDict d ((fix go (d : dict) : Forall (fun kv => P (snd kv)) d :=
                match d with
                | [] => Forall_nil _
                | kv :: d' =>
                    Forall_cons (P := fun kv => P (snd kv)) kv
                                (pyobj_nested_ind (snd kv)) (go d')
                end) d)
  end.
End PyobjInd.

(** ** Dicts: lookup, and assignment that keeps the position of a key
    already there and appends a new one. *)

Fixpoint dict_get (d : dict) (k : text) : option pyobj :=
  match d with
  | [] => None
  | (k', v) :: d' => if text_eqb k' k then Some v else dict_get d' k
  end.

Fixpoint dict_set (d : dict) (k : text) (v : pyobj) : dict :=
  match d with
  | [] => [(k, v)]
  | (k', v') :: d' =>
      if text_eqb k' k then (k', v) :: d' else (k', v') :: dict_set d' k v
  end.

Definition dict_has (d : dict) (k : text) : bool :=
  match dict_get d k with Some _ => true | None => false end.

Definition keys (d : dict) : list text := map fst d.

(** ** Exceptions *)

Inductive exn : Type :=
| JSONDecodeError
| RecursionError
| TypeError
| KeyError
| UnicodeEncodeError
| FileNotFoundError.

Inductive result (A : Type) : Type :=
| Ok (a : A)
| Raise (e : exn).
Arguments Ok {A} a.
Arguments Raise {A} e.

Definition bind {A B} (r : result A) (f : A -> result B) : result B :=
  match r with
  | Ok a => f a
  | Raise e => Raise e
  end.

Declare Scope py_scope.
Delimit Scope py_scope with py.
Notation "x <- r ;; k" := (bind r (fun x => k))
  (at level 61, r at next level, right associativity) : py_scope.
Notation "' p <- r ;; k" := (bind r (fun p => k))
  (at level 61, p pattern, r at next level, right associativity) : py_scope.
Open Scope py_scope.

(** ** The three operations [main] applies to the configuration *)

(** [x == y] where [x] is a str: only an equal str is equal to it. *)
Definition eq_str (k : text) (o : pyobj) : bool :=
  match o with
  | PyStr s => text_eqb s k
  | _ => false
  end.

(** [k in o] *)
Definition contains (k : text) (o : pyobj) : result bool :=
  match o with
  | PyDict d => Ok (dict_has d k)
  | PyList l => Ok (existsb (eq_str k) l)
  | PyStr s => Ok (substring_in k s)
  | PyNone | PyBool _ | PyInt _ | PyFloat _ => Raise TypeError
  end.

(** [o[k]] for a str [k] *)
Definition getitem (o : pyobj) (k : text) : result pyobj :=
  match o with
  | PyDict d =>
      match dict_get d k with
      | Some v => Ok v
      | None => Raise KeyError
      end
  | _ => Raise TypeError
  end.

(** [o[k] = v] for a str [k]: the container after the assignment *)
Definition setitem (o : pyobj) (k : text) (v : pyobj) : result pyobj :=
  match o with
  | PyDict d => Ok (PyDict (dict_set d k v))
  | _ => Raise TypeError
  end.

(** [o[p1]...[pn]] *)
Fixpoint get_at (o : pyobj) (path : list text) : result pyobj :=
  match path with
  | [] => Ok o
  | p :: ps => child <- getitem o p ;; get_at child ps
  end.

(** [o[p1]...[pn][k] = v]: the subscripts are evaluated left to right, the
    innermost container is assigned to, and every container on the way
    holds the changed one under the key it had. *)
Fixpoint set_at (o : pyobj) (path : list text) (k : text) (v : pyobj)
  : result pyobj :=
  match path with
  | [] => setitem o k v
  | p :: ps =>
      child <- getitem o p ;;
      child' <- set_at child ps k v ;;
      setitem o p child'
  end.

(* ================================================================== *)
(** * json.dump(obj, f, indent=2, ensure_ascii=False) *)

Definition hex_digit (n : N) : N := (if n <? 10 then 48 + n else 87 + n)%N.

(** [ESCAPE_DCT]: the replacement of one code point of a string. *)
Definition escape_char (c : N) : text :=
  (if c =? 92 then [92; 92]
   else if c =? 34 then [92; 34]
   else if c =? 8 then [92; 98]
   else if c =? 12 then [92; 102]
   else if c =? 10 then [92; 110]
   else if c =? 13 then [92; 114]
   else if c =? 9 then [92; 116]
   else if c <? 32 then [92; 117; 48; 48; hex_digit (c / 16); hex_digit (c mod 16)]
   else [c])%N.

(** [py_encode_basestring] *)
Definition encode_basestring (s : text) : text :=
  34%N :: flat_map escape_char s ++ [34%N].

Fixpoint uint_digits (u : Decimal.uint) : text :=
  (match u with
   | Decimal.Nil => []
   | Decimal.D0 u => 48 :: uint_digits u
   | Decimal.D1 u => 49 :: uint_digits u
   | Decimal.D2 u => 50 :: uint_digits u
   | Decimal.D3 u => 51 :: uint_digits u
   | Decimal.D4 u => 52 :: uint_digits u
   | Decimal.D5 u => 53 :: uint_digits u
   | Decimal.D6 u => 54 :: uint_digits u
   | Decimal.D7 u => 55 :: uint_digits u
   | Decimal.D8 u => 56 :: uint_digits u
   | Decimal.D9 u => 57 :: uint_digits u
   end)%N.

(** [int.__repr__] *)
Definition intstr (z : Z) : text :=
  match Z.to_int z with
  | Decimal.Pos u => uint_digits u
  | Decimal.Neg u => 45%N :: uint_digits u
  end.

(** The text of a value that is written as one chunk. *)
Definition scalar (o : pyobj) : option text :=
  match o with
  | PyStr s => Some (encode_basestring s)
  | PyNone => Some (str "null")
  | PyBool true => Some (str "true")
  | PyBool false => Some (str "false")
  | PyInt z => Some (intstr z)
  | PyFloat repr => Some repr
  | PyList _ | PyDict _ => None
  end.

(** ['\n' + _indent * _current_indent_level] with [_indent = '  '] *)
Definition newline_indent (lvl : nat) : text := 10%N :: repeat 32%N (2 * lvl).

(** The loops of [_iterencode_list] and [_iterencode_dict] over the items,
    given the chunks [enc] of a nested value and the [newline_indent] of
    the items.  In a list the text of a scalar shares its chunk with what
    goes before it ([buf]); in a dict every piece is a chunk of its own. *)
Section Chunks.
Variable enc : pyobj -> list text.
Variable nl : text.

Fixpoint list_chunks (first : bool) (l : list pyobj) : list text :=
  match l with
  | [] => []
  | v :: l' =>
      let buf := (if first then 91%N else 44%N) :: nl in
      match scalar v with
      | Some t => [buf ++ t]
      | None => buf :: enc v
      end ++ list_chunks false l'
  end.

Fixpoint dict_chunks (first : bool) (d : list (text * pyobj)) : list text :=
  match d with
  | [] => []
  | (k, v) :: d' =>
      (if first then [] else [44%N :: nl])
      ++ encode_basestring k :: [58%N; 32%N] :: enc v
      ++ dict_chunks false d'
  end.
End Chunks.

(** [_iterencode], [_iterencode_list] and [_iterencode_dict]: the chunks
    that [json.dump] hands to [f.write], one after the other. *)
Fixpoint iterencode (lvl : nat) (o : pyobj) : list text :=
  match o with
  | PyList [] => [str "[]"]
  | PyList l =>
      list_chunks (iterencode (S lvl)) (newline_indent (S lvl)) true l
      ++ [newline_indent lvl; [93%N]]
  | PyDict [] => [str "{}"]
  | PyDict d =>
      [123%N] :: newline_indent (S lvl) ::
      dict_chunks (iterencode (S lvl)) (newline_indent (S lvl)) true d
      ++ [newline_indent lvl; [125%N]]
  | _ =>
      match scalar o with
      | Some t => [t]
      | None => []
      end
  end.

(** [json.dumps(obj, indent=2, ensure_ascii=False)] *)
Definition dumps (o : pyobj) : text := concat (iterencode 0 o).

(* ================================================================== *)
(** * json.load *)

(** [WHITESPACE] *)
Definition is_ws (c : N) : bool := ((c =? 32) || (c =? 9) || (c =? 10) || (c =? 13))%N.

Fixpoint skip_ws (s : text) : text :=
  match s with
  | [] => []
  | c :: s' => if is_ws c then skip_ws s' else s
  end.

Definition is_digit (c : N) : bool := ((48 <=? c) && (c <=? 57))%N.

(** The longest run of digits at the head of [s], and what follows it. *)
Fixpoint span_digits (s : text) : text * text :=
  match s with
  | [] => ([], [])
  | c :: s' =>
      if is_digit c then let '(ds, r) := span_digits s' in (c :: ds, r)
      else ([], s)
  end.

Definition digit_uint (c : N) (u : Decimal.uint) : Decimal.uint :=
  (if c =? 48 then Decimal.D0 u else if c =? 49 then Decimal.D1 u
   else if c =? 50 then Decimal.D2 u else if c =? 51 then Decimal.D3 u
   else if c =? 52 then Decimal.D4 u else if c =? 53 then Decimal.D5 u
   else if c =? 54 then Decimal.D6 u else if c =? 55 then Decimal.D7 u
   else if c =? 56 then Decimal.D8 u else Decimal.D9 u)%N.

Fixpoint digits_uint (ds : text) : Decimal.uint :=
  match ds with
  | [] => Decimal.Nil
  | c :: ds' => digit_uint c (digits_uint ds')
  end.

(** [int(s)] for a run of digits [ds] with an optional minus sign. *)
Definition int_of (neg : bool) (ds : text) : Z :=
  Z.of_int (if neg then Decimal.Neg (digits_uint ds) else Decimal.Pos (digits_uint ds)).

(** The groups of [NUMBER_RE]: the optional minus sign; the integer part, a
    single 0 or a digit
    from 1 to 9 followed by digits; the optional fraction, a dot and at
    least one digit; the optional exponent, e or E, an optional sign and at
    least one digit.  Each returns what it matched and what follows. *)
Definition match_sign (s : text) : bool * text :=
  match s with
  | c :: s' => if N.eqb c 45 then (true, s') else (false, s)
  | [] => (false, s)
  end.

Definition match_integer (s : text) : option (text * text) :=
  match s with
  | [] => None
  | c :: s1 =>
      if is_digit c then
        if N.eqb c 48 then Some ([c], s1)
        else let '(ds, r) := span_digits s1 in Some (c :: ds, r)
      else None
  end.

Definition match_frac (s : text) : text * text :=
  match s with
  | d :: r =>
      if N.eqb d 46 then
        match span_digits r with
        | ([], _) => ([], s)
        | (ds, r') => (d :: ds, r')
        end
      else ([], s)
  | [] => ([], s)
  end.

Definition match_exp (s : text) : text * text :=
  match s with
  | e :: r =>
      if N.eqb e 101 || N.eqb e 69 then
        let '(sign, r') :=
          match r with
          | g :: r' => if N.eqb g 45 || N.eqb g 43 then ([g], r') else ([], r)
          | [] => ([], r)
          end in
        match span_digits r' with
        | ([], _) => ([], s)
        | (ds, r'') => (e :: sign ++ ds, r'')
        end
      else ([], s)
  | [] => ([], s)
  end.

Definition sign_text (neg : bool) : text := if neg then [45%N] else [].

Definition number_text (neg : bool) (integer frac exp : text) : text :=
  sign_text neg ++ integer ++ frac ++ exp.

(** ** Floats

    A float is carried by the text that [json.dump] writes for it, which
    tells floats apart as Python does.  [float_repr lit] stands for
    [float.__repr__(float(lit))], the text written for the float that
    [json.load] builds from the literal [lit], with [Infinity] and
    [-Infinity] where [float(lit)] overflows: 2.50 gives 2.5, 1.0e2 gives
    100.0 and 1E400 gives Infinity.  It is a parameter of all that follows;
    what is assumed of it is [float_repr_reads_back] below. *)
Section Floats.
Variable float_repr : text -> text.

(** [int] of the integer part when fraction and exponent are both missing,
    [float] of the whole match otherwise. *)
Definition number_value (neg : bool) (integer frac exp : text) : pyobj :=
  match frac, exp with
  | [], [] => PyInt (int_of neg integer)
  | _, _ => PyFloat (float_repr (number_text neg integer frac exp))
  end.

(** [NUMBER_RE.match]: an optional minus sign, the integer part, the
    fraction, the exponent. *)
Definition match_number (s : text) : option (pyobj * text) :=
  let '(neg, s0) := match_sign s in
  match match_integer s0 with
  | None => None
  | Some (integer, r1) =>
      let '(frac, r2) := match_frac r1 in
      let '(exp, r3) := match_exp r2 in
      Some (number_value neg integer frac exp, r3)
  end.

Definition hex_val (c : N) : option N :=
  (if (48 <=? c) && (c <=? 57) then Some (c - 48)
   else if (97 <=? c) && (c <=? 102) then Some (c - 87)
   else if (65 <=? c) && (c <=? 70) then Some (c - 55)
   else None)%N.

(** [int(esc, 16)] for four hexadecimal digits *)
Definition hex4 (h1 h2 h3 h4 : N) : option N :=
  match hex_val h1, hex_val h2, hex_val h3, hex_val h4 with
  | Some a, Some b, Some c, Some d => Some (((a * 16 + b) * 16 + c) * 16 + d)%N
  | _, _, _, _ => None
  end.

(** [BACKSLASH] *)
Definition backslash (e : N) : option N :=
  (if e =? 34 then Some 34 else if e =? 92 then Some 92
   else if e =? 47 then Some 47 else if e =? 98 then Some 8
   else if e =? 102 then Some 12 else if e =? 110 then Some 10
   else if e =? 114 then Some 13 else if e =? 116 then Some 9
   else None)%N.

Definition is_high (u : N) : bool := ((55296 <=? u) && (u <=? 56319))%N.
Definition is_low (u : N) : bool := ((56320 <=? u) && (u <=? 57343))%N.

(** [0x10000 + (((uni - 0xd800) << 10) | (uni2 - 0xdc00))] *)
Definition combine (uni uni2 : N) : N :=
  (65536 + N.lor (N.shiftl (uni - 55296) 10) (uni2 - 56320))%N.

Definition cons_char (c : N) (r : result (text * text)) : result (text * text) :=
  '(t, rest) <- r ;; Ok (c :: t, rest).

(** [py_scanstring(s, end, strict=True)], from just after the opening
    quote: the string and the text after its closing quote. *)
Fixpoint scanstring (s : text) : result (text * text) :=
  match s with
  | [] => Raise JSONDecodeError
  | c :: s1 =>
      if N.eqb c 34 then Ok ([], s1)
      else if N.eqb c 92 then
        match s1 with
        | [] => Raise JSONDecodeError
        | e :: s2 =>
            if N.eqb e 117 then
              match s2 with
              | h1 :: h2 :: h3 :: h4 :: s3 =>
                  match hex4 h1 h2 h3 h4 with
                  | None => Raise JSONDecodeError
                  | Some uni =>
                      let single := cons_char uni (scanstring s3) in
                      if is_high uni then
                        match s3 with
                        | b :: u :: s4 =>
                            if N.eqb b 92 && N.eqb u 117 then
                              match s4 with
                              | l1 :: l2 :: l3 :: l4 :: s5 =>
                                  match hex4 l1 l2 l3 l4 with
                                  | None => Raise JSONDecodeError
                                  | Some uni2 =>
                                      if is_low uni2
                                      then cons_char (combine uni uni2) (scanstring s5)
                                      else single
                                  end
                              | _ => Raise JSONDecodeError
                              end
                            else single
                        | _ => single
                        end
                      else single
                  end
              | _ => Raise JSONDecodeError
              end
            else
              match backslash e with
              | Some ch => cons_char ch (scanstring s2)
              | None => Raise JSONDecodeError
              end
        end
      else if N.ltb c 32 then Raise JSONDecodeError
      else cons_char c (scanstring s1)
  end.

(** [dict(pairs)] *)
Definition dict_of_pairs (pairs : list (text * pyobj)) : dict :=
  fold_left (fun d kv => dict_set d (fst kv) (snd kv)) pairs [].

Definition expecting {A} : result A := Raise JSONDecodeError.

(** [scan_once], [JSONArray] and [JSONObject].  [scan_items] is the loop of
    [JSONArray], entered at a value; [scan_pairs] is the loop of
    [JSONObject], entered just after the opening quote of a key.  Each call
    spends one unit of [fuel]. *)
Fixpoint scan_once (fuel : nat) (s : text) : result (pyobj * text) :=
  match fuel with
  | O => Raise RecursionError
  | S fuel' =>
      match s with
      | [] => expecting
      | c :: s' =>
          if N.eqb c 34 then
            '(t, r) <- scanstring s' ;; Ok (PyStr t, r)
          else if N.eqb c 123 then
            match skip_ws s' with
            | c1 :: s2 =>
                if N.eqb c1 125 then Ok (PyDict [], s2)
                else if N.eqb c1 34 then
                  '(pairs, r) <- scan_pairs fuel' s2 ;;
                  Ok (PyDict (dict_of_pairs pairs), r)
                else expecting
            | [] => expecting
            end
          else if N.eqb c 91 then
            match skip_ws s' with
            | c1 :: s2 =>
                if N.eqb c1 93 then Ok (PyList [], s2)
                else '(vs, r) <- scan_items fuel' (c1 :: s2) ;; Ok (PyList vs, r)
            | [] => expecting
            end
          else if startswith (str "null") s then Ok (PyNone, skipn 4 s)
          else if startswith (str "true") s then Ok (PyBool true, skipn 4 s)
          else if startswith (str "false") s then Ok (PyBool false, skipn 5 s)
          else
            match match_number s with
            | Some (v, r) => Ok (v, r)
            | None =>
                if startswith (str "NaN") s then Ok (PyFloat (str "NaN"), skipn 3 s)
                else if startswith (str "Infinity") s
                then Ok (PyFloat (str "Infinity"), skipn 8 s)
                else if startswith (str "-Infinity") s
                then Ok (PyFloat (str "-Infinity"), skipn 9 s)
                else expecting
            end
      end
  end
with scan_items (fuel : nat) (s : text) : result (list pyobj * text) :=
  match fuel with
  | O => Raise RecursionError
  | S fuel' =>
      '(v, r) <- scan_once fuel' s ;;
      match skip_ws r with
      | c :: r1 =>
          if N.eqb c 93 then Ok ([v], r1)
          else if N.eqb c 44 then
            '(vs, r2) <- scan_items fuel' (skip_ws r1) ;; Ok (v :: vs, r2)
          else expecting
      | [] => expecting
      end
  end
with scan_pairs (fuel : nat) (s : text) : result (list (text * pyobj) * text) :=
  match fuel with
  | O => Raise RecursionError
  | S fuel' =>
      '(key, r) <- scanstring s ;;
      match skip_ws r with
      | c :: r1 =>
          if N.eqb c 58 then
            '(v, r2) <- scan_once fuel' (skip_ws r1) ;;
            match skip_ws r2 with
            | c2 :: r3 =>
                if N.eqb c2 125 then Ok ([(key, v)], r3)
                else if N.eqb c2 44 then
                  match skip_ws r3 with
                  | c3 :: r4 =>
                      if N.eqb c3 34 then
                        '(ps, r5) <- scan_pairs fuel' r4 ;; Ok ((key, v) :: ps, r5)
                      else expecting
                  | [] => expecting
                  end
                else expecting
            | [] => expecting
            end
          else expecting
      | [] => expecting
      end
  end.

(** Enough fuel for any text: no call of the decoder on [s] runs out. *)
Definition fuel_for (s : text) : nat := 2 * length s + 1.

(** [json.loads(s)]: [JSONDecoder.decode] after the check for a BOM. *)
Definition loads (s : text) : result pyobj :=
  if startswith [65279%N] s then Raise JSONDecodeError
  else
    '(obj, r) <- scan_once (fuel_for s) (skip_ws s) ;;
    match skip_ws r with
    | [] => Ok obj
    | _ :: _ => Raise JSONDecodeError
    end.

(* ================================================================== *)
(** * The world [main] runs in *)

(** The three paths of the script: [api_key_file], [mcp_json] and
    [backup = mcp_json.with_suffix('.json.bak')]. *)
Inductive path : Type := ApiKeyFile | McpJson | Backup.

Definition path_eqb (p q : path) : bool :=
  match p, q with
  | ApiKeyFile, ApiKeyFile | McpJson, McpJson | Backup, Backup => true
  | _, _ => false
  end.

(** A file is absent ([None]) or holds a text. *)
Record files : Type := mkFiles {
  api_key_file : option text;
  mcp_json : option text;
  backup : option text
}.

Definition content (f : files) (p : path) : option text :=
  match p with
  | ApiKeyFile => api_key_file f
  | McpJson => mcp_json f
  | Backup => backup f
  end.

Definition store (f : files) (p : path) (c : text) : files :=
  match p with
  | ApiKeyFile => mkFiles (Some c) (mcp_json f) (backup f)
  | McpJson => mkFiles (api_key_file f) (Some c) (backup f)
  | Backup => mkFiles (api_key_file f) (mcp_json f) (Some c)
  end.

(** What a run does that can be seen from outside, in order. *)
Inductive event : Type :=
| Opened (p : path)                 (* [open(p, 'w')]: created or truncated *)
| Closed (p : path) (written : text) (* closed, holding what was written *)
| Printed (line : text).

Record world : Type := mkWorld {
  home : text;
  fs : files;
  log : list event
}.

(** [str(home / ".easygrid" / "api-key")] and the like, for a home
    directory other than the root. *)
Definition path_str (h : text) (p : path) : text :=
  match p with
  | ApiKeyFile => h ++ str "/.easygrid/api-key"
  | McpJson => h ++ str "/.cursor/mcp.json"
  | Backup => h ++ str "/.cursor/mcp.json.bak"
  end.

(** The files after a sequence of events. *)
Definition apply_event (f : files) (e : event) : files :=
  match e with
  | Opened p => store f p []
  | Closed p c => store f p c
  | Printed _ => f
  end.

Definition replay (f : files) (es : list event) : files :=
  fold_left apply_event es f.

Definition printed (es : list event) : list text :=
  flat_map (fun e => match e with Printed l => [l] | _ => [] end) es.

Definition touches (p : path) (e : event) : bool :=
  match e with
  | Opened q | Closed q _ => path_eqb p q
  | Printed _ => false
  end.

(** ** Computations that change the world and may raise *)

Definition M (A : Type) : Type := world -> result A * world.

Definition ret {A} (a : A) : M A := fun w => (Ok a, w).

Definition bindM {A B} (m : M A) (f : A -> M B) : M B :=
  fun w =>
    match m w with
    | (Ok a, w') => f a w'
    | (Raise e, w') => (Raise e, w')
    end.

Definition lift {A} (r : result A) : M A := fun w => (r, w).

Declare Scope io_scope.
Delimit Scope io_scope with io.
Notation "x <- m ;; k" := (bindM m (fun x => k))
  (at level 61, m at next level, right associativity) : io_scope.
Notation "m ;;; k" := (bindM m (fun _ => k))
  (at level 61, right associativity) : io_scope.

Definition emit (e : event) : M unit :=
  fun w => (Ok tt, mkWorld (home w) (apply_event (fs w) e) (log w ++ [e])).

(** [Path.home()] *)
Definition get_home : M text := fun w => (Ok (home w), w).

(** [p.exists()] *)
Definition exists_ (p : path) : M bool :=
  fun w => (Ok (match content (fs w) p with Some _ => true | None => false end), w).

(** [p.read_text()], and [f.read()] on [open(p, 'r')] *)
Definition read_text (p : path) : M text :=
  fun w =>
    match content (fs w) p with
    | Some t => (Ok t, w)
    | None => (Raise FileNotFoundError, w)
    end.

(** [print(line)] *)
Definition print (line : text) : M unit := emit (Printed line).

(** [f.write] of the chunks, one after the other, on a file opened with
    [encoding='utf-8']: what reaches the file, and whether every chunk
    could be encoded. *)
Fixpoint write_chunks (chunks : list text) : text * bool :=
  match chunks with
  | [] => ([], true)
  | c :: cs =>
      if encodable c
      then let '(t, ok) := write_chunks cs in (c ++ t, ok)
      else ([], false)
  end.

(** [with open(p, 'r', encoding='utf-8') as f: config = json.load(f)] *)
Definition json_load (p : path) : M pyobj :=
  (t <- read_text p ;; lift (loads t))%io.

(** [with open(p, 'w', encoding='utf-8') as f:
       json.dump(obj, f, indent=2, ensure_ascii=False)] *)
Definition json_dump (obj : pyobj) (p : path) : M unit :=
  (emit (Opened p) ;;;
   let '(written, ok) := write_chunks (iterencode 0 obj) in
   emit (Closed p written) ;;;
   if ok then ret tt else lift (Raise UnicodeEncodeError))%io.

(* ================================================================== *)
(** * main *)

Definition MCP_SERVERS : text := str "mcpServers".
Definition EASYGRID : text := str "easygrid".
Definition EASYGRID_MCP : text := str "easygrid-mcp".
Definition HEADERS : text := str "headers".
Definition X_MCP_API_KEY : text := str "X-MCP-API-Key".
Definition URL : text := str "url".
Definition DESCRIPTION : text := str "description".
Definition URL_VALUE : text := str "http://localhost:8080/api/mcp/v1".
Definition DESCRIPTION_VALUE : text := str "EasyGrid CRUD - MCP HTTP".

(** Lines 39-40: [if "mcpServers" not in config: config["mcpServers"] = {}] *)
Definition ensure_mcp_servers (config : pyobj) : result pyobj :=
  b <- contains MCP_SERVERS config ;;
  if negb b then setitem config MCP_SERVERS (PyDict []) else Ok config.

(** Lines 43-49: the choice of [server_name], which creates the entry
    ["easygrid"] when neither name is there. *)
Definition select_server (config : pyobj) : result (text * pyobj) :=
  let server_name := EASYGRID in
  servers <- getitem config MCP_SERVERS ;;
  b <- contains server_name servers ;;
  if negb b then
    servers <- getitem config MCP_SERVERS ;;
    b' <- contains EASYGRID_MCP servers ;;
    if b' then Ok (EASYGRID_MCP, config)
    else
      config' <- set_at config [MCP_SERVERS] server_name (PyDict []) ;;
      Ok (server_name, config')
  else Ok (server_name, config).

(** Lines 51-52:
    [if "headers" not in config["mcpServers"][server_name]: ... = {}] *)
Definition ensure_headers (server_name : text) (config : pyobj) : result pyobj :=
  entry <- get_at config [MCP_SERVERS; server_name] ;;
  b <- contains HEADERS entry ;;
  if negb b then set_at config [MCP_SERVERS; server_name] HEADERS (PyDict [])
  else Ok config.

(** Lines 54-56: the three assignments. *)
Definition set_fields (api_key server_name : text) (config : pyobj) : result pyobj :=
  config <- set_at config [MCP_SERVERS; server_name; HEADERS] X_MCP_API_KEY (PyStr api_key) ;;
  config <- set_at config [MCP_SERVERS; server_name] URL (PyStr URL_VALUE) ;;
  set_at config [MCP_SERVERS; server_name] DESCRIPTION (PyStr DESCRIPTION_VALUE).

(** Lines 39-56: what happens to [config] between the two [json.dump]. *)
Definition update_config (api_key : text) (config : pyobj) : result pyobj :=
  config <- ensure_mcp_servers config ;;
  '(server_name, config) <- select_server config ;;
  config <- ensure_headers server_name config ;;
  set_fields api_key server_name config.

Definition MSG_HINT : text :=
  str "Run: go run server/cmd/mcp-api-key/main.go -action=create".
Definition MSG_EMPTY : text := str "Error: API Key is empty".
Definition MSG_RESTART : text := str "Please restart Cursor to apply changes".
Definition msg_no_key (h : text) : text :=
  str "Error: API Key file not found at " ++ path_str h ApiKeyFile.
Definition msg_no_config (h : text) : text :=
  str "Error: mcp.json not found at " ++ path_str h McpJson.
(** The first code point is U+2705, the check mark. *)
Definition msg_updated (h : text) : text :=
  9989%N :: str " Updated " ++ path_str h McpJson
  ++ str " with API Key from " ++ path_str h ApiKeyFile.

(** [main()]: the value it returns is the exit status of the script. *)
Definition main : M Z :=
  (h <- get_home ;;
   b <- exists_ ApiKeyFile ;;
   if negb b then
     print (msg_no_key h) ;;;
     print MSG_HINT ;;;
     ret 1%Z
   else
     t <- read_text ApiKeyFile ;;
     let api_key := strip t in
     match api_key with
     | [] =>
         print MSG_EMPTY ;;;
         ret 1%Z
     | _ :: _ =>
         b <- exists_ McpJson ;;
         if negb b then
           print (msg_no_config h) ;;;
           ret 1%Z
         else
           config <- json_load McpJson ;;
           json_dump config Backup ;;;
           config <- lift (update_config api_key config) ;;
           json_dump config McpJson ;;;
           print (msg_updated h) ;;;
           print MSG_RESTART ;;;
           ret 0%Z
     end)%io.

(* ================================================================== *)
(** * Notions the properties are stated with *)

(** A literal that [match_number] reads, whole, as a float. *)
Definition reads_as_float (lit : text) : bool :=
  match match_number lit with
  | Some (PyFloat _, []) => true
  | _ => false
  end.

(** The text of a float: [match_number] reads it, whole, as the float that
    is written as this very text, or it is one of the three constants. *)
Definition is_float_literal (lit : text) : bool :=
  match match_number lit with
  | Some (PyFloat l, []) => text_eqb l lit
  | _ => false
  end
  || text_eqb lit (str "NaN") || text_eqb lit (str "Infinity")
  || text_eqb lit (str "-Infinity").

Fixpoint unique (l : list text) : bool :=
  match l with
  | [] => true
  | k :: l' => negb (existsb (text_eqb k) l') && unique l'
  end.

(** The values [json.load] builds: the keys of a dict are distinct and a
    float is carried by the text written for it. *)
Fixpoint well_formed (o : pyobj) : bool :=
  match o with
  | PyFloat lit => is_float_literal lit
  | PyList l => forallb well_formed l
  | PyDict d => unique (map fst d) && forallb (fun kv => well_formed (snd kv)) d
  | _ => true
  end.

(** The document a file holds: what [json.load] returns on it. *)
Definition document (f : files) (p : path) : option pyobj :=
  match content f p with
  | Some t =>
      match loads t with
      | Ok o => Some o
      | Raise _ => None
      end
  | None => None
  end.

(** The [mcpServers] mapping of a document, empty when there is none. *)
Definition servers_of (doc : pyobj) : dict :=
  match doc with
  | PyDict top =>
      match dict_get top MCP_SERVERS with
      | Some (PyDict servers) => servers
      | _ => []
      end
  | _ => []
  end.

(** The fields of an entry of a mapping, none when the entry is missing. *)
Definition fields_of (d : dict) (k : text) : dict :=
  match dict_get d k with
  | Some (PyDict e) => e
  | _ => []
  end.

(** The selection rule in the words of the specification: ["easygrid"] if
    present, else ["easygrid-mcp"] if present, else ["easygrid"]. *)
Definition selection_rule (servers : dict) : text :=
  if dict_has servers EASYGRID then EASYGRID
  else if dict_has servers EASYGRID_MCP then EASYGRID_MCP
  else EASYGRID.

(** The events of a run: what it added to the log. *)
Definition events_of (w w' : world) : list event := skipn (length (log w)) (log w').

(** The entry after lines 51-56, as one expression. *)
Definition entry_after (api_key : text) (entry : dict) : dict :=
  dict_set
    (dict_set
       (dict_set entry HEADERS
          (PyDict (dict_set (fields_of entry HEADERS) X_MCP_API_KEY (PyStr api_key))))
       URL (PyStr URL_VALUE))
    DESCRIPTION (PyStr DESCRIPTION_VALUE).

Definition dict_or_missing (o : option pyobj) : bool :=
  match o with
  | None | Some (PyDict _) => true
  | Some _ => false
  end.

(** The documents on which lines 39-56 raise nothing: an object whose
    [mcpServers], chosen entry and [headers] of that entry are each an
    object or missing. *)
Definition updatable (config : pyobj) : bool :=
  match config with
  | PyDict top =>
      let servers := servers_of config in
      let name := selection_rule servers in
      dict_or_missing (dict_get top MCP_SERVERS)
      && dict_or_missing (dict_get servers name)
      && dict_or_missing (dict_get (fields_of servers name) HEADERS)
  | _ => false
  end.

(** The document after lines 39-56, as one expression. *)
Definition config_after (api_key : text) (config : pyobj) : pyobj :=
  match config with
  | PyDict top =>
      let servers := servers_of config in
      let name := selection_rule servers in
      PyDict (dict_set top MCP_SERVERS
                (PyDict (dict_set servers name
                           (PyDict (entry_after api_key (fields_of servers name))))))
  | _ => config
  end.

(** The value under [name] when lines 43-49 are done: the one that was
    there, or the empty object just created. *)
Definition entry_value (servers : dict) (name : text) : pyobj :=
  match dict_get servers name with
  | Some v => v
  | None => PyDict []
  end.

(** The world after more events. *)
Definition extend (w : world) (es : list event) : world :=
  fold_left (fun w e => snd (emit e w)) es w.

(** The shapes of the three groups of a number. *)
Definition integer_ok (i : text) : bool :=
  match i with
  | [] => false
  | c :: ds =>
      is_digit c && (if N.eqb c 48 then match ds with [] => true | _ => false end
                     else forallb is_digit ds)
  end.

Definition digits_ok (ds : text) : bool :=
  match ds with
  | [] => false
  | _ :: _ => forallb is_digit ds
  end.

Definition frac_ok (f : text) : bool :=
  match f with
  | [] => true
  | d :: ds => N.eqb d 46 && digits_ok ds
  end.

Definition exp_ok (e : text) : bool :=
  match e with
  | [] => true
  | c :: r =>
      (N.eqb c 101 || N.eqb c 69)
      && match r with
         | g :: ds => if N.eqb g 45 || N.eqb g 43 then digits_ok ds else digits_ok r
         | [] => false
         end
  end.

(** A text that cannot continue a number: it is empty or starts with a
    comma or a newline, as what follows a value that [json.dump] wrote. *)
Definition follows (r : text) : bool :=
  match r with
  | [] => true
  | c :: _ => N.eqb c 44 || N.eqb c 10
  end.

Definition no_digit_ahead (r : text) : Prop :=
  match r with
  | [] => True
  | c :: _ => is_digit c = false
  end.

(** The text [json.dump] writes for a value nested [lvl] levels deep. *)
Definition render (lvl : nat) (o : pyobj) : text := concat (iterencode lvl o).

(** The first code point of the text of a value. *)
Definition value_head (c : N) : bool :=
  (N.eqb c 34 || N.eqb c 123 || N.eqb c 91 || N.eqb c 110 || N.eqb c 116
   || N.eqb c 102 || N.eqb c 45 || is_digit c || N.eqb c 78 || N.eqb c 73)%N.

(** The number of values in a value, itself included. *)
Fixpoint size (o : pyobj) : nat :=
  match o with
  | PyList l => S (list_sum (map (fun v => S (size v)) l))
  | PyDict d => S (list_sum (map (fun kv => S (size (snd kv))) d))
  | _ => 1
  end.

(** Reading back what was written: the decoder returns the value and
    stops where its text ends. *)
Definition roundtrips (o : pyobj) : Prop :=
  forall lvl fuel rest,
    size o <= fuel -> follows rest = true ->
    scan_once fuel (render lvl o ++ rest) = Ok (o, rest).

(** No str of the value, key or item, holds a surrogate. *)
Fixpoint encodable_value (o : pyobj) : bool :=
  match o with
  | PyStr s => encodable s
  | PyFloat lit => encodable lit
  | PyList l => forallb encodable_value l
  | PyDict d => forallb (fun kv => encodable (fst kv) && encodable_value (snd kv)) d
  | _ => true
  end.

(** The scenario of the specification: the key file holds abc123 and a
    newline, the configuration holds an empty [mcpServers]. *)
Definition scenario : world :=
  mkWorld (str "/home/user")
    (mkFiles (Some (str "abc123" ++ [10%N]))
             (Some (jstr "{'mcpServers':{}}"))
             None)
    [].

(** A configuration with both names, a sibling entry, fields and headers
    of its own, next to a stale backup. *)
Definition crowded : world :=
  mkWorld (str "/home/user")
    (mkFiles (Some (str "  abc123" ++ [10%N]))
             (Some (jstr "{'theme': 'dark', 'mcpServers': {'other': {'url': 'x'}, 'easygrid-mcp': {'url': 'old', 'extra': [1, 2.5, null]}, 'easygrid': {'timeout': 30, 'headers': {'Keep': 'me', 'X-MCP-API-Key': 'old'}, 'url': 'u'}}}"))
             (Some (str "stale")))
    [].

(** The same with only the second name. *)
Definition legacy : world :=
  mkWorld (str "/home/user")
    (mkFiles (Some (str "abc123"))
             (Some (jstr "{'mcpServers': {'easygrid-mcp': {'url': 'old'}, 'other': {}}}"))
             None)
    [].

(** A world without a key file. *)
Definition keyless : world :=
  mkWorld (str "/home/user")
    (mkFiles None (Some (jstr "{'mcpServers':{}}")) (Some (str "stale")))
    [].

(** A configuration without [mcpServers] whose only value is a str with a
    lone surrogate, written in the file as the escape \ud800. *)
Definition lone_surrogate : world :=
  mkWorld (str "/home/user")
    (mkFiles (Some (str "abc123")) (Some (jstr "{'a': '\ud800'}")) None)
    [].

(** A configuration that is a list, not an object. *)
Definition not_an_object : world :=
  mkWorld (str "/home/user")
    (mkFiles (Some (str "abc123")) (Some (str "[]")) None)
    [].

(** A configuration without [mcpServers] and with another key. *)
Definition bare : world :=
  mkWorld (str "/home/user")
    (mkFiles (Some (str "abc123")) (Some (jstr "{'theme': 'dark'}")) None)
    [].

(** Two worlds with the same blank key file and the same configuration
    file, without and with a backup file. *)
Definition blank_key (old_backup : option text) : world :=
  mkWorld (str "/home/user")
    (mkFiles (Some (str "   ")) (Some (jstr "{'mcpServers':{}}")) old_backup)
    [].


(** The world in which the key file has been rewritten to hold [t]. *)
Definition with_key (w : world) (t : text) : world :=
  mkWorld (home w) (store (fs w) ApiKeyFile t) (log w).

(** A configuration cut short, next to a stale backup. *)
Definition truncated : world :=
  mkWorld (str "/home/user")
    (mkFiles (Some (str "abc123")) (Some (jstr "{'mcpServers': {")) (Some (str "stale")))
    [].

(** A configuration file that holds a newline only. *)
Definition blank_config : world :=
  mkWorld (str "/home/user")
    (mkFiles (Some (str "abc123")) (Some [10%N]) (Some (str "stale")))
    [].

(** A configuration whose [mcpServers] is a list, next to a stale backup. *)
Definition servers_list : world :=
  mkWorld (str "/home/user")
    (mkFiles (Some (str "abc123")) (Some (jstr "{'theme': 'dark', 'mcpServers': []}"))
             (Some (str "stale")))
    [].


(** [float_repr] for the examples.  Every float of the examples is written
    there as [float.__repr__] writes it (2.5, not 2.50), and on such a text
    [float_repr] gives the text itself. *)
Definition repr_unchanged (lit : text) : text := lit.

(** What is assumed of [float_repr]: the text written for a float is read
    back as the same float.  For every literal that is read as a float,
    the text written for that float is one of the three constants, or is
    itself read, whole, as a float that is written as the same text.  This
    is the round trip of [float.__repr__] and [float], and the shape of
    what [float.__repr__] gives. *)
Hypothesis float_repr_reads_back :
  forall lit, reads_as_float lit = true -> is_float_literal (float_repr lit) = true.

(* ================================================================== *)
(** * Texts and dicts *)

Lemma text_eqb_refl (a : text) : text_eqb a a = true.
Proof.
  induction a as [|x a IH]; simpl; [reflexivity|].
  now rewrite N.eqb_refl, IH.
Qed.

Lemma text_eqb_eq (a b : text) : text_eqb a b = true <-> a = b.
Proof.
  split.
  - revert b. induction a as [|x a IH]; intros [|y b]; simpl; try easy.
    rewrite andb_true_iff, N.eqb_eq. intros [-> H]. now rewrite (IH _ H).
  - intros ->. apply text_eqb_refl.
Qed.

Lemma text_eqb_neq (a b : text) : text_eqb a b = false <-> a <> b.
Proof.
  rewrite <- text_eqb_eq. destruct (text_eqb a b); split; congruence.
Qed.

Lemma text_eqb_sym (a b : text) : text_eqb a b = text_eqb b a.
Proof.
  destruct (text_eqb a b) eqn:E.
  - apply text_eqb_eq in E. subst. now rewrite text_eqb_refl.
  - destruct (text_eqb b a) eqn:E'; [|reflexivity].
    apply text_eqb_eq in E'. subst. now rewrite text_eqb_refl in E.
Qed.

Lemma dict_get_set_same d k v : dict_get (dict_set d k v) k = Some v.
Proof.
  induction d as [|[k' v'] d IH]; simpl.
  - now rewrite text_eqb_refl.
  - destruct (text_eqb k' k) eqn:E; simpl; now rewrite E.
Qed.

Lemma dict_get_set_other d k k' v :
  k' <> k -> dict_get (dict_set d k v) k' = dict_get d k'.
Proof.
  intros N. induction d as [|[k0 v0] d IH]; simpl.
  - destruct (text_eqb k k') eqn:E; [|reflexivity].
    apply text_eqb_eq in E. congruence.
  - destruct (text_eqb k0 k) eqn:E; simpl.
    + apply text_eqb_eq in E. subst k0.
      destruct (text_eqb k k') eqn:E'; [|reflexivity].
      apply text_eqb_eq in E'. congruence.
    + now rewrite IH.
Qed.

Lemma dict_has_get d k : dict_has d k = true <-> exists v, dict_get d k = Some v.
Proof.
  unfold dict_has. destruct (dict_get d k); split; try easy.
  - now exists p.
  - now intros [v H].
Qed.

Lemma dict_has_none d k : dict_has d k = false <-> dict_get d k = None.
Proof. unfold dict_has. destruct (dict_get d k); split; easy. Qed.

Lemma dict_has_set_other d k k' v :
  k' <> k -> dict_has (dict_set d k v) k' = dict_has d k'.
Proof. intros N. unfold dict_has. now rewrite dict_get_set_other. Qed.

Lemma dict_has_set_same d k v : dict_has (dict_set d k v) k = true.
Proof. unfold dict_has. now rewrite dict_get_set_same. Qed.

Lemma keys_set_present d k v :
  dict_has d k = true -> keys (dict_set d k v) = keys d.
Proof.
  unfold dict_has. induction d as [|[k' v'] d IH]; simpl; [easy|].
  destruct (text_eqb k' k) eqn:E; simpl; [reflexivity|].
  intros H. now rewrite IH.
Qed.

Lemma keys_set_absent d k v :
  dict_has d k = false -> keys (dict_set d k v) = keys d ++ [k].
Proof.
  unfold dict_has. induction d as [|[k' v'] d IH]; simpl; [reflexivity|].
  destruct (text_eqb k' k) eqn:E; simpl; [easy|].
  intros H. now rewrite IH.
Qed.

Lemma dict_set_same_value d k v : dict_get d k = Some v -> dict_set d k v = d.
Proof.
  induction d as [|[k' v'] d IH]; simpl; [easy|].
  destruct (text_eqb k' k) eqn:E.
  - now intros [= ->].
  - intros H. now rewrite IH.
Qed.

Lemma dict_set_set d k v v' : dict_set (dict_set d k v) k v' = dict_set d k v'.
Proof.
  induction d as [|[k0 v0] d IH]; simpl.
  - now rewrite text_eqb_refl.
  - destruct (text_eqb k0 k) eqn:E; simpl; rewrite E; [reflexivity|].
    now rewrite IH.
Qed.

Lemma existsb_keys_has d k : existsb (text_eqb k) (map fst d) = dict_has d k.
Proof.
  unfold dict_has. induction d as [|[k' v'] d IH]; simpl; [reflexivity|].
  rewrite (text_eqb_sym k k'). destruct (text_eqb k' k); simpl; [reflexivity|].
  exact IH.
Qed.

Lemma unique_set d k v :
  unique (map fst d) = true -> unique (map fst (dict_set d k v)) = true.
Proof.
  induction d as [|[k' v'] d IH]; simpl; [reflexivity|].
  rewrite andb_true_iff, negb_true_iff. intros [H1 H2].
  destruct (text_eqb k' k) eqn:E; simpl.
  - now rewrite H1, H2.
  - rewrite (IH H2), andb_true_r, negb_true_iff.
    rewrite existsb_keys_has in *.
    rewrite dict_has_set_other; [exact H1|].
    now apply text_eqb_neq.
Qed.

Lemma forallb_set (P : pyobj -> bool) d k v :
  forallb (fun kv => P (snd kv)) d = true -> P v = true ->
  forallb (fun kv => P (snd kv)) (dict_set d k v) = true.
Proof.
  intros H Hv. induction d as [|[k' v'] d IH]; simpl in *.
  - now rewrite Hv.
  - apply andb_true_iff in H as [H1 H2].
    destruct (text_eqb k' k); simpl.
    + now rewrite Hv, H2.
    + now rewrite H1, IH.
Qed.

Lemma forallb_get (P : pyobj -> bool) d k v :
  forallb (fun kv => P (snd kv)) d = true -> dict_get d k = Some v -> P v = true.
Proof.
  induction d as [|[k' v'] d IH]; simpl; [easy|].
  rewrite andb_true_iff. intros [H1 H2].
  destruct (text_eqb k' k); [now intros [= <-]|now apply IH].
Qed.

Lemma well_formed_set d k v :
  well_formed (PyDict d) = true -> well_formed v = true ->
  well_formed (PyDict (dict_set d k v)) = true.
Proof.
  simpl. rewrite !andb_true_iff. intros [H1 H2] Hv. split.
  - now apply unique_set.
  - now apply forallb_set.
Qed.

Lemma well_formed_get d k v :
  well_formed (PyDict d) = true -> dict_get d k = Some v -> well_formed v = true.
Proof.
  simpl. rewrite andb_true_iff. intros [_ H]. now apply forallb_get.
Qed.

(* ================================================================== *)
(** * Lines 39-56 on a document *)

Ltac step := cbn [set_at get_at getitem setitem contains bind].

Lemma set_at_1 top p d k v :
  set_at (PyDict (dict_set top p (PyDict d))) [p] k v
  = Ok (PyDict (dict_set top p (PyDict (dict_set d k v)))).
Proof.
  step. rewrite dict_get_set_same. step. now rewrite dict_set_set.
Qed.

Lemma set_at_2 top p d q e k v :
  set_at (PyDict (dict_set top p (PyDict (dict_set d q (PyDict e))))) [p; q] k v
  = Ok (PyDict (dict_set top p (PyDict (dict_set d q (PyDict (dict_set e k v)))))).
Proof.
  step. rewrite dict_get_set_same. step.
  rewrite dict_get_set_same. step. now rewrite !dict_set_set.
Qed.

Lemma set_at_3 top p d q e r h k v :
  dict_get e r = Some (PyDict h) ->
  set_at (PyDict (dict_set top p (PyDict (dict_set d q (PyDict e))))) [p; q; r] k v
  = Ok (PyDict (dict_set top p (PyDict (dict_set d q
            (PyDict (dict_set e r (PyDict (dict_set h k v)))))))).
Proof.
  intros H. step. rewrite dict_get_set_same. step.
  rewrite dict_get_set_same. step.
  rewrite H. step. now rewrite !dict_set_set.
Qed.

Lemma get_at_2 top p d q v :
  get_at (PyDict (dict_set top p (PyDict (dict_set d q v)))) [p; q] = Ok v.
Proof.
  step. rewrite dict_get_set_same. step. now rewrite dict_get_set_same.
Qed.

Lemma names_differ : text_eqb EASYGRID EASYGRID_MCP = false.
Proof. reflexivity. Qed.

Lemma selection_rule_cases servers :
  selection_rule servers = EASYGRID \/ selection_rule servers = EASYGRID_MCP.
Proof.
  unfold selection_rule.
  destruct (dict_has servers EASYGRID); [now left|].
  destruct (dict_has servers EASYGRID_MCP); [now right|now left].
Qed.

(** Lines 51-56 on a document whose chosen entry is an object. *)
Lemma fields_ok api_key top servers name entry :
  dict_or_missing (dict_get entry HEADERS) = true ->
  (config <- ensure_headers name
     (PyDict (dict_set top MCP_SERVERS (PyDict (dict_set servers name (PyDict entry))))) ;;
   set_fields api_key name config)
  = Ok (PyDict (dict_set top MCP_SERVERS
                  (PyDict (dict_set servers name (PyDict (entry_after api_key entry)))))).
Proof.
  intros H. unfold ensure_headers, set_fields, entry_after, fields_of.
  rewrite get_at_2. cbn [contains bind]. unfold dict_has.
  destruct (dict_get entry HEADERS) as [[| | | | | |h]|] eqn:E; try discriminate H;
    cbn [negb bind].
  - rewrite (set_at_3 _ _ _ _ _ _ _ _ _ E). cbn [bind]. rewrite set_at_2. cbn [bind].
    now rewrite set_at_2.
  - rewrite set_at_2. cbn [bind].
    rewrite (set_at_3 _ _ _ _ _ _ _ _ _ (dict_get_set_same _ _ _)). cbn [bind].
    rewrite set_at_2. cbn [bind].
    rewrite set_at_2. now rewrite dict_set_set.
Qed.

(** Lines 51-56 raise when [headers] is there and is not an object. *)
Lemma fields_raise api_key top servers name entry :
  dict_or_missing (dict_get entry HEADERS) = false ->
  (config <- ensure_headers name
     (PyDict (dict_set top MCP_SERVERS (PyDict (dict_set servers name (PyDict entry))))) ;;
   set_fields api_key name config)
  = Raise TypeError.
Proof.
  intros H. unfold ensure_headers, set_fields.
  rewrite get_at_2. step. unfold dict_has.
  destruct (dict_get entry HEADERS) as [v|] eqn:E; [|discriminate H].
  cbn [negb bind]. step.
  rewrite dict_get_set_same. step. rewrite dict_get_set_same. step. rewrite E.
  destruct v; try reflexivity. discriminate H.
Qed.

(** Lines 51-56 raise when the chosen entry is not an object. *)
Lemma entry_raise api_key top servers name v :
  (forall e, v <> PyDict e) ->
  (config <- ensure_headers name
     (PyDict (dict_set top MCP_SERVERS (PyDict (dict_set servers name v)))) ;;
   set_fields api_key name config)
  = Raise TypeError.
Proof.
  intros H. unfold ensure_headers, set_fields.
  rewrite get_at_2.
  destruct v; try reflexivity; step.
  - destruct (substring_in HEADERS s); cbn [negb bind]; step;
      rewrite dict_get_set_same; step; rewrite dict_get_set_same; reflexivity.
  - destruct (existsb (eq_str HEADERS) items); cbn [negb bind]; step;
      rewrite dict_get_set_same; step; rewrite dict_get_set_same; reflexivity.
  - now destruct (H items).
Qed.

(** Lines 43-49 on a document whose [mcpServers] is an object. *)
Lemma select_server_dict top servers :
  select_server (PyDict (dict_set top MCP_SERVERS (PyDict servers)))
  = Ok (selection_rule servers,
        PyDict (dict_set top MCP_SERVERS
                  (PyDict (dict_set servers (selection_rule servers)
                             (entry_value servers (selection_rule servers)))))).
Proof.
  unfold select_server, selection_rule, entry_value.
  cbn [getitem bind]. rewrite dict_get_set_same. cbn [contains bind].
  destruct (dict_has servers EASYGRID) eqn:E1; cbn [negb bind].
  - apply dict_has_get in E1 as [v E1]. rewrite E1.
    now rewrite (dict_set_same_value _ _ _ E1).
  - cbn [getitem bind].
    destruct (dict_has servers EASYGRID_MCP) eqn:E2.
    + apply dict_has_get in E2 as [v E2]. rewrite E2.
      now rewrite (dict_set_same_value _ _ _ E2).
    + rewrite set_at_1. cbn [bind].
      apply dict_has_none in E1. now rewrite E1.
Qed.

(** Lines 43-56 raise when [mcpServers] is not an object. *)
Lemma servers_raise api_key top v :
  dict_get top MCP_SERVERS = Some v -> (forall s, v <> PyDict s) ->
  ('(name, config) <- select_server (PyDict top) ;;
   config <- ensure_headers name config ;;
   set_fields api_key name config) = Raise TypeError.
Proof.
  intros H N. unfold select_server, ensure_headers, set_fields.
  destruct v; try (now destruct (N items));
    repeat first [ rewrite H
                 | progress cbn [negb bind getitem setitem contains get_at set_at]
                 | match goal with
                   | |- context [if ?b then _ else _] => destruct b
                   end ];
    reflexivity.
Qed.

Lemma ensure_mcp_servers_dict top :
  ensure_mcp_servers (PyDict top)
  = Ok (PyDict (dict_set top MCP_SERVERS
                  (match dict_get top MCP_SERVERS with
                   | Some v => v
                   | None => PyDict []
                   end))).
Proof.
  unfold ensure_mcp_servers. cbn [contains bind setitem]. unfold dict_has.
  destruct (dict_get top MCP_SERVERS) as [v|] eqn:E; cbn [negb].
  - now rewrite (dict_set_same_value _ _ _ E).
  - reflexivity.
Qed.

(** Lines 39-56 raise when the document is not an object. *)
Lemma update_config_raise api_key config :
  (forall top, config <> PyDict top) -> update_config api_key config = Raise TypeError.
Proof.
  intros N. unfold update_config, ensure_mcp_servers, select_server.
  destruct config; try (now destruct (N items));
    repeat first [ progress cbn [negb bind getitem setitem contains get_at set_at]
                 | match goal with
                   | |- context [if ?b then _ else _] => destruct b
                   end ];
    reflexivity.
Qed.

(** Lines 39-56, completely: on an updatable document they yield
    [config_after]; on any other they raise [TypeError]. *)
Lemma update_config_spec api_key config :
  update_config api_key config
  = if updatable config then Ok (config_after api_key config) else Raise TypeError.
Proof.
  destruct config as [| | | | | |top];
    try (rewrite update_config_raise by congruence; reflexivity).
  unfold update_config. rewrite ensure_mcp_servers_dict. cbn [bind].
  unfold updatable, config_after, servers_of.
  destruct (dict_get top MCP_SERVERS) as [v|] eqn:E.
  - destruct v as [| | | | | |servers];
      try (rewrite (dict_set_same_value _ _ _ E);
           rewrite (servers_raise api_key top _ E) by congruence; reflexivity).
    rewrite select_server_dict. cbn [bind]. cbn [dict_or_missing andb].
    unfold fields_of, entry_value.
    destruct (dict_get servers (selection_rule servers)) as [v|] eqn:E';
      cbn [dict_or_missing andb].
    + destruct v as [| | | | | |entry];
        try (rewrite entry_raise by congruence; reflexivity).
      destruct (dict_or_missing (dict_get entry HEADERS)) eqn:E''.
      * now rewrite fields_ok.
      * now rewrite fields_raise.
    + now rewrite fields_ok.
  - rewrite select_server_dict. cbn [bind]. cbn [dict_or_missing andb].
    unfold fields_of, entry_value. cbn [dict_get dict_or_missing andb].
    now rewrite fields_ok.
Qed.

(* ================================================================== *)
(** * The runs of main *)

Lemma extend_home w es : home (extend w es) = home w.
Proof.
  unfold extend. revert w. induction es as [|e es IH]; intros w; simpl; [reflexivity|].
  now rewrite IH.
Qed.

Lemma extend_log w es : log (extend w es) = log w ++ es.
Proof.
  unfold extend. revert w. induction es as [|e es IH]; intros w; simpl.
  - now rewrite List.app_nil_r.
  - rewrite IH. simpl. now rewrite <- List.app_assoc.
Qed.

Lemma extend_fs w es : fs (extend w es) = replay (fs w) es.
Proof.
  unfold extend, replay. revert w. induction es as [|e es IH]; intros w; simpl; [reflexivity|].
  now rewrite IH.
Qed.

Lemma events_of_extend w es : events_of w (extend w es) = es.
Proof.
  unfold events_of. rewrite extend_log.
  induction (log w) as [|e l IH]; simpl; [reflexivity|exact IH].
Qed.

Lemma write_chunks_ok chunks :
  snd (write_chunks chunks) = true -> fst (write_chunks chunks) = concat chunks.
Proof.
  induction chunks as [|c cs IH]; simpl; [reflexivity|].
  destruct (encodable c); [|discriminate].
  destruct (write_chunks cs) as [t ok]. simpl in *. intros H. now rewrite IH.
Qed.

Lemma encodable_app a b : encodable (a ++ b) = encodable a && encodable b.
Proof. unfold encodable. apply forallb_app. Qed.

Lemma write_chunks_encodable chunks :
  snd (write_chunks chunks) = encodable (concat chunks).
Proof.
  induction chunks as [|c cs IH]; simpl; [reflexivity|].
  rewrite encodable_app.
  destruct (encodable c); [|reflexivity].
  destruct (write_chunks cs) as [t ok]. simpl in *. exact IH.
Qed.

(** What reaches the file when every chunk can be encoded: [dumps]. *)
Lemma write_chunks_dumps o :
  encodable (dumps o) = true -> write_chunks (iterencode 0 o) = (dumps o, true).
Proof.
  intros H. unfold dumps in *. rewrite <- write_chunks_encodable in H.
  pose proof (write_chunks_ok _ H).
  destruct (write_chunks (iterencode 0 o)); simpl in *; congruence.
Qed.

Lemma write_chunks_fails o :
  encodable (dumps o) = false ->
  write_chunks (iterencode 0 o) = (fst (write_chunks (iterencode 0 o)), false).
Proof.
  intros H. unfold dumps in *. rewrite <- write_chunks_encodable in H.
  destruct (write_chunks (iterencode 0 o)); simpl in *; congruence.
Qed.

Ltac run_main :=
  unfold main, json_load, json_dump, bindM, get_home, exists_, read_text,
    print, lift, ret, extend; cbn [content fold_left].

(** Line 15: the key file is missing. *)
Lemma main_no_key w :
  api_key_file (fs w) = None ->
  main w = (Ok 1%Z, extend w [Printed (msg_no_key (home w)); Printed MSG_HINT]).
Proof. intros H. run_main. rewrite H. reflexivity. Qed.

(** Line 21: the key is empty. *)
Lemma main_empty_key w t :
  api_key_file (fs w) = Some t -> strip t = [] ->
  main w = (Ok 1%Z, extend w [Printed MSG_EMPTY]).
Proof. intros H E. run_main. rewrite H. cbn [negb]. rewrite H. rewrite E. reflexivity. Qed.

(** Line 25: the configuration file is missing. *)
Lemma main_no_config w t :
  api_key_file (fs w) = Some t -> strip t <> [] -> mcp_json (fs w) = None ->
  main w = (Ok 1%Z, extend w [Printed (msg_no_config (home w))]).
Proof.
  intros H E C. run_main. rewrite H. cbn [negb]. rewrite H.
  destruct (strip t); [congruence|]. rewrite C. reflexivity.
Qed.

(** Line 31: the configuration file is not JSON. *)
Lemma main_bad_json w t c e :
  api_key_file (fs w) = Some t -> strip t <> [] -> mcp_json (fs w) = Some c ->
  loads c = Raise e ->
  main w = (Raise e, w).
Proof.
  intros H E C L. run_main. rewrite H. cbn [negb]. rewrite H.
  destruct (strip t); [congruence|]. rewrite C. cbn [negb]. rewrite C, L. reflexivity.
Qed.

(** Lines 35-36: the backup cannot be encoded. *)
Lemma main_backup_fails w t c config :
  api_key_file (fs w) = Some t -> strip t <> [] -> mcp_json (fs w) = Some c ->
  loads c = Ok config -> encodable (dumps config) = false ->
  main w = (Raise UnicodeEncodeError,
            extend w [Opened Backup;
                      Closed Backup (fst (write_chunks (iterencode 0 config)))]).
Proof.
  intros H E C L W. run_main. rewrite H. cbn [negb]. rewrite H.
  destruct (strip t); [congruence|]. rewrite C. cbn [negb]. rewrite C, L.
  rewrite (write_chunks_fails _ W). reflexivity.
Qed.

(** Lines 39-56 raise. *)
Lemma main_update_raises w t c config e :
  api_key_file (fs w) = Some t -> strip t <> [] -> mcp_json (fs w) = Some c ->
  loads c = Ok config -> encodable (dumps config) = true ->
  update_config (strip t) config = Raise e ->
  main w = (Raise e, extend w [Opened Backup; Closed Backup (dumps config)]).
Proof.
  intros H E C L W U. run_main. rewrite H. cbn [negb]. rewrite H.
  destruct (strip t) eqn:S; [congruence|]. rewrite C. cbn [negb]. rewrite C, L.
  rewrite (write_chunks_dumps _ W). cbn [emit lift]. rewrite U. reflexivity.
Qed.

(** Lines 59-60: the updated document cannot be encoded. *)
Lemma main_write_fails w t c config config' :
  api_key_file (fs w) = Some t -> strip t <> [] -> mcp_json (fs w) = Some c ->
  loads c = Ok config -> encodable (dumps config) = true ->
  update_config (strip t) config = Ok config' ->
  encodable (dumps config') = false ->
  main w = (Raise UnicodeEncodeError,
            extend w [Opened Backup; Closed Backup (dumps config);
                      Opened McpJson;
                      Closed McpJson (fst (write_chunks (iterencode 0 config')))]).
Proof.
  intros H E C L W U W'. run_main. rewrite H. cbn [negb]. rewrite H.
  destruct (strip t) eqn:S; [congruence|]. rewrite C. cbn [negb]. rewrite C, L.
  rewrite (write_chunks_dumps _ W). cbn [emit lift]. rewrite U.
  rewrite (write_chunks_fails _ W'). reflexivity.
Qed.

(** Line 64: the run that succeeds. *)
Lemma main_ok w t c config config' :
  api_key_file (fs w) = Some t -> strip t <> [] -> mcp_json (fs w) = Some c ->
  loads c = Ok config -> encodable (dumps config) = true ->
  update_config (strip t) config = Ok config' ->
  encodable (dumps config') = true ->
  main w = (Ok 0%Z,
            extend w [Opened Backup; Closed Backup (dumps config);
                      Opened McpJson; Closed McpJson (dumps config');
                      Printed (msg_updated (home w)); Printed MSG_RESTART]).
Proof.
  intros H E C L W U W'. run_main. rewrite H. cbn [negb]. rewrite H.
  destruct (strip t) eqn:S; [congruence|]. rewrite C. cbn [negb]. rewrite C, L.
  rewrite (write_chunks_dumps _ W). cbn [emit lift]. rewrite U.
  rewrite (write_chunks_dumps _ W'). reflexivity.
Qed.

(** Every run is one of the eight above. *)
Lemma main_cases w :
  (api_key_file (fs w) = None /\
   main w = (Ok 1%Z, extend w [Printed (msg_no_key (home w)); Printed MSG_HINT]))
  \/ (exists t, api_key_file (fs w) = Some t /\ strip t = [] /\
      main w = (Ok 1%Z, extend w [Printed MSG_EMPTY]))
  \/ (exists t, api_key_file (fs w) = Some t /\ strip t <> [] /\
      mcp_json (fs w) = None /\
      main w = (Ok 1%Z, extend w [Printed (msg_no_config (home w))]))
  \/ (exists t c e, api_key_file (fs w) = Some t /\ strip t <> [] /\
      mcp_json (fs w) = Some c /\ loads c = Raise e /\
      main w = (Raise e, w))
  \/ (exists t c config, api_key_file (fs w) = Some t /\ strip t <> [] /\
      mcp_json (fs w) = Some c /\ loads c = Ok config /\
      encodable (dumps config) = false /\
      main w = (Raise UnicodeEncodeError,
                extend w [Opened Backup;
                          Closed Backup (fst (write_chunks (iterencode 0 config)))]))
  \/ (exists t c config e, api_key_file (fs w) = Some t /\ strip t <> [] /\
      mcp_json (fs w) = Some c /\ loads c = Ok config /\
      encodable (dumps config) = true /\
      update_config (strip t) config = Raise e /\
      main w = (Raise e, extend w [Opened Backup; Closed Backup (dumps config)]))
  \/ (exists t c config config', api_key_file (fs w) = Some t /\ strip t <> [] /\
      mcp_json (fs w) = Some c /\ loads c = Ok config /\
      encodable (dumps config) = true /\
      update_config (strip t) config = Ok config' /\
      encodable (dumps config') = false /\
      main w = (Raise UnicodeEncodeError,
                extend w [Opened Backup; Closed Backup (dumps config);
                          Opened McpJson;
                          Closed McpJson (fst (write_chunks (iterencode 0 config')))]))
  \/ (exists t c config config', api_key_file (fs w) = Some t /\ strip t <> [] /\
      mcp_json (fs w) = Some c /\ loads c = Ok config /\
      encodable (dumps config) = true /\
      update_config (strip t) config = Ok config' /\
      encodable (dumps config') = true /\
      main w = (Ok 0%Z,
                extend w [Opened Backup; Closed Backup (dumps config);
                          Opened McpJson; Closed McpJson (dumps config');
                          Printed (msg_updated (home w)); Printed MSG_RESTART])).
Proof.
  destruct (api_key_file (fs w)) as [t|] eqn:K.
  2:{ left. split; [reflexivity|]. now apply main_no_key. }
  right. destruct (strip t) as [|k0 k] eqn:S.
  { left. exists t. repeat split; try assumption. now apply main_empty_key with t. }
  assert (NE : strip t <> []) by (rewrite S; discriminate).
  clear S.
  right. destruct (mcp_json (fs w)) as [c|] eqn:C.
  2:{ left. exists t. repeat split; try assumption. now apply main_no_config with t. }
  right. destruct (loads c) as [config|e] eqn:L.
  2:{ left. exists t, c, e. repeat split; try assumption.
      now apply main_bad_json with t c. }
  right. destruct (encodable (dumps config)) eqn:W.
  2:{ left. exists t, c, config. repeat split; try assumption.
      now apply main_backup_fails with t c. }
  right. destruct (update_config (strip t) config) as [config'|e] eqn:U.
  2:{ left. exists t, c, config, e. repeat split; try assumption.
      now apply main_update_raises with t c. }
  right. destruct (encodable (dumps config')) eqn:W'.
  2:{ left. exists t, c, config, config'. repeat split; try assumption.
      now apply main_write_fails with t c. }
  right. exists t, c, config, config'. repeat split; try assumption.
  now apply main_ok with t c.
Qed.

(** A run that returns 0 went through every step. *)
Lemma main_returns_0 w w' :
  main w = (Ok 0%Z, w') ->
  exists t c config config',
    api_key_file (fs w) = Some t /\ strip t <> [] /\
    mcp_json (fs w) = Some c /\ loads c = Ok config /\
    encodable (dumps config) = true /\
    update_config (strip t) config = Ok config' /\
    encodable (dumps config') = true /\
    w' = extend w [Opened Backup; Closed Backup (dumps config);
                   Opened McpJson; Closed McpJson (dumps config');
                   Printed (msg_updated (home w)); Printed MSG_RESTART].
Proof.
  intros H.
  destruct (main_cases w) as
    [[_ M]|[(t & _ & _ & M)|[(t & _ & _ & _ & M)|[(t & c & e & _ & _ & _ & _ & M)|
     [(t & c & cf & _ & _ & _ & _ & _ & M)|[(t & c & cf & e & _ & _ & _ & _ & _ & _ & M)|
     [(t & c & cf & cf' & _ & _ & _ & _ & _ & _ & _ & M)|
      (t & c & cf & cf' & K & S & C & L & W & U & W' & M)]]]]]]];
    rewrite M in H; try discriminate H.
  exists t, c, cf, cf'. repeat split; try assumption. now inversion H.
Qed.

(* ================================================================== *)
(** * Numbers *)

Arguments is_digit : simpl never.

Lemma span_digits_app ds r :
  forallb is_digit ds = true -> no_digit_ahead r -> span_digits (ds ++ r) = (ds, r).
Proof.
  intros H R. induction ds as [|c ds IH]; simpl in *.
  - destruct r as [|c r]; [reflexivity|]. simpl in *. now rewrite R.
  - apply andb_true_iff in H as [H1 H2]. now rewrite H1, IH.
Qed.

Lemma span_digits_inv s ds r :
  span_digits s = (ds, r) ->
  s = ds ++ r /\ forallb is_digit ds = true /\ no_digit_ahead r.
Proof.
  revert ds r. induction s as [|c s IH]; intros ds r; simpl.
  - intros [= <- <-]. now repeat split.
  - destruct (is_digit c) eqn:D.
    + destruct (span_digits s) as [ds' r'] eqn:E. intros [= <- <-].
      destruct (IH _ _ eq_refl) as (-> & H1 & H2).
      repeat split; simpl; [now rewrite D, H1|exact H2].
    + intros [= <- <-]. repeat split. exact D.
Qed.

Lemma follows_no_digit r : follows r = true -> no_digit_ahead r.
Proof.
  destruct r as [|c r]; simpl; [easy|].
  rewrite orb_true_iff, !N.eqb_eq. now intros [-> | ->].
Qed.

Lemma match_integer_inv s i r :
  match_integer s = Some (i, r) -> s = i ++ r /\ integer_ok i = true.
Proof.
  destruct s as [|c s]; simpl; [discriminate|].
  destruct (is_digit c) eqn:D; [|discriminate].
  destruct (N.eqb c 48) eqn:Z.
  - intros [= <- <-]. simpl. now rewrite D, Z.
  - destruct (span_digits s) as [ds r'] eqn:E. intros [= <- <-].
    destruct (span_digits_inv _ _ _ E) as (-> & H & _).
    simpl. now rewrite D, Z, H.
Qed.

Lemma match_integer_app i r :
  integer_ok i = true -> no_digit_ahead r -> match_integer (i ++ r) = Some (i, r).
Proof.
  destruct i as [|c ds]; simpl; [discriminate|].
  intros H R. apply andb_true_iff in H as [D H]. rewrite D.
  destruct (N.eqb c 48).
  - now destruct ds.
  - now rewrite span_digits_app.
Qed.

Lemma digits_ok_span ds r :
  digits_ok ds = true -> no_digit_ahead r ->
  exists c ds', ds = c :: ds' /\ span_digits (ds ++ r) = (c :: ds', r).
Proof.
  destruct ds as [|c ds']; [discriminate|]. intros H R.
  exists c, ds'. split; [reflexivity|]. now apply span_digits_app.
Qed.

Lemma match_frac_inv s f r : match_frac s = (f, r) -> s = f ++ r /\ frac_ok f = true.
Proof.
  destruct s as [|d s]; simpl; [now intros [= <- <-]|].
  destruct (N.eqb d 46) eqn:D; [|now intros [= <- <-]].
  destruct (span_digits s) as [[|c ds] r'] eqn:E; intros [= <- <-]; [easy|].
  destruct (span_digits_inv _ _ _ E) as (-> & H & _).
  split; [reflexivity|]. simpl in *. now rewrite D, H.
Qed.

Lemma match_frac_app f r :
  frac_ok f = true -> f <> [] -> no_digit_ahead r -> match_frac (f ++ r) = (f, r).
Proof.
  destruct f as [|d ds]; [easy|]. simpl. intros H _ R.
  apply andb_true_iff in H as [-> H].
  destruct (digits_ok_span ds r H R) as (c & ds' & -> & ->). reflexivity.
Qed.

Lemma match_frac_none r : head r <> Some 46%N -> match_frac r = ([], r).
Proof.
  destruct r as [|d r]; simpl; [reflexivity|]. intros H.
  destruct (N.eqb_spec d 46); [subst; now destruct H|reflexivity].
Qed.

Lemma match_exp_inv s e r : match_exp s = (e, r) -> s = e ++ r /\ exp_ok e = true.
Proof.
  destruct s as [|c s]; simpl; [now intros [= <- <-]|].
  destruct (N.eqb c 101 || N.eqb c 69) eqn:C; [|now intros [= <- <-]].
  destruct s as [|g s].
  - simpl. now intros [= <- <-].
  - destruct (N.eqb g 45 || N.eqb g 43) eqn:G.
    + destruct (span_digits s) as [[|d ds] r'] eqn:E; intros [= <- <-]; [easy|].
      destruct (span_digits_inv _ _ _ E) as (-> & H & _).
      split; [reflexivity|]. simpl in *. now rewrite C, G, H.
    + destruct (span_digits (g :: s)) as [[|d ds] r'] eqn:E; intros [= <- <-]; [easy|].
      destruct (span_digits_inv _ _ _ E) as (E' & H & _).
      split; [simpl; now rewrite E'|].
      simpl in E. destruct (is_digit g) eqn:Dg; [|discriminate E].
      destruct (span_digits s) as [ds0 r0]. injection E as <- <- <-.
      simpl exp_ok. rewrite C, G. simpl in *. now rewrite Dg in *.
Qed.

Lemma match_exp_app e r :
  exp_ok e = true -> e <> [] -> no_digit_ahead r -> match_exp (e ++ r) = (e, r).
Proof.
  destruct e as [|c e]; [easy|]. intros H _ R. simpl in H.
  apply andb_true_iff in H as [C H].
  destruct e as [|g ds]; [discriminate|].
  unfold match_exp. cbn [app]. rewrite C.
  destruct (N.eqb g 45 || N.eqb g 43) eqn:G.
  - destruct (digits_ok_span ds r H R) as (d & ds' & -> & ->). reflexivity.
  - destruct (digits_ok_span (g :: ds) r H R) as (d & ds' & E & E').
    change (g :: ds ++ r) with ((g :: ds) ++ r). rewrite E'.
    now injection E as -> ->.
Qed.

Lemma match_exp_none r :
  head r <> Some 101%N -> head r <> Some 69%N -> match_exp r = ([], r).
Proof.
  destruct r as [|c r]; simpl; [reflexivity|]. intros H1 H2.
  destruct (N.eqb_spec c 101); [subst; now destruct H1|].
  destruct (N.eqb_spec c 69); [subst; now destruct H2|reflexivity].
Qed.

Lemma match_sign_inv s neg s0 :
  match_sign s = (neg, s0) -> s = sign_text neg ++ s0.
Proof.
  destruct s as [|c s']; simpl; [now intros [= <- <-]|].
  destruct (N.eqb_spec c 45); intros [= <- <-]; [now subst|reflexivity].
Qed.

Lemma match_sign_app neg s0 :
  head s0 <> Some 45%N -> match_sign (sign_text neg ++ s0) = (neg, s0).
Proof.
  intros H. destruct neg; [reflexivity|].
  destruct s0 as [|c s0]; [reflexivity|]. simpl in *.
  destruct (N.eqb_spec c 45); [subst; now destruct H|reflexivity].
Qed.

(** What [match_number] accepts has the shape of a number. *)
Lemma match_number_inv s v r :
  match_number s = Some (v, r) ->
  exists neg i f e,
    s = number_text neg i f e ++ r /\ integer_ok i = true /\ frac_ok f = true
    /\ exp_ok e = true /\ v = number_value neg i f e.
Proof.
  unfold match_number.
  destruct (match_sign s) as [neg s0] eqn:S.
  destruct (match_integer s0) as [[i r1]|] eqn:I; [|discriminate].
  destruct (match_frac r1) as [f r2] eqn:F.
  destruct (match_exp r2) as [e r3] eqn:E.
  intros [= <- <-].
  apply match_sign_inv in S.
  apply match_integer_inv in I as [-> Hi].
  apply match_frac_inv in F as [-> Hf].
  apply match_exp_inv in E as [-> He].
  exists neg, i, f, e. repeat split; try assumption.
  unfold number_text. now rewrite S, <- !List.app_assoc.
Qed.

Lemma follows_head r c :
  follows r = true -> c <> 44%N -> c <> 10%N -> head r <> Some c.
Proof.
  destruct r as [|d r]; simpl; [easy|].
  rewrite orb_true_iff, !N.eqb_eq. intros [-> | ->] H1 H2 [= <-]; congruence.
Qed.

Lemma integer_ok_head i : integer_ok i = true -> exists c ds, i = c :: ds /\ is_digit c = true.
Proof.
  destruct i as [|c ds]; simpl; [discriminate|].
  rewrite andb_true_iff. intros [H _]. now exists c, ds.
Qed.

(** A text of the shape of a number is matched whole when what follows
    cannot continue it. *)
Lemma match_number_app neg i f e r :
  integer_ok i = true -> frac_ok f = true -> exp_ok e = true -> follows r = true ->
  match_number (number_text neg i f e ++ r) = Some (number_value neg i f e, r).
Proof.
  intros Hi Hf He R. unfold match_number, number_text.
  destruct (integer_ok_head _ Hi) as (c & ds & Ei & Dc).
  rewrite <- !List.app_assoc.
  rewrite match_sign_app.
  2:{ subst i. simpl. intros [= ->]. discriminate Dc. }
  assert (R' := follows_no_digit _ R).
  assert (Nf : no_digit_ahead (f ++ e ++ r)).
  { destruct f as [|d f']; simpl.
    - destruct e as [|d e']; simpl; [exact R'|].
      simpl in He. apply andb_true_iff in He as [He _].
      apply orb_true_iff in He as [He|He]; apply N.eqb_eq in He; now subst.
    - simpl in Hf. apply andb_true_iff in Hf as [Hf _].
      apply N.eqb_eq in Hf. now subst. }
  rewrite (match_integer_app _ _ Hi Nf).
  assert (Ne : no_digit_ahead (e ++ r)).
  { destruct e as [|d e']; simpl; [exact R'|].
    simpl in He. apply andb_true_iff in He as [He _].
    apply orb_true_iff in He as [He|He]; apply N.eqb_eq in He; now subst. }
  assert (Ef : match_frac (f ++ e ++ r) = (f, e ++ r)).
  { destruct f as [|d f'].
    - simpl app. apply match_frac_none.
      destruct e as [|d e']; simpl.
      + apply follows_head; [exact R|easy|easy].
      + simpl in He. apply andb_true_iff in He as [He _].
        apply orb_true_iff in He as [He|He]; apply N.eqb_eq in He; now subst.
    - now apply match_frac_app. }
  rewrite Ef.
  assert (Ee : match_exp (e ++ r) = (e, r)).
  { destruct e as [|d e'].
    - simpl app. apply match_exp_none; apply follows_head; easy.
    - now apply match_exp_app. }
  now rewrite Ee.
Qed.

Lemma uint_digits_all u : forallb is_digit (uint_digits u) = true.
Proof. induction u; simpl; try reflexivity; exact IHu. Qed.

Lemma digits_uint_digits u : digits_uint (uint_digits u) = u.
Proof. induction u; simpl; try reflexivity; unfold digit_uint; simpl; now rewrite IHu. Qed.

Lemma to_uint_unorm p : Decimal.unorm (Pos.to_uint p) = Pos.to_uint p.
Proof.
  pose proof (DecimalPos.Unsigned.to_of (Pos.to_uint p)) as H.
  rewrite DecimalPos.Unsigned.of_to in H. simpl in H. now symmetry.
Qed.

Lemma to_uint_integer_ok p : integer_ok (uint_digits (Pos.to_uint p)) = true.
Proof.
  pose proof (to_uint_unorm p) as U.
  pose proof (DecimalPos.Unsigned.to_uint_nonzero p) as Z.
  pose proof (DecimalPos.Unsigned.to_uint_nonnil p) as NN.
  destruct (Pos.to_uint p) as [|u|u|u|u|u|u|u|u|u|u]; try (now destruct NN);
    try (simpl; apply uint_digits_all).
  exfalso. rewrite unorm_D0 in U.
  destruct u as [|u|u|u|u|u|u|u|u|u|u]; try (now destruct Z);
    match type of U with
    | Decimal.unorm ?x = _ =>
        assert (L : Decimal.nb_digits (Decimal.unorm x) <= Decimal.nb_digits x)
          by (apply nb_digits_unorm; discriminate)
    end;
    rewrite U in L; simpl in L; lia.
Qed.

(** [int.__repr__] is read back as the same int. *)
Lemma match_number_intstr z r :
  follows r = true -> match_number (intstr z ++ r) = Some (PyInt z, r).
Proof.
  intros R. unfold intstr.
  assert (H : forall neg u, integer_ok (uint_digits u) = true ->
            match_number (sign_text neg ++ uint_digits u ++ r)
            = Some (PyInt (Z.of_int (if neg then Decimal.Neg u else Decimal.Pos u)), r)).
  { intros neg u Hu.
    pose proof (match_number_app neg (uint_digits u) [] [] r Hu eq_refl eq_refl R) as M.
    unfold number_text, number_value, int_of in M.
    rewrite !List.app_nil_r, digits_uint_digits in M.
    now rewrite <- List.app_assoc in M. }
  pose proof (DecimalZ.of_to z) as OT.
  destruct z as [|p|p]; cbn [Z.to_int] in *.
  - exact (H false Decimal.zero eq_refl).
  - pose proof (H false _ (to_uint_integer_ok p)) as M. cbv beta iota in M. rewrite OT in M. exact M.
  - pose proof (H true _ (to_uint_integer_ok p)) as M. cbv beta iota in M. rewrite OT in M. exact M.
Qed.

(** A float that [match_number] returns is carried by the text written
    for it, which is read back as the same float. *)
Lemma match_number_float s lit r :
  match_number s = Some (PyFloat lit, r) -> is_float_literal lit = true.
Proof.
  intros H. destruct (match_number_inv _ _ _ H) as (neg & i & f & e & _ & Hi & Hf & He & Hv).
  pose proof (match_number_app neg i f e [] Hi Hf He eq_refl) as M.
  rewrite List.app_nil_r, <- Hv in M.
  assert (L : lit = float_repr (number_text neg i f e)).
  { unfold number_value in Hv. destruct f, e; congruence. }
  rewrite L. apply float_repr_reads_back. unfold reads_as_float. now rewrite M.
Qed.

(** The text written for a float is read back as that float. *)
Lemma match_number_literal lit r :
  match_number lit = Some (PyFloat lit, []) -> follows r = true ->
  match_number (lit ++ r) = Some (PyFloat lit, r).
Proof.
  intros H R. destruct (match_number_inv _ _ _ H) as (neg & i & f & e & E & Hi & Hf & He & Hv).
  rewrite List.app_nil_r in E.
  pose proof (match_number_app neg i f e r Hi Hf He R) as M.
  now rewrite <- E, <- Hv in M.
Qed.

(* ================================================================== *)
(** * Strings *)

Arguments hex4 : simpl never.
Arguments is_high : simpl never.
Arguments cons_char : simpl never.
Arguments match_number : simpl never.
Arguments is_ws : simpl never.

Lemma hex4_small c :
  (c < 32)%N -> hex4 48 48 (hex_digit (c / 16)) (hex_digit (c mod 16)) = Some c.
Proof.
  intros H.
  assert (E : c = N.of_nat (N.to_nat c)) by now rewrite N2Nat.id.
  assert (L : N.to_nat c < 32) by lia.
  rewrite E. generalize (N.to_nat c) L. clear. intros n L.
  do 32 (destruct n as [|n]; [reflexivity|]). lia.
Qed.

Lemma scanstring_u h1 h2 h3 h4 u tail :
  hex4 h1 h2 h3 h4 = Some u -> is_high u = false ->
  scanstring (92 :: 117 :: h1 :: h2 :: h3 :: h4 :: tail)%N
  = cons_char u (scanstring tail).
Proof. intros H1 H2. simpl. now rewrite H1, H2. Qed.

(** One escaped code point is read back as the code point. *)
Lemma scanstring_char c tail :
  scanstring (escape_char c ++ tail) = cons_char c (scanstring tail).
Proof.
  unfold escape_char.
  destruct (N.eqb_spec c 92); [subst; reflexivity|].
  destruct (N.eqb_spec c 34); [subst; reflexivity|].
  destruct (N.eqb_spec c 8); [subst; reflexivity|].
  destruct (N.eqb_spec c 12); [subst; reflexivity|].
  destruct (N.eqb_spec c 10); [subst; reflexivity|].
  destruct (N.eqb_spec c 13); [subst; reflexivity|].
  destruct (N.eqb_spec c 9); [subst; reflexivity|].
  destruct (N.ltb_spec c 32).
  - apply scanstring_u; [now apply hex4_small|].
    unfold is_high. apply andb_false_iff. left. apply N.leb_gt. lia.
  - simpl.
    destruct (N.eqb_spec c 34); [congruence|].
    destruct (N.eqb_spec c 92); [congruence|].
    destruct (N.ltb_spec c 32); [lia|reflexivity].
Qed.

Lemma scanstring_escape s rest :
  scanstring (flat_map escape_char s ++ 34%N :: rest) = Ok (s, rest).
Proof.
  induction s as [|c s IH]; [reflexivity|].
  simpl flat_map. rewrite <- List.app_assoc, scanstring_char, IH. reflexivity.
Qed.

(** [py_encode_basestring] is read back by [py_scanstring]. *)
Lemma scanstring_encode s rest :
  exists t, encode_basestring s ++ rest = 34%N :: t /\ scanstring t = Ok (s, rest).
Proof.
  exists (flat_map escape_char s ++ 34%N :: rest). split.
  - unfold encode_basestring. simpl. now rewrite <- List.app_assoc.
  - apply scanstring_escape.
Qed.

(* ================================================================== *)
(** * Values *)

Lemma value_head_facts c :
  value_head c = true ->
  is_ws c = false /\ N.eqb c 93 = false /\ N.eqb c 125 = false.
Proof.
  unfold value_head, is_digit, is_ws. intros H.
  repeat (apply orb_true_iff in H as [H|H]);
    try (apply N.eqb_eq in H; subst; now repeat split).
  apply andb_true_iff in H as [H1 H2]. apply N.leb_le in H1, H2.
  repeat split.
  - repeat (apply orb_false_iff; split); apply N.eqb_neq; lia.
  - apply N.eqb_neq; lia.
  - apply N.eqb_neq; lia.
Qed.

Lemma skip_ws_value c s : value_head c = true -> skip_ws (c :: s) = c :: s.
Proof. intros H. apply value_head_facts in H as (H & _). simpl. now rewrite H. Qed.

Lemma skip_ws_indent lvl s : skip_ws (newline_indent lvl ++ s) = skip_ws s.
Proof.
  unfold newline_indent. simpl.
  induction (lvl + (lvl + 0)) as [|n IH]; simpl; [reflexivity|exact IH].
Qed.

Lemma float_literal_head lit :
  is_float_literal lit = true -> exists c t, lit = c :: t /\ value_head c = true.
Proof.
  unfold is_float_literal. rewrite !orb_true_iff.
  intros [[[H|H]|H]|H]; try (apply text_eqb_eq in H; subst; now eexists _, _).
  destruct (match_number lit) as [[[] []]|] eqn:M; try discriminate H.
  destruct (match_number_inv _ _ _ M) as (neg & i & f & e & E & Hi & _).
  destruct (integer_ok_head _ Hi) as (c & ds & -> & D).
  rewrite E. unfold number_text. destruct neg; simpl.
  - now eexists _, _.
  - exists c. eexists. split; [reflexivity|].
    unfold value_head. rewrite D. now rewrite !orb_true_r.
Qed.

Lemma uint_digits_head u :
  u <> Decimal.Nil -> exists c t, uint_digits u = c :: t /\ is_digit c = true.
Proof. destruct u; [easy|..]; intros _; now eexists _, _. Qed.

Lemma intstr_head z : exists c t, intstr z = c :: t /\ value_head c = true.
Proof.
  unfold intstr. destruct z as [|p|p]; simpl.
  - now eexists _, _.
  - destruct (uint_digits_head _ (DecimalPos.Unsigned.to_uint_nonnil p)) as (c & t & -> & D).
    exists c, t. split; [reflexivity|]. unfold value_head. rewrite D.
    now rewrite !orb_true_r.
  - now eexists _, _.
Qed.

(** The text of a value starts with a code point that starts a value. *)
Lemma render_head lvl o :
  well_formed o = true -> exists c t, render lvl o = c :: t /\ value_head c = true.
Proof.
  unfold render. destruct o as [| [|] | z | lit | s | [|v l] | [|[k v] d]]; simpl; intros W;
    try (now eexists _, _).
  - destruct (intstr_head z) as (c & t & -> & H). exists c. eexists.
    split; [reflexivity|exact H].
  - destruct (float_literal_head _ W) as (c & t & -> & H). exists c. eexists.
    split; [reflexivity|exact H].
  - destruct (scalar v); now eexists _, _.
Qed.

Lemma iterencode_scalar lvl o t : scalar o = Some t -> iterencode lvl o = [t].
Proof. destruct o as [| [|] | | | | |]; simpl; intros [= <-]; reflexivity. Qed.

Lemma render_scalar lvl o t : scalar o = Some t -> render lvl o = t.
Proof.
  intros H. unfold render. rewrite (iterencode_scalar _ _ _ H). simpl.
  apply List.app_nil_r.
Qed.

Lemma concat_list_chunks lvl first v l :
  concat (list_chunks (iterencode (S lvl)) (newline_indent (S lvl)) first (v :: l))
  = ((if first then 91%N else 44%N) :: newline_indent (S lvl)) ++ render (S lvl) v
    ++ concat (list_chunks (iterencode (S lvl)) (newline_indent (S lvl)) false l).
Proof.
  cbn [list_chunks]. rewrite concat_app.
  destruct (scalar v) as [t|] eqn:E.
  - rewrite (render_scalar _ _ _ E). cbn [concat]. now rewrite List.app_nil_r, <- List.app_assoc.
  - cbn [concat]. unfold render. now rewrite <- List.app_assoc.
Qed.

Lemma concat_dict_chunks lvl first k v d :
  concat (dict_chunks (iterencode (S lvl)) (newline_indent (S lvl)) first ((k, v) :: d))
  = (if first then [] else 44%N :: newline_indent (S lvl))
    ++ encode_basestring k ++ [58%N; 32%N] ++ render (S lvl) v
    ++ concat (dict_chunks (iterencode (S lvl)) (newline_indent (S lvl)) false d).
Proof.
  cbn [dict_chunks]. rewrite concat_app. cbn [concat].
  rewrite concat_app. unfold render.
  destruct first; cbn [concat]; now rewrite ?List.app_nil_r, <- ?List.app_assoc.
Qed.

Lemma render_list lvl v l :
  render lvl (PyList (v :: l))
  = concat (list_chunks (iterencode (S lvl)) (newline_indent (S lvl)) true (v :: l))
    ++ newline_indent lvl ++ [93%N].
Proof.
  unfold render. cbn [iterencode]. rewrite concat_app. cbn [concat].
  now rewrite List.app_nil_r.
Qed.

Lemma render_dict lvl kv d :
  render lvl (PyDict (kv :: d))
  = 123%N :: newline_indent (S lvl)
    ++ concat (dict_chunks (iterencode (S lvl)) (newline_indent (S lvl)) true (kv :: d))
    ++ newline_indent lvl ++ [125%N].
Proof.
  unfold render. cbn [iterencode]. cbn [concat]. rewrite concat_app. cbn [concat].
  rewrite List.app_nil_r. cbn [app]. reflexivity.
Qed.

Lemma scan_items_eq f s :
  scan_items (S f) s
  = ('(v, r) <- scan_once f s ;;
     match skip_ws r with
     | c :: r1 =>
         if N.eqb c 93 then Ok ([v], r1)
         else if N.eqb c 44 then
           '(vs, r2) <- scan_items f (skip_ws r1) ;; Ok (v :: vs, r2)
         else expecting
     | [] => expecting
     end).
Proof. reflexivity. Qed.

Lemma scan_pairs_eq f s :
  scan_pairs (S f) s
  = ('(key, r) <- scanstring s ;;
     match skip_ws r with
     | c :: r1 =>
         if N.eqb c 58 then
           '(v, r2) <- scan_once f (skip_ws r1) ;;
           match skip_ws r2 with
           | c2 :: r3 =>
               if N.eqb c2 125 then Ok ([(key, v)], r3)
               else if N.eqb c2 44 then
                 match skip_ws r3 with
                 | c3 :: r4 =>
                     if N.eqb c3 34 then
                       '(ps, r5) <- scan_pairs f r4 ;; Ok ((key, v) :: ps, r5)
                     else expecting
                 | [] => expecting
                 end
               else expecting
           | [] => expecting
           end
         else expecting
     | [] => expecting
     end).
Proof. reflexivity. Qed.

Lemma scan_once_list f s :
  scan_once (S f) (91%N :: s)
  = match skip_ws s with
    | c1 :: s2 =>
        if N.eqb c1 93 then Ok (PyList [], s2)
        else '(vs, r) <- scan_items f (c1 :: s2) ;; Ok (PyList vs, r)
    | [] => expecting
    end.
Proof. reflexivity. Qed.

Lemma scan_once_dict f s :
  scan_once (S f) (123%N :: s)
  = match skip_ws s with
    | c1 :: s2 =>
        if N.eqb c1 125 then Ok (PyDict [], s2)
        else if N.eqb c1 34 then
          '(pairs, r) <- scan_pairs f s2 ;; Ok (PyDict (dict_of_pairs pairs), r)
        else expecting
    | [] => expecting
    end.
Proof. reflexivity. Qed.

Lemma scan_once_string f s :
  scan_once (S f) (34%N :: s) = ('(t, r) <- scanstring s ;; Ok (PyStr t, r)).
Proof. reflexivity. Qed.

(** A number is what [scan_once] returns wherever one is matched. *)
Lemma scan_once_number f s v r :
  match_number s = Some (v, r) -> scan_once (S f) s = Ok (v, r).
Proof.
  intros H.
  destruct (match_number_inv _ _ _ H) as (neg & i & fr & e & E & Hi & _).
  destruct (integer_ok_head _ Hi) as (c & ds & -> & D).
  assert (Hc : exists c' s', s = c' :: s' /\ (c' = 45%N \/ is_digit c' = true)).
  { rewrite E. unfold number_text. destruct neg; simpl; eexists _, _; eauto. }
  destruct Hc as (c' & s' & -> & Hc).
  assert (B : (c' = 45 \/ 48 <= c' <= 57)%N).
  { destruct Hc as [->|Hc]; [now left|right].
    unfold is_digit in Hc. apply andb_true_iff in Hc as [H1 H2].
    apply N.leb_le in H1, H2. lia. }
  cbn [scan_once].
  destruct (N.eqb_spec c' 34); [lia|].
  destruct (N.eqb_spec c' 123); [lia|].
  destruct (N.eqb_spec c' 91); [lia|].
  change (startswith (str "null") (c' :: s'))
    with (N.eqb 110 c' && startswith (str "ull") s').
  change (startswith (str "true") (c' :: s'))
    with (N.eqb 116 c' && startswith (str "rue") s').
  change (startswith (str "false") (c' :: s'))
    with (N.eqb 102 c' && startswith (str "alse") s').
  destruct (N.eqb_spec 110 c'); [lia|].
  destruct (N.eqb_spec 116 c'); [lia|].
  destruct (N.eqb_spec 102 c'); [lia|].
  cbn [andb]. now rewrite H.
Qed.

Lemma unique_app_fresh a k b :
  unique (a ++ k :: b) = true -> existsb (text_eqb k) a = false.
Proof.
  induction a as [|x a IH]; simpl; [reflexivity|].
  rewrite andb_true_iff, negb_true_iff, existsb_app. simpl.
  intros [H1 H2]. apply orb_false_iff in H1 as [_ H1].
  apply orb_false_iff in H1 as [H1 _].
  rewrite (text_eqb_sym k x), H1. simpl. now apply IH.
Qed.

Lemma dict_set_fresh d k v : dict_has d k = false -> dict_set d k v = d ++ [(k, v)].
Proof.
  unfold dict_has. induction d as [|[k' v'] d IH]; simpl; [reflexivity|].
  destruct (text_eqb k' k); [discriminate|]. intros H. now rewrite IH.
Qed.

Lemma dict_of_pairs_acc d acc :
  unique (map fst (acc ++ d)) = true ->
  fold_left (fun d kv => dict_set d (fst kv) (snd kv)) d acc = acc ++ d.
Proof.
  revert acc. induction d as [|[k v] d IH]; intros acc U; simpl.
  - now rewrite List.app_nil_r.
  - rewrite dict_set_fresh.
    + rewrite IH; rewrite <- List.app_assoc; [reflexivity|exact U].
    + rewrite <- existsb_keys_has. rewrite map_app in U. simpl in U.
      now apply unique_app_fresh in U.
Qed.

(** [dict(pairs)] of pairs with distinct keys is the pairs themselves. *)
Lemma dict_of_pairs_unique d : unique (map fst d) = true -> dict_of_pairs d = d.
Proof. intros U. unfold dict_of_pairs. now rewrite dict_of_pairs_acc. Qed.

Lemma follows_indent lvl s : follows (newline_indent lvl ++ s) = true.
Proof. reflexivity. Qed.

Lemma skip_ws_cons c s : is_ws c = false -> skip_ws (c :: s) = c :: s.
Proof. intros H. simpl. now rewrite H. Qed.

Lemma skip_ws_render lvl o s :
  well_formed o = true -> skip_ws (render lvl o ++ s) = render lvl o ++ s.
Proof.
  intros W. destruct (render_head lvl o W) as (c & t & -> & H).
  now apply skip_ws_value.
Qed.

(** The loop of [JSONArray] reads back the items of a list. *)
Lemma scan_items_render lvl rest l :
  Forall (fun v => well_formed v = true /\ roundtrips v) l ->
  forall v fuel,
    well_formed v = true -> roundtrips v ->
    list_sum (map (fun v => S (size v)) (v :: l)) <= fuel ->
    scan_items fuel
      (render (S lvl) v
       ++ concat (list_chunks (iterencode (S lvl)) (newline_indent (S lvl)) false l)
       ++ newline_indent lvl ++ 93%N :: rest)
    = Ok (v :: l, rest).
Proof.
  induction 1 as [|v' l [W' R'] _ IH]; intros v fuel W R F;
    (destruct fuel as [|f]; [simpl in F; lia|]); rewrite scan_items_eq.
  - cbn [list_chunks concat app]. rewrite R; [|simpl in F; lia|apply follows_indent].
    cbn [bind]. rewrite skip_ws_indent, skip_ws_cons by reflexivity. reflexivity.
  - rewrite concat_list_chunks. rewrite R; [|simpl in F; lia|reflexivity].
    cbn [bind]. rewrite <- !List.app_assoc. cbn [app].
    rewrite skip_ws_cons by reflexivity.
    change (N.eqb 44 93) with false. change (N.eqb 44 44) with true. cbv iota.
    rewrite skip_ws_indent, skip_ws_render by exact W'.
    rewrite IH; [reflexivity|exact W'|exact R'|simpl in *; lia].
Qed.

(** The loop of [JSONObject] reads back the pairs of a dict. *)
Lemma scan_pairs_render lvl rest d :
  Forall (fun kv => well_formed (snd kv) = true /\ roundtrips (snd kv)) d ->
  forall k v fuel,
    well_formed v = true -> roundtrips v ->
    list_sum (map (fun kv => S (size (snd kv))) ((k, v) :: d)) <= fuel ->
    scan_pairs fuel
      (flat_map escape_char k ++ 34%N :: 58%N :: 32%N :: render (S lvl) v
       ++ concat (dict_chunks (iterencode (S lvl)) (newline_indent (S lvl)) false d)
       ++ newline_indent lvl ++ 125%N :: rest)
    = Ok ((k, v) :: d, rest).
Proof.
  induction 1 as [|[k' v'] d [W' R'] _ IH]; intros k v fuel W R F;
    (destruct fuel as [|f]; [simpl in F; lia|]); rewrite scan_pairs_eq;
    rewrite scanstring_escape; cbn [bind];
    rewrite skip_ws_cons by reflexivity;
    change (N.eqb 58 58) with true; cbv iota;
    change (skip_ws (32%N :: ?x)) with (skip_ws x);
    rewrite skip_ws_render by exact W.
  - cbn [dict_chunks concat app]. rewrite R; [|simpl in F; lia|apply follows_indent].
    cbn [bind]. rewrite skip_ws_indent, skip_ws_cons by reflexivity. reflexivity.
  - rewrite concat_dict_chunks. rewrite R; [|simpl in *; lia|reflexivity].
    cbn [bind]. cbn [app snd]. rewrite skip_ws_cons by reflexivity.
    change (N.eqb 44 125) with false. change (N.eqb 44 44) with true. cbv iota.
    rewrite <- !List.app_assoc. rewrite skip_ws_indent.
    unfold encode_basestring. cbn [app]. rewrite skip_ws_cons by reflexivity.
    change (N.eqb 34 34) with true. cbv iota.
    rewrite <- !List.app_assoc. cbn [app].
    rewrite IH; [reflexivity|exact W'|exact R'|simpl in *; lia].
Qed.

Lemma size_pos o : 1 <= size o.
Proof. destruct o; simpl; lia. Qed.

(** Every well-formed value is read back from its text. *)
Lemma well_formed_roundtrips o : well_formed o = true -> roundtrips o.
Proof.
  induction o as [| b | z | lit | s | l IH | d IH] using pyobj_nested_ind;
    intros W lvl fuel rest F R;
    (destruct fuel as [|f]; [pose proof (size_pos PyNone); simpl in F; lia|]).
  - reflexivity.
  - destruct b; reflexivity.
  - unfold render. cbn [iterencode scalar concat]. rewrite List.app_nil_r.
    apply scan_once_number. now apply match_number_intstr.
  - unfold render. cbn [iterencode scalar concat]. rewrite List.app_nil_r.
    simpl in W. unfold is_float_literal in W. rewrite !orb_true_iff in W.
    destruct W as [[[W|W]|W]|W]; try (apply text_eqb_eq in W; subst; reflexivity).
    apply scan_once_number. apply match_number_literal; [|exact R].
    destruct (match_number lit) as [[[] []]|]; try discriminate W.
    apply text_eqb_eq in W. now subst.
  - unfold render. cbn [iterencode scalar concat]. rewrite List.app_nil_r.
    destruct (scanstring_encode s rest) as (t & -> & E).
    rewrite scan_once_string, E. reflexivity.
  - assert (A : Forall (fun v => well_formed v = true /\ roundtrips v) l).
    { cbn [well_formed] in W. rewrite forallb_forall in W.
      rewrite Forall_forall in *. intros x Hx. split; [now apply W|].
      apply IH; [exact Hx|now apply W]. }
    clear IH W. destruct l as [|v l]; [reflexivity|].
    inversion A as [|? ? [Wv Rv] A']; subst.
    rewrite render_list, concat_list_chunks. cbn [app].
    rewrite scan_once_list. rewrite <- !List.app_assoc.
    rewrite skip_ws_indent, skip_ws_render by exact Wv.
    destruct (render_head (S lvl) v Wv) as (c & t & E & H).
    pose proof (scan_items_render lvl rest l A' v f Wv Rv) as S.
    rewrite E in *. cbn [app] in *.
    apply value_head_facts in H as (_ & -> & _).
    cbn [app] in S. rewrite S; [reflexivity|simpl in *; lia].
  - cbn [well_formed] in W. apply andb_true_iff in W as [U W].
    assert (A : Forall (fun kv => well_formed (snd kv) = true /\ roundtrips (snd kv)) d).
    { rewrite forallb_forall in W.
      rewrite Forall_forall in *. intros x Hx. split; [now apply W|].
      apply IH; [exact Hx|now apply W]. }
    clear IH W. destruct d as [|[k v] d]; [reflexivity|].
    inversion A as [|? ? [Wv Rv] A']; subst. cbn [snd] in *.
    rewrite render_dict, concat_dict_chunks. cbn [app].
    rewrite scan_once_dict. rewrite <- !List.app_assoc.
    rewrite skip_ws_indent. unfold encode_basestring. cbn [app].
    rewrite skip_ws_cons by reflexivity.
    change (N.eqb 34 125) with false. change (N.eqb 34 34) with true. cbv iota.
    rewrite <- !List.app_assoc. cbn [app].
    rewrite (scan_pairs_render lvl rest d A' k v f Wv Rv); [|simpl in F |- *; apply le_S_n; exact F].
    cbn [bind]. now rewrite dict_of_pairs_unique.
Qed.

(* ================================================================== *)
(** * Reading back a written document *)

Lemma list_chunks_size lvl first l :
  Forall (fun v => size v <= length (render (S lvl) v)) l ->
  list_sum (map (fun v => S (size v)) l)
  <= length (concat (list_chunks (iterencode (S lvl)) (newline_indent (S lvl)) first l)).
Proof.
  intros H. revert first. induction H as [|v l Hv _ IH]; intros first; [simpl; lia|].
  rewrite concat_list_chunks. specialize (IH false).
  rewrite !length_app. simpl in *. lia.
Qed.

Lemma dict_chunks_size lvl first (d : dict) :
  Forall (fun kv => size (snd kv) <= length (render (S lvl) (snd kv))) d ->
  list_sum (map (fun kv => S (size (snd kv))) d)
  <= length (concat (dict_chunks (iterencode (S lvl)) (newline_indent (S lvl)) first d)).
Proof.
  intros H. revert first. induction H as [|[k v] d Hv _ IH]; intros first; [simpl; lia|].
  rewrite concat_dict_chunks. specialize (IH false).
  rewrite !length_app. unfold encode_basestring. simpl in *. lia.
Qed.

(** A value has no more values in it than its text has code points. *)
Lemma render_size o :
  well_formed o = true -> forall lvl, size o <= length (render lvl o).
Proof.
  induction o as [| b | z | lit | s | l IH | d IH] using pyobj_nested_ind;
    intros W lvl;
    try (destruct (render_head lvl _ W) as (c & t & -> & _); simpl; lia).
  - assert (A : Forall (fun v => size v <= length (render (S lvl) v)) l).
    { cbn [well_formed] in W. rewrite forallb_forall in W.
      rewrite Forall_forall in *. intros x Hx. apply IH; [exact Hx|now apply W]. }
    destruct l as [|v l]; [simpl; lia|].
    rewrite render_list, !length_app.
    pose proof (list_chunks_size lvl true _ A) as Q. cbn [size length]. lia.
  - assert (A : Forall (fun kv => size (snd kv) <= length (render (S lvl) (snd kv))) d).
    { cbn [well_formed] in W. apply andb_true_iff in W as [_ W].
      rewrite forallb_forall in W.
      rewrite Forall_forall in *. intros x Hx. apply IH; [exact Hx|now apply W]. }
    destruct d as [|kv d]; [simpl; lia|].
    rewrite render_dict. cbn [length]. rewrite !length_app.
    pose proof (dict_chunks_size lvl true _ A) as Q. cbn [size length].
    unfold dict, text in *. lia.
Qed.

(** [json.loads(json.dumps(o, indent=2, ensure_ascii=False)) == o] for
    every value that [json.load] can build. *)
Lemma loads_dumps o : well_formed o = true -> loads (dumps o) = Ok o.
Proof.
  intros W. change (dumps o) with (render 0 o). unfold loads.
  destruct (render_head 0 o W) as (c & t & E & H).
  assert (B : startswith [65279%N] (render 0 o) = false).
  { rewrite E. cbn [startswith]. rewrite andb_true_r.
    destruct (N.eqb_spec 65279 c); [|reflexivity]. subst c. discriminate H. }
  rewrite B.
  pose proof (skip_ws_render 0 o [] W) as K. rewrite List.app_nil_r in K. rewrite K.
  pose proof (well_formed_roundtrips o W 0 (fuel_for (render 0 o)) []) as R.
  rewrite List.app_nil_r in R. rewrite R; [reflexivity| |reflexivity].
  pose proof (render_size o W 0). unfold fuel_for. lia.
Qed.

(* ================================================================== *)
(** * What the decoder returns *)

Lemma skip_ws_length s : length (skip_ws s) <= length s.
Proof.
  induction s as [|c s IH]; simpl; [lia|].
  destruct (is_ws c); simpl; lia.
Qed.

Lemma cons_char_inv c m t r :
  cons_char c m = Ok (t, r) -> exists t', m = Ok (t', r) /\ t = c :: t'.
Proof.
  unfold cons_char. destruct m as [[t' r']|e]; simpl; [|discriminate].
  intros [= <- <-]. now exists t'.
Qed.

Ltac break_match H :=
  repeat match type of H with
         | context [match ?x with _ => _ end] => destruct x eqn:?; try discriminate H
         end.

(** [py_scanstring] consumes at least the closing quote. *)
Lemma scanstring_length n : forall s t r,
  length s <= n -> scanstring s = Ok (t, r) -> length r < length s.
Proof.
  induction n as [|n IH]; intros s t r L H; destruct s as [|c s1];
    try discriminate H; [simpl in L; lia|].
  simpl in H, L. break_match H;
    try (injection H as <- <-; simpl; lia);
    apply cons_char_inv in H as (t' & H & _);
    apply IH in H; simpl in *; lia.
Qed.

Lemma match_number_length s v r :
  match_number s = Some (v, r) -> length r < length s.
Proof.
  intros H.
  destruct (match_number_inv _ _ _ H) as (neg & i & f & e & -> & Hi & _).
  destruct (integer_ok_head _ Hi) as (c & ds & -> & _).
  unfold number_text. rewrite !length_app. simpl. lia.
Qed.

Lemma well_formed_pairs pairs acc :
  well_formed (PyDict acc) = true ->
  Forall (fun kv => well_formed (snd kv) = true) pairs ->
  well_formed
    (PyDict (fold_left (fun d kv => dict_set d (fst kv) (snd kv)) pairs acc)) = true.
Proof.
  intros A H. revert acc A. induction H as [|[k v] pairs Hv _ IH]; intros acc A.
  - exact A.
  - simpl fold_left. apply IH. now apply well_formed_set.
Qed.

Lemma scan_once_eq f s :
  scan_once (S f) s
  = match s with
    | [] => expecting
    | c :: s' =>
        if N.eqb c 34 then
          '(t, r) <- scanstring s' ;; Ok (PyStr t, r)
        else if N.eqb c 123 then
          match skip_ws s' with
          | c1 :: s2 =>
              if N.eqb c1 125 then Ok (PyDict [], s2)
              else if N.eqb c1 34 then
                '(pairs, r) <- scan_pairs f s2 ;;
                Ok (PyDict (dict_of_pairs pairs), r)
              else expecting
          | [] => expecting
          end
        else if N.eqb c 91 then
          match skip_ws s' with
          | c1 :: s2 =>
              if N.eqb c1 93 then Ok (PyList [], s2)
              else '(vs, r) <- scan_items f (c1 :: s2) ;; Ok (PyList vs, r)
          | [] => expecting
          end
        else if startswith (str "null") s then Ok (PyNone, skipn 4 s)
        else if startswith (str "true") s then Ok (PyBool true, skipn 4 s)
        else if startswith (str "false") s then Ok (PyBool false, skipn 5 s)
        else
          match match_number s with
          | Some (v, r) => Ok (v, r)
          | None =>
              if startswith (str "NaN") s then Ok (PyFloat (str "NaN"), skipn 3 s)
              else if startswith (str "Infinity") s
              then Ok (PyFloat (str "Infinity"), skipn 8 s)
              else if startswith (str "-Infinity") s
              then Ok (PyFloat (str "-Infinity"), skipn 9 s)
              else expecting
          end
    end.
Proof. destruct s; reflexivity. Qed.

Lemma match_number_well_formed s v r :
  match_number s = Some (v, r) -> well_formed v = true.
Proof.
  intros H. destruct v; try reflexivity.
  - exact (match_number_float _ _ _ H).
  - destruct (match_number_inv _ _ _ H) as (neg & i & f & e & _ & _ & _ & _ & V).
    unfold number_value in V. destruct f, e; discriminate V.
  - destruct (match_number_inv _ _ _ H) as (neg & i & f & e & _ & _ & _ & _ & V).
    unfold number_value in V. destruct f, e; discriminate V.
Qed.

Lemma Forall_well_formed l :
  Forall (fun v => well_formed v = true) l -> forallb well_formed l = true.
Proof. intros H. apply forallb_forall. now rewrite Forall_forall in H. Qed.

Ltac use_skip_ws :=
  repeat match goal with
         | E : skip_ws ?x = _ :: _ |- _ =>
             let L := fresh "L" in
             pose proof (skip_ws_length x) as L; rewrite E in L; clear E
         | H : context [skip_ws ?x] |- _ =>
             let L := fresh "L" in
             let y := fresh "y" in
             let E := fresh "E" in
             pose proof (skip_ws_length x) as L;
             remember (skip_ws x) as y eqn:E; clear E
         end.

(** A value that the decoder returns is well formed, and its text was not
    empty. *)
Lemma decoder_returns fuel :
  (forall s o r, scan_once fuel s = Ok (o, r) ->
     length r < length s /\ well_formed o = true)
  /\ (forall s vs r, scan_items fuel s = Ok (vs, r) ->
        length r < length s /\ Forall (fun v => well_formed v = true) vs)
  /\ (forall s ps r, scan_pairs fuel s = Ok (ps, r) ->
        length r < length s /\ Forall (fun kv => well_formed (snd kv) = true) ps).
Proof.
  induction fuel as [|f (IH1 & IH2 & IH3)]; [repeat split; discriminate|].
  split; [|split]; intros s x r H.
  - rewrite scan_once_eq in H. unfold bind, expecting in H.
    destruct s as [|c s']; [discriminate|].
    break_match H; injection H as <- <-;
      repeat match goal with
             | E : scanstring _ = Ok _ |- _ => apply (scanstring_length _ _ _ _ (le_n _)) in E
             | E : scan_pairs f _ = Ok _ |- _ => apply IH3 in E as [? ?]
             | E : scan_items f _ = Ok _ |- _ => apply IH2 in E as [? ?]
             | E : match_number _ = Some _ |- _ =>
                 pose proof (match_number_length _ _ _ E);
                 apply match_number_well_formed in E
             end;
      use_skip_ws;
      try (split;
           [first [ simpl in *; lia
                  | destruct s' as [|? [|? [|? [|? [|? [|? [|? [|? [|? ?]]]]]]]]];
                    simpl; lia ]|]);
      try reflexivity; try assumption.
    + apply well_formed_pairs; [reflexivity|assumption].
    + now apply Forall_well_formed.
  - rewrite scan_items_eq in H. unfold bind, expecting in H.
    break_match H; injection H as <- <-;
      repeat match goal with
             | E : scan_once f _ = Ok _ |- _ => apply IH1 in E as [? ?]
             | E : scan_items f _ = Ok _ |- _ => apply IH2 in E as [? ?]
             end;
      use_skip_ws;
      (split; [simpl in *; lia|]); repeat constructor; assumption.
  - rewrite scan_pairs_eq in H. unfold bind, expecting in H.
    break_match H; injection H as <- <-;
      repeat match goal with
             | E : scanstring _ = Ok _ |- _ => apply (scanstring_length _ _ _ _ (le_n _)) in E
             | E : scan_once f _ = Ok _ |- _ => apply IH1 in E as [? ?]
             | E : scan_pairs f _ = Ok _ |- _ => apply IH3 in E as [? ?]
             end;
      use_skip_ws;
      (split; [simpl in *; lia|]); repeat constructor; assumption.
Qed.

(** What [json.loads] returns is well formed. *)
Lemma loads_well_formed s o : loads s = Ok o -> well_formed o = true.
Proof.
  unfold loads. destruct (startswith [65279%N] s); [discriminate|].
  destruct (scan_once (fuel_for s) (skip_ws s)) as [[o' r]|] eqn:E; [|discriminate].
  simpl. destruct (skip_ws r); [|discriminate]. intros [= <-].
  now apply (proj1 (decoder_returns _)) in E.
Qed.

Lemma cons_char_raise c m e : cons_char c m = Raise e -> m = Raise e.
Proof. unfold cons_char. destruct m as [[t r]|e']; simpl; congruence. Qed.

Lemma scanstring_raises n : forall s e,
  length s <= n -> scanstring s = Raise e -> e = JSONDecodeError.
Proof.
  induction n as [|n IH]; intros s e L H; destruct s as [|c s1];
    try (injection H as <-; reflexivity); [simpl in L; lia|].
  simpl in H, L. break_match H;
    try (injection H as <-; reflexivity);
    apply cons_char_raise in H; apply IH in H; first [assumption|simpl in *; lia].
Qed.

Ltac use_returns f :=
  repeat match goal with
         | E : scanstring _ = Ok _ |- _ => apply (scanstring_length _ _ _ _ (le_n _)) in E
         | E : scan_once f _ = Ok _ |- _ => apply (proj1 (decoder_returns f)) in E as [? _]
         | E : match_number _ = Some _ |- _ => apply match_number_length in E
         end.

(** The fuel [fuel_for] gives is never used up: whatever the decoder
    raises is a [JSONDecodeError]. *)
Lemma decoder_raises fuel :
  (forall s e, 2 * length s + 1 <= fuel ->
     scan_once fuel s = Raise e -> e = JSONDecodeError)
  /\ (forall s e, 2 * length s + 2 <= fuel ->
        scan_items fuel s = Raise e -> e = JSONDecodeError)
  /\ (forall s e, 2 * length s + 2 <= fuel ->
        scan_pairs fuel s = Raise e -> e = JSONDecodeError).
Proof.
  induction fuel as [|f (IH1 & IH2 & IH3)]; [repeat split; intros; lia|].
  split; [|split]; intros s e F H.
  - rewrite scan_once_eq in H. unfold bind, expecting in H.
    destruct s as [|c s']; [now injection H as <-|].
    break_match H; injection H as <-; try reflexivity; use_returns f; use_skip_ws;
      match goal with
      | E : scanstring _ = Raise _ |- _ => exact (scanstring_raises _ _ _ (le_n _) E)
      | E : scan_pairs f _ = Raise _ |- _ => apply IH3 in E; first [exact E|simpl in *; lia]
      | E : scan_items f _ = Raise _ |- _ => apply IH2 in E; first [exact E|simpl in *; lia]
      end.
  - rewrite scan_items_eq in H. unfold bind, expecting in H.
    break_match H; injection H as <-; try reflexivity; use_returns f; use_skip_ws;
      match goal with
      | E : scan_once f _ = Raise _ |- _ => apply IH1 in E; first [exact E|simpl in *; lia]
      | E : scan_items f _ = Raise _ |- _ => apply IH2 in E; first [exact E|simpl in *; lia]
      end.
  - rewrite scan_pairs_eq in H. unfold bind, expecting in H.
    break_match H; injection H as <-; try reflexivity; use_returns f; use_skip_ws;
      match goal with
      | E : scanstring _ = Raise _ |- _ => exact (scanstring_raises _ _ _ (le_n _) E)
      | E : scan_once f _ = Raise _ |- _ => apply IH1 in E; first [exact E|simpl in *; lia]
      | E : scan_pairs f _ = Raise _ |- _ => apply IH3 in E; first [exact E|simpl in *; lia]
      end.
Qed.

(** [json.loads] returns a value or raises [JSONDecodeError]. *)
Lemma loads_raises s e : loads s = Raise e -> e = JSONDecodeError.
Proof.
  unfold loads. destruct (startswith [65279%N] s); [now intros [= <-]|].
  destruct (scan_once (fuel_for s) (skip_ws s)) as [[o r]|e'] eqn:E; simpl.
  - destruct (skip_ws r); [discriminate|now intros [= <-]].
  - intros [= <-]. pose proof (skip_ws_length s).
    apply (proj1 (decoder_raises _)) in E; first [exact E|unfold fuel_for; lia].
Qed.

(* ================================================================== *)
(** * The document after the update *)

Lemma well_formed_fields d k :
  well_formed (PyDict d) = true -> well_formed (PyDict (fields_of d k)) = true.
Proof.
  intros W. unfold fields_of.
  destruct (dict_get d k) as [[| | | | | |e]|] eqn:E; try reflexivity.
  exact (well_formed_get _ _ _ W E).
Qed.

Lemma well_formed_servers top :
  well_formed (PyDict top) = true -> well_formed (PyDict (servers_of (PyDict top))) = true.
Proof. apply well_formed_fields. Qed.

Lemma well_formed_entry_after key e :
  well_formed (PyDict e) = true -> well_formed (PyDict (entry_after key e)) = true.
Proof.
  intros W. unfold entry_after.
  repeat (apply well_formed_set; try reflexivity); [exact W|].
  now apply well_formed_fields.
Qed.

(** The update keeps a document well formed. *)
Lemma well_formed_config_after key config :
  well_formed config = true -> well_formed (config_after key config) = true.
Proof.
  destruct config as [| | | | | |top]; try easy. intros W.
  unfold config_after.
  apply well_formed_set; [exact W|].
  apply well_formed_set; [now apply well_formed_servers|].
  apply well_formed_entry_after. apply well_formed_fields.
  now apply well_formed_servers.
Qed.

Lemma headers_differ :
  HEADERS <> URL /\ HEADERS <> DESCRIPTION /\ URL <> DESCRIPTION /\ EASYGRID <> EASYGRID_MCP.
Proof. repeat split; discriminate. Qed.

Lemma servers_of_set top servers :
  servers_of (PyDict (dict_set top MCP_SERVERS (PyDict servers))) = servers.
Proof. unfold servers_of. now rewrite dict_get_set_same. Qed.

Lemma fields_of_set d k e : fields_of (dict_set d k (PyDict e)) k = e.
Proof. unfold fields_of. now rewrite dict_get_set_same. Qed.

Lemma fields_of_set_other d k k' v : k' <> k -> fields_of (dict_set d k v) k' = fields_of d k'.
Proof. intros N. unfold fields_of. now rewrite dict_get_set_other. Qed.

(** The name chosen in the updated mapping is the name chosen before. *)
Lemma selection_rule_after servers v :
  selection_rule (dict_set servers (selection_rule servers) v) = selection_rule servers.
Proof.
  unfold selection_rule.
  destruct (dict_has servers EASYGRID) eqn:E1.
  - now rewrite dict_has_set_same.
  - destruct (dict_has servers EASYGRID_MCP) eqn:E2.
    + rewrite dict_has_set_other, E1 by discriminate. now rewrite dict_has_set_same.
    + now rewrite dict_has_set_same.
Qed.

Lemma headers_of_entry_after key e :
  fields_of (entry_after key e) HEADERS
  = dict_set (fields_of e HEADERS) X_MCP_API_KEY (PyStr key).
Proof.
  unfold entry_after.
  rewrite !fields_of_set_other by discriminate. apply fields_of_set.
Qed.

Lemma entry_after_get_headers key e :
  dict_get (entry_after key e) HEADERS
  = Some (PyDict (dict_set (fields_of e HEADERS) X_MCP_API_KEY (PyStr key))).
Proof.
  unfold entry_after.
  rewrite !dict_get_set_other by discriminate. apply dict_get_set_same.
Qed.

Lemma entry_after_get_url key e :
  dict_get (entry_after key e) URL = Some (PyStr URL_VALUE).
Proof.
  unfold entry_after.
  rewrite dict_get_set_other by discriminate. apply dict_get_set_same.
Qed.

Lemma entry_after_get_description key e :
  dict_get (entry_after key e) DESCRIPTION = Some (PyStr DESCRIPTION_VALUE).
Proof. unfold entry_after. apply dict_get_set_same. Qed.

Lemma entry_after_get_other key e f :
  f <> HEADERS -> f <> URL -> f <> DESCRIPTION ->
  dict_get (entry_after key e) f = dict_get e f.
Proof.
  intros N1 N2 N3. unfold entry_after. now rewrite !dict_get_set_other.
Qed.

(** Lines 51-56 change nothing in an entry they have already been through. *)
Lemma entry_after_idempotent key e :
  entry_after key (entry_after key e) = entry_after key e.
Proof.
  unfold entry_after at 1. rewrite headers_of_entry_after, dict_set_set.
  rewrite (dict_set_same_value _ _ _ (entry_after_get_headers key e)).
  rewrite (dict_set_same_value _ _ _ (entry_after_get_url key e)).
  now rewrite (dict_set_same_value _ _ _ (entry_after_get_description key e)).
Qed.

(** Lines 39-56 change nothing in a document they have already been
    through. *)
Lemma config_after_idempotent key config :
  config_after key (config_after key config) = config_after key config.
Proof.
  destruct config as [| | | | | |top]; try reflexivity.
  unfold config_after at 1. cbn [config_after].
  rewrite servers_of_set, selection_rule_after, fields_of_set.
  now rewrite entry_after_idempotent, !dict_set_set.
Qed.

Lemma updatable_config_after key config :
  updatable config = true -> updatable (config_after key config) = true.
Proof.
  destruct config as [| | | | | |top]; try easy. intros _.
  cbn [config_after]. unfold updatable.
  rewrite servers_of_set, selection_rule_after, fields_of_set.
  now rewrite !dict_get_set_same, entry_after_get_headers.
Qed.

(* ================================================================== *)
(** * What can be written as UTF-8 *)

Arguments is_surrogate : simpl never.

Lemma encodable_cons c s : encodable (c :: s) = negb (is_surrogate c) && encodable s.
Proof. reflexivity. Qed.

Lemma encodable_escape c : encodable (escape_char c) = negb (is_surrogate c).
Proof.
  unfold escape_char.
  destruct (N.eqb_spec c 92); [subst; reflexivity|].
  destruct (N.eqb_spec c 34); [subst; reflexivity|].
  destruct (N.eqb_spec c 8); [subst; reflexivity|].
  destruct (N.eqb_spec c 12); [subst; reflexivity|].
  destruct (N.eqb_spec c 10); [subst; reflexivity|].
  destruct (N.eqb_spec c 13); [subst; reflexivity|].
  destruct (N.eqb_spec c 9); [subst; reflexivity|].
  destruct (N.ltb_spec c 32).
  - assert (S : is_surrogate c = false).
    { unfold is_surrogate. apply andb_false_iff. left. apply N.leb_gt. lia. }
    rewrite S.
    assert (E : c = N.of_nat (N.to_nat c)) by now rewrite N2Nat.id.
    assert (L : N.to_nat c < 32) by lia.
    rewrite E. generalize (N.to_nat c) L. clear. intros m L.
    do 32 (destruct m as [|m]; [reflexivity|]). lia.
  - rewrite encodable_cons. apply andb_true_r.
Qed.

Lemma encodable_escaped s : encodable (flat_map escape_char s) = encodable s.
Proof.
  induction s as [|c s IH]; [reflexivity|].
  simpl flat_map. now rewrite encodable_app, encodable_escape, IH.
Qed.

Lemma encodable_basestring s : encodable (encode_basestring s) = encodable s.
Proof.
  unfold encode_basestring. rewrite encodable_cons, encodable_app, encodable_escaped.
  simpl. now rewrite andb_true_r.
Qed.

Lemma encodable_uint u : encodable (uint_digits u) = true.
Proof. induction u; simpl; try reflexivity; exact IHu. Qed.

Lemma encodable_intstr z : encodable (intstr z) = true.
Proof.
  unfold intstr. destruct (Z.to_int z); [|rewrite encodable_cons]; apply encodable_uint.
Qed.

Lemma encodable_indent lvl : encodable (newline_indent lvl) = true.
Proof.
  unfold newline_indent. rewrite encodable_cons.
  induction (2 * lvl) as [|n IH]; [reflexivity|exact IH].
Qed.

Lemma encodable_list_chunks lvl first l :
  Forall (fun v => forall lvl, encodable (render lvl v) = encodable_value v) l ->
  encodable (concat (list_chunks (iterencode (S lvl)) (newline_indent (S lvl)) first l))
  = forallb encodable_value l.
Proof.
  intros H. revert first. induction H as [|v l Hv _ IH]; intros first; [reflexivity|].
  rewrite concat_list_chunks, !encodable_app, encodable_cons, encodable_indent, Hv, IH.
  now destruct first.
Qed.

Lemma encodable_dict_chunks lvl first (d : dict) :
  Forall (fun kv => forall lvl, encodable (render lvl (snd kv)) = encodable_value (snd kv)) d ->
  encodable (concat (dict_chunks (iterencode (S lvl)) (newline_indent (S lvl)) first d))
  = forallb (fun kv => encodable (fst kv) && encodable_value (snd kv)) d.
Proof.
  intros H. revert first. induction H as [|[k v] d Hv _ IH]; intros first; [reflexivity|].
  cbn [snd] in Hv. rewrite concat_dict_chunks.
  assert (E : forall x, encodable ((if first then [] else 44%N :: newline_indent (S lvl)) ++ x)
                        = encodable x).
  { intros x. destruct first; [reflexivity|].
    cbn [app]. now rewrite encodable_cons, encodable_app, encodable_indent. }
  rewrite E, !encodable_app, encodable_basestring, Hv, IH.
  cbn [forallb fst snd]. change (encodable [58%N; 32%N]) with true.
  cbn [andb]. now rewrite andb_assoc.
Qed.

(** The text of a value can be written exactly when no str in it holds a
    surrogate. *)
Lemma encodable_render o : forall lvl, encodable (render lvl o) = encodable_value o.
Proof.
  induction o as [| b | z | lit | s | l IH | d IH] using pyobj_nested_ind; intros lvl.
  - reflexivity.
  - now destruct b.
  - unfold render. cbn [iterencode scalar concat]. rewrite List.app_nil_r.
    apply encodable_intstr.
  - unfold render. cbn [iterencode scalar concat]. now rewrite List.app_nil_r.
  - unfold render. cbn [iterencode scalar concat]. rewrite List.app_nil_r.
    apply encodable_basestring.
  - destruct l as [|v l]; [reflexivity|].
    rewrite render_list, !encodable_app, encodable_indent, (encodable_list_chunks _ _ _ IH).
    cbn [encodable_value]. now rewrite !andb_true_r.
  - destruct d as [|kv d]; [reflexivity|].
    rewrite render_dict, encodable_cons, !encodable_app, encodable_indent,
      (encodable_dict_chunks _ _ _ IH), encodable_indent.
    cbn [encodable_value]. now rewrite !andb_true_r.
Qed.

Lemma encodable_dumps o : encodable (dumps o) = encodable_value o.
Proof. apply (encodable_render o 0). Qed.

Lemma encodable_value_set d k v :
  encodable_value (PyDict d) = true -> encodable k = true -> encodable_value v = true ->
  encodable_value (PyDict (dict_set d k v)) = true.
Proof.
  cbn [encodable_value]. intros H Hk Hv.
  induction d as [|[k' v'] d IH]; cbn [dict_set forallb fst snd] in *.
  - now rewrite Hk, Hv.
  - apply andb_true_iff in H as [H1 H2]. apply andb_true_iff in H1 as [H0 H1].
    destruct (text_eqb k' k); cbn [forallb fst snd].
    + now rewrite H0, Hv, H2.
    + now rewrite H0, H1, IH.
Qed.

Lemma encodable_value_fields d k :
  encodable_value (PyDict d) = true -> encodable_value (PyDict (fields_of d k)) = true.
Proof.
  unfold fields_of. cbn [encodable_value]. intros H.
  destruct (dict_get d k) as [[| | | | | |e]|] eqn:E; try reflexivity.
  induction d as [|[k' v'] d IH]; cbn [dict_get forallb fst snd] in *; [discriminate|].
  apply andb_true_iff in H as [H1 H2]. apply andb_true_iff in H1 as [_ H1].
  destruct (text_eqb k' k); [|now apply IH].
  injection E as ->. exact H1.
Qed.

(** The updated document can be written when the document read and the
    key hold no surrogate. *)
Lemma encodable_config_after key config :
  encodable_value config = true -> encodable key = true ->
  encodable_value (config_after key config) = true.
Proof.
  destruct config as [| | | | | |top]; try easy. intros W K.
  assert (S : encodable_value (PyDict (servers_of (PyDict top))) = true)
    by now apply encodable_value_fields.
  unfold config_after.
  apply encodable_value_set; [exact W|reflexivity|].
  apply encodable_value_set; [exact S| |].
  { destruct (selection_rule_cases (servers_of (PyDict top))) as [-> | ->]; reflexivity. }
  unfold entry_after.
  repeat (apply encodable_value_set; try reflexivity);
    try (now apply encodable_value_fields); try exact K.
  now apply encodable_value_fields, encodable_value_fields.
Qed.

(* ================================================================== *)
(** * The run that succeeds *)

Lemma document_content f p t o :
  content f p = Some t -> loads t = Ok o -> document f p = Some o.
Proof. intros C L. unfold document. now rewrite C, L. Qed.

Lemma document_dumps f p o :
  content f p = Some (dumps o) -> well_formed o = true -> document f p = Some o.
Proof. intros C W. apply (document_content _ _ _ _ C). now apply loads_dumps. Qed.

Lemma document_inv f p o :
  document f p = Some o -> exists t, content f p = Some t /\ loads t = Ok o.
Proof.
  unfold document. destruct (content f p) as [t|]; [|discriminate].
  destruct (loads t) eqn:L; [|discriminate]. intros [= ->]. now exists t.
Qed.

(** What a run that returns 0 found and what it left. *)
Lemma successful_run w w' :
  main w = (Ok 0%Z, w') ->
  exists t config,
    api_key_file (fs w) = Some t /\ strip t <> []
    /\ document (fs w) McpJson = Some config
    /\ well_formed config = true /\ updatable config = true
    /\ encodable_value config = true
    /\ encodable_value (config_after (strip t) config) = true
    /\ fs w' = mkFiles (Some t) (Some (dumps (config_after (strip t) config)))
                       (Some (dumps config))
    /\ document (fs w') McpJson = Some (config_after (strip t) config)
    /\ document (fs w') Backup = Some config
    /\ w' = extend w [Opened Backup; Closed Backup (dumps config);
                      Opened McpJson;
                      Closed McpJson (dumps (config_after (strip t) config));
                      Printed (msg_updated (home w)); Printed MSG_RESTART].
Proof.
  intros H.
  destruct (main_returns_0 _ _ H) as (t & c & config & config' & K & S & C & L & W & U & W' & E).
  rewrite update_config_spec in U.
  destruct (updatable config) eqn:Up; [|discriminate U]. injection U as <-.
  pose proof (loads_well_formed _ _ L) as Wf.
  pose proof (well_formed_config_after (strip t) _ Wf) as Wf'.
  assert (F : fs w' = mkFiles (Some t) (Some (dumps (config_after (strip t) config)))
                              (Some (dumps config))).
  { rewrite E, extend_fs. unfold replay. cbn [fold_left apply_event store].
    cbn [api_key_file mcp_json backup]. now rewrite K. }
  exists t, config. repeat split; try assumption.
  - now apply (document_content _ McpJson c).
  - now rewrite <- encodable_dumps.
  - now rewrite <- encodable_dumps.
  - rewrite F. now apply document_dumps.
  - rewrite F. now apply document_dumps.
Qed.

(** When a run succeeds: the key file holds a key, the configuration file
    holds an updatable document, and neither holds a surrogate. *)
Lemma main_succeeds w t config :
  api_key_file (fs w) = Some t -> strip t <> [] ->
  document (fs w) McpJson = Some config -> updatable config = true ->
  encodable_value config = true -> encodable (strip t) = true ->
  main w = (Ok 0%Z,
            extend w [Opened Backup; Closed Backup (dumps config);
                      Opened McpJson;
                      Closed McpJson (dumps (config_after (strip t) config));
                      Printed (msg_updated (home w)); Printed MSG_RESTART]).
Proof.
  intros K S D U E Ek.
  destruct (document_inv _ _ _ D) as (c & C & L).
  apply main_ok with t c; try assumption.
  - now rewrite encodable_dumps.
  - rewrite update_config_spec. now rewrite U.
  - rewrite encodable_dumps. now apply encodable_config_after.
Qed.

(* ================================================================== *)
(** * Trimming *)

Lemma lstrip_spec s :
  exists lead, s = lead ++ lstrip s /\ forallb isspace lead = true
               /\ match lstrip s with [] => True | c :: _ => isspace c = false end.
Proof.
  induction s as [|c s (lead & E & L & H)]; [now exists []|].
  simpl. destruct (isspace c) eqn:C.
  - exists (c :: lead). simpl. rewrite C, L. repeat split; [now rewrite <- E|exact H].
  - exists []. now repeat split.
Qed.

(** [strip] removes a run of whitespace at each end and nothing else, and
    leaves no whitespace at either end. *)
Lemma strip_spec s :
  exists lead trail,
    s = lead ++ strip s ++ trail
    /\ forallb isspace lead = true /\ forallb isspace trail = true
    /\ match strip s with [] => True | c :: _ => isspace c = false end
    /\ match rev (strip s) with [] => True | c :: _ => isspace c = false end.
Proof.
  destruct (lstrip_spec s) as (lead & E & L & H).
  unfold strip, rstrip.
  destruct (lstrip_spec (rev (lstrip s))) as (tr & E' & T & H').
  exists lead, (rev tr). rewrite rev_involutive.
  assert (R : lstrip s = rev (lstrip (rev (lstrip s))) ++ rev tr).
  { rewrite <- rev_app_distr, <- E'. now rewrite rev_involutive. }
  repeat split.
  - now rewrite <- R.
  - exact L.
  - rewrite forallb_forall in *. intros x Hx. apply T. now apply in_rev.
  - destruct (rev (lstrip (rev (lstrip s)))) as [|c u] eqn:Q; [exact I|].
    rewrite R in H. exact H.
  - exact H'.
Qed.

(* ================================================================== *)
(** * The entry that is updated *)

Lemma updatable_dict config :
  updatable config = true -> exists top, config = PyDict top.
Proof. destruct config; try discriminate. intros _. now eexists. Qed.

Lemma servers_after key top :
  servers_of (config_after key (PyDict top))
  = dict_set (servers_of (PyDict top)) (selection_rule (servers_of (PyDict top)))
      (PyDict (entry_after key
                 (fields_of (servers_of (PyDict top))
                            (selection_rule (servers_of (PyDict top)))))).
Proof. cbn [config_after]. apply servers_of_set. Qed.

Lemma keys_set d k v : exists new, keys (dict_set d k v) = keys d ++ new.
Proof.
  destruct (dict_has d k) eqn:E.
  - exists []. rewrite List.app_nil_r. now apply keys_set_present.
  - exists [k]. now apply keys_set_absent.
Qed.

Lemma keys_entry_after key e : exists new, keys (entry_after key e) = keys e ++ new.
Proof.
  unfold entry_after.
  destruct (keys_set e HEADERS
              (PyDict (dict_set (fields_of e HEADERS) X_MCP_API_KEY (PyStr key))))
    as (n1 & E1).
  destruct (keys_set (dict_set e HEADERS
              (PyDict (dict_set (fields_of e HEADERS) X_MCP_API_KEY (PyStr key))))
              URL (PyStr URL_VALUE)) as (n2 & E2).
  destruct (keys_set (dict_set (dict_set e HEADERS
              (PyDict (dict_set (fields_of e HEADERS) X_MCP_API_KEY (PyStr key))))
              URL (PyStr URL_VALUE)) DESCRIPTION (PyStr DESCRIPTION_VALUE)) as (n3 & E3).
  exists (n1 ++ n2 ++ n3). rewrite E3, E2, E1. now rewrite <- !List.app_assoc.
Qed.

(** C1.  The entry that [main] updates is chosen by the rule.  Lines 43-49,
    on every document whose [mcpServers] is an object: when ["easygrid"] is
    there it is the name chosen and the document is as it was; otherwise,
    when ["easygrid-mcp"] is there it is the name chosen and the document
    is as it was, so that no ["easygrid"] key is created; otherwise
    ["easygrid"] is chosen and a new empty entry of that name is added
    after the others.  And on every run that succeeds, the entry that
    carries the key in the resulting file is the one the rule names, every
    other entry being as it was. *)
Theorem selection_rule_applied :
  (forall top servers,
     dict_get top MCP_SERVERS = Some (PyDict servers) ->
     (dict_has servers EASYGRID = true ->
      select_server (PyDict top) = Ok (EASYGRID, PyDict top))
     /\ (dict_has servers EASYGRID = false ->
         dict_has servers EASYGRID_MCP = true ->
         select_server (PyDict top) = Ok (EASYGRID_MCP, PyDict top))
     /\ (dict_has servers EASYGRID = false ->
         dict_has servers EASYGRID_MCP = false ->
         select_server (PyDict top)
         = Ok (EASYGRID,
               PyDict (dict_set top MCP_SERVERS
                         (PyDict (servers ++ [(EASYGRID, PyDict [])]))))))
  /\ (forall w w',
        main w = (Ok 0%Z, w') ->
        exists t config config',
          api_key_file (fs w) = Some t
          /\ document (fs w) McpJson = Some config
          /\ document (fs w') McpJson = Some config'
          /\ let key := strip t in
             let servers := servers_of config in
             let servers' := servers_of config' in
             let carries name :=
               dict_get (fields_of (fields_of servers' name) HEADERS) X_MCP_API_KEY
               = Some (PyStr key) in
             (dict_has servers EASYGRID = true ->
              carries EASYGRID
              /\ keys servers' = keys servers
              /\ forall k, k <> EASYGRID -> dict_get servers' k = dict_get servers k)
             /\ (dict_has servers EASYGRID = false ->
                 dict_has servers EASYGRID_MCP = true ->
                 carries EASYGRID_MCP
                 /\ dict_has servers' EASYGRID = false
                 /\ keys servers' = keys servers
                 /\ forall k, k <> EASYGRID_MCP ->
                              dict_get servers' k = dict_get servers k)
             /\ (dict_has servers EASYGRID = false ->
                 dict_has servers EASYGRID_MCP = false ->
                 carries EASYGRID
                 /\ keys servers' = keys servers ++ [EASYGRID]
                 /\ forall k, k <> EASYGRID -> dict_get servers' k = dict_get servers k)).
Proof.
  split.
  - intros top servers G.
    pose proof (select_server_dict top servers) as Sel.
    rewrite (dict_set_same_value _ _ _ G) in Sel at 1.
    unfold entry_value in Sel. repeat split.
    + intros E.
      assert (Hn : selection_rule servers = EASYGRID)
        by (unfold selection_rule; now rewrite E).
      rewrite Hn in Sel. apply dict_has_get in E as (v & E). rewrite E in Sel.
      now rewrite (dict_set_same_value _ _ _ E), (dict_set_same_value _ _ _ G) in Sel.
    + intros E1 E2.
      assert (Hn : selection_rule servers = EASYGRID_MCP)
        by (unfold selection_rule; now rewrite E1, E2).
      rewrite Hn in Sel. apply dict_has_get in E2 as (v & E2). rewrite E2 in Sel.
      now rewrite (dict_set_same_value _ _ _ E2), (dict_set_same_value _ _ _ G) in Sel.
    + intros E1 E2.
      assert (Hn : selection_rule servers = EASYGRID)
        by (unfold selection_rule; now rewrite E1, E2).
      rewrite Hn in Sel. rewrite (dict_set_fresh _ _ _ E1) in Sel.
      apply dict_has_none in E1. now rewrite E1 in Sel.
  - intros w w' H.
    destruct (successful_run _ _ H) as (t & config & K & _ & D & _ & U & _ & _ & _ & D' & _).
    exists t, config, (config_after (strip t) config).
    split; [exact K|]. split; [exact D|]. split; [exact D'|].
    cbv zeta.
    destruct (updatable_dict _ U) as (top & ->). rewrite servers_after.
    set (servers := servers_of (PyDict top)).
    split; [|split].
    + intros E.
      assert (Hn : selection_rule servers = EASYGRID)
        by (unfold selection_rule; now rewrite E).
      rewrite Hn. repeat split.
      * now rewrite fields_of_set, headers_of_entry_after, dict_get_set_same.
      * now apply keys_set_present.
      * intros k N. now apply dict_get_set_other.
    + intros E1 E2.
      assert (Hn : selection_rule servers = EASYGRID_MCP)
        by (unfold selection_rule; now rewrite E1, E2).
      rewrite Hn. repeat split.
      * now rewrite fields_of_set, headers_of_entry_after, dict_get_set_same.
      * rewrite dict_has_set_other by discriminate. exact E1.
      * now apply keys_set_present.
      * intros k N. now apply dict_get_set_other.
    + intros E1 E2.
      assert (Hn : selection_rule servers = EASYGRID)
        by (unfold selection_rule; now rewrite E1, E2).
      rewrite Hn. repeat split.
      * now rewrite fields_of_set, headers_of_entry_after, dict_get_set_same.
      * now apply keys_set_absent.
      * intros k N. now apply dict_get_set_other.
Qed.

(* ================================================================== *)
(** * The fields that are set *)

(** C2.  On every run that returns 0, the chosen entry is an object whose
    [headers] is an object in which ["X-MCP-API-Key"] is the content of the
    key file without the whitespace at its ends, whose [url] is
    ["http://localhost:8080/api/mcp/v1"] and whose [description] is
    ["EasyGrid CRUD - MCP HTTP"]; when the entry had no [headers], the new
    one holds the key only.  And the run does return 0 when the chosen
    entry has no [headers]: lines 51-52 create it, so that on every
    document that can be updated and written, with a key that can be
    written, the entry ends with a [headers] that holds the key only. *)
Theorem chosen_entry_fields :
  (forall w w',
     main w = (Ok 0%Z, w') ->
     exists t config config' entry headers lead trail,
       api_key_file (fs w) = Some t
       /\ document (fs w) McpJson = Some config
       /\ document (fs w') McpJson = Some config'
       /\ t = lead ++ strip t ++ trail
       /\ forallb isspace lead = true /\ forallb isspace trail = true
       /\ match strip t with [] => False | c :: _ => isspace c = false end
       /\ match rev (strip t) with [] => False | c :: _ => isspace c = false end
       /\ let name := selection_rule (servers_of config) in
          dict_get (servers_of config') name = Some (PyDict entry)
          /\ dict_get entry (str "headers") = Some (PyDict headers)
          /\ dict_get headers (str "X-MCP-API-Key") = Some (PyStr (strip t))
          /\ dict_get entry (str "url")
             = Some (PyStr (str "http://localhost:8080/api/mcp/v1"))
          /\ dict_get entry (str "description")
             = Some (PyStr (str "EasyGrid CRUD - MCP HTTP"))
          /\ (dict_get (fields_of (servers_of config) name) (str "headers") = None ->
              headers = [(str "X-MCP-API-Key", PyStr (strip t))]))
  /\ (forall w t config,
        api_key_file (fs w) = Some t -> strip t <> [] -> encodable (strip t) = true ->
        document (fs w) McpJson = Some config ->
        updatable config = true -> encodable_value config = true ->
        let name := selection_rule (servers_of config) in
        dict_get (fields_of (servers_of config) name) (str "headers") = None ->
        exists w' config' entry,
          main w = (Ok 0%Z, w')
          /\ document (fs w') McpJson = Some config'
          /\ dict_get (servers_of config') name = Some (PyDict entry)
          /\ dict_get entry (str "headers")
             = Some (PyDict [(str "X-MCP-API-Key", PyStr (strip t))])
          /\ dict_get entry (str "url")
             = Some (PyStr (str "http://localhost:8080/api/mcp/v1"))
          /\ dict_get entry (str "description")
             = Some (PyStr (str "EasyGrid CRUD - MCP HTTP"))).
Proof.
  split.
  - intros w w' H.
    destruct (successful_run _ _ H) as (t & config & K & S & D & _ & U & _ & _ & _ & D' & _).
    destruct (strip_spec t) as (lead & trail & E & L & T & H1 & H2).
    destruct (updatable_dict _ U) as (top & ->).
    set (servers := servers_of (PyDict top)).
    set (name := selection_rule servers).
    set (entry := fields_of servers name).
    exists t, (PyDict top), (config_after (strip t) (PyDict top)),
      (entry_after (strip t) entry),
      (dict_set (fields_of entry HEADERS) X_MCP_API_KEY (PyStr (strip t))), lead, trail.
    repeat split; try assumption.
    + destruct (strip t); [now destruct S|exact H1].
    + destruct (strip t) as [|c u] eqn:Q; [now destruct S|].
      destruct (rev (c :: u)) eqn:R; [|exact H2].
      apply (f_equal (@length N)) in R. rewrite length_rev in R. discriminate R.
    + rewrite servers_after. apply dict_get_set_same.
    + apply entry_after_get_headers.
    + apply dict_get_set_same.
    + apply entry_after_get_url.
    + apply entry_after_get_description.
    + fold servers. fold name. fold entry. change (str "headers") with HEADERS.
      intros N. unfold fields_of. now rewrite N.
  - intros w t config K S Ek D U E name N.
    pose proof (main_succeeds w t config K S D U E Ek) as M.
    destruct (successful_run _ _ M)
      as (t' & config0 & K' & _ & D0 & _ & _ & _ & _ & _ & D' & _).
    assert (t' = t) by congruence. subst t'.
    assert (config0 = config) by congruence. subst config0.
    destruct (updatable_dict _ U) as (top & ->).
    eexists. exists (config_after (strip t) (PyDict top)).
    exists (entry_after (strip t) (fields_of (servers_of (PyDict top)) name)).
    split; [exact M|]. split; [exact D'|].
    split; [rewrite servers_after; apply dict_get_set_same|].
    split; [|split; [apply entry_after_get_url|apply entry_after_get_description]].
    change (str "headers") with HEADERS in *.
    rewrite entry_after_get_headers. unfold fields_of at 1. now rewrite N.
Qed.

(* ================================================================== *)
(** * What the update leaves as it was *)

(** C4.  On every run that succeeds: every entry of [mcpServers] other
    than the chosen one is as it was, and the entries keep their order;
    every field of the chosen entry other than [headers], [url] and
    [description] is as it was, and its fields keep their order; every
    header other than ["X-MCP-API-Key"] is as it was, and the headers keep
    their order; every top-level key other than [mcpServers] is as it was;
    and when ["easygrid"] is there, ["easygrid-mcp"] is as it was. *)
Theorem rest_is_preserved w w' :
  main w = (Ok 0%Z, w') ->
  exists top top',
    document (fs w) McpJson = Some (PyDict top)
    /\ document (fs w') McpJson = Some (PyDict top')
    /\ let servers := servers_of (PyDict top) in
       let servers' := servers_of (PyDict top') in
       let name := selection_rule servers in
       let entry := fields_of servers name in
       let entry' := fields_of servers' name in
       let headers := fields_of entry HEADERS in
       let headers' := fields_of entry' HEADERS in
       (forall k, k <> name -> dict_get servers' k = dict_get servers k)
       /\ (exists new, keys servers' = keys servers ++ new)
       /\ (forall f, f <> HEADERS -> f <> URL -> f <> DESCRIPTION ->
           dict_get entry' f = dict_get entry f)
       /\ (exists new, keys entry' = keys entry ++ new)
       /\ (forall h, h <> X_MCP_API_KEY -> dict_get headers' h = dict_get headers h)
       /\ (exists new, keys headers' = keys headers ++ new)
       /\ (forall k, k <> MCP_SERVERS -> dict_get top' k = dict_get top k)
       /\ (exists new, keys top' = keys top ++ new)
       /\ (dict_has servers EASYGRID = true ->
           dict_get servers' EASYGRID_MCP = dict_get servers EASYGRID_MCP).
Proof.
  intros H.
  destruct (successful_run _ _ H) as (t & config & K & _ & D & _ & U & _ & _ & _ & D' & _).
  destruct (updatable_dict _ U) as (top & ->).
  eexists top, _. split; [exact D|]. split; [exact D'|].
  fold (config_after (strip t) (PyDict top)). rewrite servers_after.
  cbv zeta. set (servers := servers_of (PyDict top)).
  set (name := selection_rule servers).
  rewrite fields_of_set, headers_of_entry_after.
  repeat split.
  - intros k N. now apply dict_get_set_other.
  - apply keys_set.
  - intros f N1 N2 N3. now apply entry_after_get_other.
  - apply keys_entry_after.
  - intros h N. now apply dict_get_set_other.
  - apply keys_set.
  - intros k N. now apply dict_get_set_other.
  - apply keys_set.
  - intros E. apply dict_get_set_other.
    subst name. unfold selection_rule. rewrite E. discriminate.
Qed.

(* ================================================================== *)
(** * The entry that is created *)

(** C7.  On every run that succeeds, when neither name is in [mcpServers]
    the entry ["easygrid"] of the result is made of exactly [headers]
    (holding the key only), [url] and [description], in this order.  On the
    scenario of the specification the run returns 0 and the resulting
    document is the one the specification gives. *)
Theorem new_entry_is_exact :
  (forall w w',
     main w = (Ok 0%Z, w') ->
     exists t config config',
       api_key_file (fs w) = Some t
       /\ document (fs w) McpJson = Some config
       /\ document (fs w') McpJson = Some config'
       /\ (dict_has (servers_of config) (str "easygrid") = false ->
           dict_has (servers_of config) (str "easygrid-mcp") = false ->
           dict_get (servers_of config') (str "easygrid")
           = Some (PyDict
                     [(str "headers", PyDict [(str "X-MCP-API-Key", PyStr (strip t))]);
                      (str "url", PyStr (str "http://localhost:8080/api/mcp/v1"));
                      (str "description", PyStr (str "EasyGrid CRUD - MCP HTTP"))])))
  /\ (exists w' d,
        main scenario = (Ok 0%Z, w')
        /\ document (fs w') McpJson = Some d
        /\ loads (jstr "{'mcpServers':{'easygrid':{'headers':{'X-MCP-API-Key':'abc123'},'url':'http://localhost:8080/api/mcp/v1','description':'EasyGrid CRUD - MCP HTTP'}}}")
           = Ok d).
Proof.
  split.
  - intros w w' H.
    destruct (successful_run _ _ H)
      as (t & config & K & _ & D & _ & U & _ & _ & _ & D' & _).
    exists t, config, (config_after (strip t) config).
    split; [exact K|]. split; [exact D|]. split; [exact D'|].
    intros E1 E2.
    destruct (updatable_dict _ U) as (top & ->).
    rewrite servers_after.
    change (str "easygrid") with EASYGRID in *.
    change (str "easygrid-mcp") with EASYGRID_MCP in *.
    assert (Hn : selection_rule (servers_of (PyDict top)) = EASYGRID)
      by (unfold selection_rule; now rewrite E1, E2).
    rewrite Hn, dict_get_set_same. unfold fields_of.
    apply dict_has_none in E1. now rewrite E1.
  - exists (snd (main scenario)). eexists. split; [|split]; vm_compute; reflexivity.
Qed.

(* ================================================================== *)
(** * The three failures that are handled *)

Lemma replay_printed f lines : replay f (map Printed lines) = f.
Proof.
  unfold replay. induction lines as [|l lines IH]; [reflexivity|exact IH].
Qed.

(** C3.  When the key file is missing, or holds whitespace only, or the
    configuration file is missing, [main] returns 1, every event of the run
    is a printed line, so that no file is created or changed, and the lines
    are: for a missing key file, the error and the remediation hint; for an
    empty key, the error; for a missing configuration file, the error.  The
    hint is printed in the first case only. *)
Theorem handled_failures_write_nothing w :
  api_key_file (fs w) = None
  \/ (exists t, api_key_file (fs w) = Some t /\ strip t = [])
  \/ mcp_json (fs w) = None ->
  exists w' lines,
    main w = (Ok 1%Z, w')
    /\ events_of w w' = map Printed lines
    /\ w' = extend w (map Printed lines)
    /\ fs w' = fs w
    /\ lines <> []
    /\ (api_key_file (fs w) = None ->
        lines = [str "Error: API Key file not found at " ++ home w
                 ++ str "/.easygrid/api-key";
                 str "Run: go run server/cmd/mcp-api-key/main.go -action=create"])
    /\ (forall t, api_key_file (fs w) = Some t -> strip t = [] ->
        lines = [str "Error: API Key is empty"])
    /\ (forall t, api_key_file (fs w) = Some t -> strip t <> [] ->
        lines = [str "Error: mcp.json not found at " ++ home w
                 ++ str "/.cursor/mcp.json"])
    /\ (In MSG_HINT lines <-> api_key_file (fs w) = None).
Proof.
  intros C.
  assert (G : forall lines,
             events_of w (extend w (map Printed lines)) = map Printed lines
             /\ fs (extend w (map Printed lines)) = fs w).
  { intros lines. split; [apply events_of_extend|].
    rewrite extend_fs. apply replay_printed. }
  destruct (api_key_file (fs w)) as [t|] eqn:K.
  - destruct (strip t) as [|c k] eqn:S.
    + exists (extend w (map Printed [MSG_EMPTY])), [MSG_EMPTY].
      destruct (G [MSG_EMPTY]) as (G1 & G2).
      pose proof (main_empty_key w t K S) as M.
      repeat split; try assumption; try discriminate.
      * intros t' [= <-] N. now destruct N.
      * intros [E|[]]. discriminate E.
    + assert (N : strip t <> []) by (rewrite S; discriminate).
      assert (Cf : mcp_json (fs w) = None).
      { destruct C as [C|[(t' & [= <-] & C)|C]]; [discriminate C| |exact C].
        rewrite S in C. discriminate C. }
      exists (extend w (map Printed [msg_no_config (home w)])), [msg_no_config (home w)].
      destruct (G [msg_no_config (home w)]) as (G1 & G2).
      pose proof (main_no_config w t K N Cf) as M.
      repeat split; try assumption; try discriminate.
      * intros t' [= <-] E. rewrite S in E. discriminate E.
      * intros [E|[]]. discriminate E.
  - exists (extend w (map Printed [msg_no_key (home w); MSG_HINT])),
      [msg_no_key (home w); MSG_HINT].
    destruct (G [msg_no_key (home w); MSG_HINT]) as (G1 & G2).
    pose proof (main_no_key w K) as M.
    repeat split; try assumption; try discriminate.
    right. now left.
Qed.

(* ================================================================== *)
(** * Running twice *)

Lemma encodable_value_get d k v :
  encodable_value (PyDict d) = true -> dict_get d k = Some v -> encodable_value v = true.
Proof.
  cbn [encodable_value]. induction d as [|[k' v'] d IH]; cbn [dict_get forallb fst snd];
    [discriminate|].
  rewrite !andb_true_iff. intros [[_ H1] H2].
  destruct (text_eqb k' k); [now intros [= <-]|now apply IH].
Qed.

(** The key of an updated document that can be written can be written. *)
Lemma encodable_key_after key config :
  updatable config = true ->
  encodable_value (config_after key config) = true -> encodable key = true.
Proof.
  intros U E. destruct (updatable_dict _ U) as (top & ->). cbn [config_after] in E.
  pose proof (encodable_value_get _ _ _ E (dict_get_set_same _ _ _)) as E1.
  pose proof (encodable_value_get _ _ _ E1 (dict_get_set_same _ _ _)) as E2.
  pose proof (encodable_value_get _ _ _ E2 (entry_after_get_headers _ _)) as E3.
  exact (encodable_value_get _ _ _ E3 (dict_get_set_same _ _ _)).
Qed.

(** C5.  The update is idempotent: after a run that succeeds, a second run
    with the same key file succeeds and leaves the configuration file as
    the first run left it, code point for code point, hence the same
    document. *)
Theorem update_is_idempotent w w1 :
  main w = (Ok 0%Z, w1) ->
  exists w2,
    main w1 = (Ok 0%Z, w2)
    /\ api_key_file (fs w1) = api_key_file (fs w)
    /\ mcp_json (fs w2) = mcp_json (fs w1)
    /\ document (fs w2) McpJson = document (fs w1) McpJson.
Proof.
  intros H.
  destruct (successful_run _ _ H)
    as (t & config & K & S & D & Wf & U & E & E' & F & D' & _ & _).
  assert (K1 : api_key_file (fs w1) = Some t) by now rewrite F.
  pose proof (main_succeeds w1 t _ K1 S D' (updatable_config_after _ _ U) E'
                (encodable_key_after _ _ U E')) as M.
  rewrite config_after_idempotent in M.
  eexists. split; [exact M|].
  assert (C : mcp_json (fs (extend w1
                [Opened Backup; Closed Backup (dumps (config_after (strip t) config));
                 Opened McpJson; Closed McpJson (dumps (config_after (strip t) config));
                 Printed (msg_updated (home w1)); Printed MSG_RESTART]))
              = mcp_json (fs w1)).
  { rewrite extend_fs, F. reflexivity. }
  split; [now rewrite K1, K|]. split; [exact C|].
  unfold document. cbn [content]. now rewrite C.
Qed.

(* ================================================================== *)
(** * The backup *)

(** Events on other files leave the content of a file as it was. *)
Lemma replay_untouched p es : forall f,
  existsb (touches p) es = false -> content (replay f es) p = content f p.
Proof.
  unfold replay. induction es as [|e es IH]; intros f; [reflexivity|].
  cbn [existsb fold_left]. rewrite orb_false_iff. intros [T H].
  rewrite IH by exact H.
  destruct e as [q|q x|l]; [| |reflexivity];
    destruct p, q; try discriminate T; reflexivity.
Qed.

Lemma backup_after_events f x es :
  existsb (touches Backup) es = false ->
  backup (replay f (Opened Backup :: Closed Backup x :: es)) = Some x.
Proof.
  intros H.
  change (replay f (Opened Backup :: Closed Backup x :: es))
    with (replay (store (store f Backup []) Backup x) es).
  exact (replay_untouched Backup es _ H).
Qed.

(** C6, amended.  On every run that reaches the backup step (the key file
    holds a key and the configuration file holds a document), the backup
    file holds, whatever it held before, what [json.dump] wrote of that
    document with a 2-space indent; when the document holds no surrogate
    this is its whole text, which is read back as the document the
    configuration file held before the mutation. *)
Theorem backup_holds_the_document w t config :
  api_key_file (fs w) = Some t -> strip t <> [] ->
  document (fs w) McpJson = Some config ->
  backup (fs (snd (main w))) = Some (fst (write_chunks (iterencode 0 config)))
  /\ (encodable_value config = true ->
      backup (fs (snd (main w))) = Some (dumps config)
      /\ document (fs (snd (main w))) Backup = Some config).
Proof.
  intros K S D.
  destruct (document_inv _ _ _ D) as (c & C & L). cbn [content] in C.
  pose proof (loads_well_formed _ _ L) as Wf.
  assert (B : backup (fs (snd (main w))) = Some (fst (write_chunks (iterencode 0 config)))).
  { destruct (encodable (dumps config)) eqn:W.
    - rewrite (write_chunks_dumps _ W). cbn [fst].
      destruct (update_config (strip t) config) as [config'|e] eqn:U.
      + destruct (encodable (dumps config')) eqn:W'.
        * rewrite (main_ok w t c config config' K S C L W U W'). cbn [snd].
          rewrite extend_fs. now apply backup_after_events.
        * rewrite (main_write_fails w t c config config' K S C L W U W'). cbn [snd].
          rewrite extend_fs. now apply backup_after_events.
      + rewrite (main_update_raises w t c config e K S C L W U). cbn [snd].
        rewrite extend_fs. now apply backup_after_events.
    - rewrite (main_backup_fails w t c config K S C L W). cbn [snd].
      rewrite extend_fs. now apply backup_after_events. }
  split; [exact B|]. intros E.
  rewrite <- encodable_dumps in E. rewrite (write_chunks_dumps _ E) in B. cbn [fst] in B.
  split; [exact B|]. now apply document_dumps.
Qed.

(* ================================================================== *)
(** * The order of the writes *)

(** Every prefix of a list whose spine is known. *)
Ltac prefixes E :=
  repeat match type of E with
         | _ :: _ = ?pre ++ _ =>
             is_var pre; destruct pre as [|? pre]; cbn [app] in E;
             [|injection E as <- E]
         | [] = ?pre ++ _ =>
             is_var pre; destruct pre as [|? pre]; cbn [app] in E; [|discriminate E]
         end.

Lemma events_of_same w : events_of w w = [].
Proof. unfold events_of. induction (log w) as [|e l IH]; [reflexivity|exact IH]. Qed.

(** C8.  In every run, whatever its outcome: the events of the run account
    for the files it leaves; the configuration file is opened for writing
    at most once, and when it is, the backup has been written in full
    before, lines 39-56 have returned the document that is then written,
    and nothing but the closing of the file and printed lines follows; at
    every point of the run before that opening, the configuration file and
    the key file hold what they held when the run began. *)
Theorem configuration_written_last w r w' :
  main w = (r, w') ->
  let es := events_of w w' in
  w' = extend w es
  /\ (forall pre post,
        es = pre ++ Opened McpJson :: post ->
        exists t config config' prints,
          api_key_file (fs w) = Some t
          /\ document (fs w) McpJson = Some config
          /\ update_config (strip t) config = Ok config'
          /\ pre = [Opened Backup; Closed Backup (dumps config)]
          /\ post = Closed McpJson (fst (write_chunks (iterencode 0 config')))
                    :: map Printed prints)
  /\ (forall pre post,
        es = pre ++ post -> ~ In (Opened McpJson) pre ->
        mcp_json (replay (fs w) pre) = mcp_json (fs w)
        /\ api_key_file (replay (fs w) pre) = api_key_file (fs w)).
Proof.
  intros H.
  destruct (main_cases w) as
    [[K M]|[(t & K & S & M)|[(t & K & S & C & M)|[(t & c & e & K & S & C & L & M)|
     [(t & c & cf & K & S & C & L & W & M)|[(t & c & cf & e & K & S & C & L & W & U & M)|
     [(t & c & cf & cf' & K & S & C & L & W & U & W' & M)|
      (t & c & cf & cf' & K & S & C & L & W & U & W' & M)]]]]]]];
    rewrite M in H; apply pair_equal_spec in H as [<- <-]; cbv zeta;
    first [rewrite events_of_extend|rewrite events_of_same];
    (split; [reflexivity|]); split;
    intros pre post E; prefixes E; try discriminate E;
    try (intros _; split; reflexivity);
    try (intros N; exfalso; apply N; cbn [In]; tauto).
  - injection E as <-. exists t, cf, cf', [].
    repeat split; try assumption. now apply (document_content _ McpJson c).
  - injection E as <-. exists t, cf, cf', [msg_updated (home w); MSG_RESTART].
    rewrite (write_chunks_dumps _ W').
    repeat split; try assumption. now apply (document_content _ McpJson c).
Qed.

(* ================================================================== *)
(** * A document without mcpServers *)

(** C9, amended.  When the configuration holds an object without
    [mcpServers], and neither it nor the key holds a surrogate, the run
    returns 0; in the resulting document [mcpServers] is a new last key
    that holds the entry ["easygrid"] only, made of the three fields, and
    every other top-level key is as it was. *)
Theorem missing_servers_are_created w t top :
  api_key_file (fs w) = Some t -> strip t <> [] -> encodable (strip t) = true ->
  document (fs w) McpJson = Some (PyDict top) ->
  dict_has top MCP_SERVERS = false ->
  encodable_value (PyDict top) = true ->
  exists w' top',
    main w = (Ok 0%Z, w')
    /\ document (fs w') McpJson = Some (PyDict top')
    /\ dict_get top' MCP_SERVERS
       = Some (PyDict
                 [(EASYGRID,
                   PyDict [(HEADERS, PyDict [(X_MCP_API_KEY, PyStr (strip t))]);
                           (URL, PyStr URL_VALUE);
                           (DESCRIPTION, PyStr DESCRIPTION_VALUE)])])
    /\ keys top' = keys top ++ [MCP_SERVERS]
    /\ forall k, k <> MCP_SERVERS -> dict_get top' k = dict_get top k.
Proof.
  intros K S Ek D N E.
  assert (Sv : servers_of (PyDict top) = []).
  { unfold servers_of. apply dict_has_none in N. now rewrite N. }
  assert (U : updatable (PyDict top) = true).
  { unfold updatable. rewrite Sv. apply dict_has_none in N. now rewrite N. }
  pose proof (main_succeeds w t _ K S D U E Ek) as M.
  destruct (successful_run _ _ M) as (t' & config & K' & _ & D0 & _ & _ & _ & _ & _ & D' & _).
  assert (t' = t) by congruence. subst t'.
  assert (config = PyDict top) by congruence. subst config.
  eexists. eexists. split; [exact M|]. split; [exact D'|].
  rewrite Sv. repeat split.
  - apply dict_get_set_same.
  - now apply keys_set_absent.
  - intros k Nk. now apply dict_get_set_other.
Qed.

(* ================================================================== *)
(** * Two runs on the same files *)




(* ================================================================== *)
(** * A blank configuration *)

Lemma skip_ws_blank s : forallb is_ws s = true -> skip_ws s = [].
Proof.
  induction s as [|c s IH]; [reflexivity|]. cbn [forallb skip_ws].
  rewrite andb_true_iff. intros [-> H]. now apply IH.
Qed.

Lemma loads_blank s : forallb is_ws s = true -> loads s = Raise JSONDecodeError.
Proof.
  intros H. unfold loads. rewrite (skip_ws_blank _ H).
  assert (B : startswith [65279%N] s = false).
  { destruct s as [|c s]; [reflexivity|]. cbn [forallb] in H.
    apply andb_true_iff in H as [H _]. cbn [startswith].
    destruct (N.eqb_spec 65279 c) as [<-|]; [discriminate H|reflexivity]. }
  rewrite B. unfold fuel_for. rewrite Nat.add_1_r. reflexivity.
Qed.

(** X2.  An empty configuration file, or one that holds only spaces, tabs
    and line ends, is not read as an empty document: [json.load] raises
    [JSONDecodeError], and the run ends there with nothing printed and
    nothing written. *)
Theorem blank_configuration_is_rejected w t c :
  api_key_file (fs w) = Some t -> strip t <> [] ->
  mcp_json (fs w) = Some c -> forallb is_ws c = true ->
  loads c = Raise JSONDecodeError
  /\ main w = (Raise JSONDecodeError, w).
Proof.
  intros K S C B. pose proof (loads_blank _ B) as L.
  split; [exact L|]. now apply main_bad_json with t c.
Qed.

(* ================================================================== *)
(** * A document that lines 39-56 cannot update *)

(** X3.  When the document read is not one that lines 39-56 can update (it
    is not an object, or its [mcpServers], the chosen entry or the
    [headers] of that entry is there and is not an object), the run raises
    [TypeError] once the backup has been written in full: the
    configuration file is not opened and holds what it held, nothing is
    printed, and the backup holds the document. *)
Theorem failed_update_keeps_configuration w t config :
  api_key_file (fs w) = Some t -> strip t <> [] ->
  document (fs w) McpJson = Some config ->
  encodable_value config = true ->
  updatable config = false ->
  exists w',
    main w = (Raise TypeError, w')
    /\ events_of w w' = [Opened Backup; Closed Backup (dumps config)]
    /\ mcp_json (fs w') = mcp_json (fs w)
    /\ api_key_file (fs w') = api_key_file (fs w)
    /\ backup (fs w') = Some (dumps config)
    /\ document (fs w') Backup = Some config.
Proof.
  intros K S D E U.
  destruct (document_inv _ _ _ D) as (c & C & L). cbn [content] in C.
  assert (W : encodable (dumps config) = true) by now rewrite encodable_dumps.
  assert (R : update_config (strip t) config = Raise TypeError).
  { rewrite update_config_spec. now rewrite U. }
  pose proof (main_update_raises w t c config _ K S C L W R) as M.
  eexists. split; [exact M|].
  rewrite events_of_extend, extend_fs.
  assert (B : backup (replay (fs w) [Opened Backup; Closed Backup (dumps config)])
              = Some (dumps config)) by reflexivity.
  repeat split; try reflexivity.
  apply document_dumps; [exact B|]. exact (loads_well_formed _ _ L).
Qed.

(* ================================================================== *)
(** * The outcomes of a run *)

(** The eight runs of [main_cases], with the names used below. *)
Ltac runs_of w :=
  destruct (main_cases w) as
    [[K M]|[(t & K & S & M)|[(t & K & S & C & M)|[(t & c & e & K & S & C & L & M)|
     [(t & c & cf & K & S & C & L & W & M)|[(t & c & cf & e & K & S & C & L & W & U & M)|
     [(t & c & cf & cf' & K & S & C & L & W & U & W' & M)|
      (t & c & cf & cf' & K & S & C & L & W & U & W' & M)]]]]]]].

(** X4.  The exit status is 0 or 1 and nothing else, and it is 1 in the
    three cases that lines 15-27 check and in no other: the key file is
    missing, it holds whitespace only, or the configuration file is
    missing. *)
Theorem exit_status_is_0_or_1 w :
  (forall z, fst (main w) = Ok z -> z = 0%Z \/ z = 1%Z)
  /\ (fst (main w) = Ok 1%Z <->
      api_key_file (fs w) = None
      \/ (exists t, api_key_file (fs w) = Some t /\ strip t = [])
      \/ mcp_json (fs w) = None).
Proof.
  assert (N : forall r : result Z,
             (exists t, api_key_file (fs w) = Some t /\ strip t <> []
                        /\ exists c, mcp_json (fs w) = Some c) ->
             r <> Ok 1%Z ->
             (r = Ok 1%Z <->
              api_key_file (fs w) = None
              \/ (exists t, api_key_file (fs w) = Some t /\ strip t = [])
              \/ mcp_json (fs w) = None)).
  { intros r (t & K & S & c & C) D. split; [now intros E|].
    intros [N|[(t' & K' & S')|N]]; congruence. }
  runs_of w; rewrite M; cbn [fst].
  - split; [intros z [= <-]; now right|]. split; [now left|reflexivity].
  - split; [intros z [= <-]; now right|].
    split; [right; left; now exists t|reflexivity].
  - split; [intros z [= <-]; now right|]. split; [now right; right|reflexivity].
  - split; [discriminate|]. apply N; [|discriminate]. exists t. eauto.
  - split; [discriminate|]. apply N; [|discriminate]. exists t. eauto.
  - split; [discriminate|]. apply N; [|discriminate]. exists t. eauto.
  - split; [discriminate|]. apply N; [|discriminate]. exists t. eauto.
  - split; [intros z [= <-]; now left|]. apply N; [|discriminate]. exists t. eauto.
Qed.

(** X6.  No run writes the key file: none of its events opens or closes
    it, and it holds at the end what it held at the start, whatever the
    outcome. *)
Theorem key_file_is_only_read w :
  existsb (touches ApiKeyFile) (events_of w (snd (main w))) = false
  /\ api_key_file (fs (snd (main w))) = api_key_file (fs w).
Proof.
  runs_of w; rewrite M; cbn [snd];
    first [rewrite events_of_extend, extend_fs|rewrite events_of_same];
    split; reflexivity.
Qed.

(** X7.  A run that raises prints nothing, at whatever line it raises;
    a run that returns 0 prints the two lines of lines 62-63 and no
    other. *)
Theorem only_returns_print w :
  (forall e, fst (main w) = Raise e -> printed (events_of w (snd (main w))) = [])
  /\ (fst (main w) = Ok 0%Z ->
      printed (events_of w (snd (main w)))
      = [9989%N :: str " Updated " ++ home w ++ str "/.cursor/mcp.json"
           ++ str " with API Key from " ++ home w ++ str "/.easygrid/api-key";
         str "Please restart Cursor to apply changes"]).
Proof.
  runs_of w; rewrite M; cbn [fst snd];
    first [rewrite events_of_extend|rewrite events_of_same];
    (split; [intros e' H; try discriminate H; reflexivity|]);
    intros H; try discriminate H.
  cbn [printed flat_map app]. unfold msg_updated, path_str, MSG_RESTART.
  now rewrite <- !List.app_assoc.
Qed.

(* ================================================================== *)
(** * A key file without a key *)

Lemma lstrip_blank s : forallb isspace s = true -> lstrip s = [].
Proof.
  induction s as [|c s IH]; [reflexivity|]. cbn [forallb lstrip].
  rewrite andb_true_iff. intros [-> H]. now apply IH.
Qed.

Lemma strip_empty s : strip s = [] <-> forallb isspace s = true.
Proof.
  split.
  - intros E. destruct (strip_spec s) as (lead & trail & F & L & T & _).
    rewrite E in F. cbn [app] in F. rewrite F, forallb_app, L, T. reflexivity.
  - intros B. unfold strip. now rewrite (lstrip_blank _ B).
Qed.

(** X8.  With a key file in place, the run ends at line 23, printing
    ["Error: API Key is empty"] and returning 1, exactly when the file is
    empty or holds whitespace only. *)
Theorem empty_key_is_a_blank_file w held :
  api_key_file (fs w) = Some held ->
  (forallb isspace held = true <->
   main w = (Ok 1%Z, extend w [Printed (str "Error: API Key is empty")])).
Proof.
  intros K0. rewrite <- strip_empty. split.
  - intros E. now apply main_empty_key with held.
  - intros H.
    runs_of w; rewrite M in H; try discriminate H; try congruence.
    apply pair_equal_spec in H as [_ H].
    apply (f_equal (events_of w)) in H. rewrite !events_of_extend in H.
    discriminate H.
Qed.

(* ================================================================== *)
(** * The backup of a second run *)

(** X9.  After a run that returns 0, the next run overwrites the backup
    with the text the configuration file holds by then, code point for
    code point: the backup is then a copy of the updated configuration,
    and the text it held after the first run is gone. *)
Theorem second_backup_is_a_copy w w1 :
  main w = (Ok 0%Z, w1) ->
  exists w2,
    main w1 = (Ok 0%Z, w2)
    /\ backup (fs w2) = mcp_json (fs w1)
    /\ backup (fs w2) = mcp_json (fs w2).
Proof.
  intros H.
  destruct (successful_run _ _ H)
    as (t & config & K & S & D & Wf & U & E & E' & F & D' & _ & _).
  assert (K1 : api_key_file (fs w1) = Some t) by now rewrite F.
  pose proof (main_succeeds w1 t _ K1 S D' (updatable_config_after _ _ U) E'
                (encodable_key_after _ _ U E')) as M.
  rewrite config_after_idempotent in M.
  eexists. split; [exact M|].
  rewrite extend_fs, F. split; reflexivity.
Qed.

(* ================================================================== *)
(** * A new key *)

(** Assigning to a key that is there keeps its place, whatever is
    assigned to another key before or after. *)
Lemma dict_set_swap d k k' v v' :
  k <> k' -> dict_has d k = true ->
  dict_set (dict_set d k' v') k v = dict_set (dict_set d k v) k' v'.
Proof.
  intros N. unfold dict_has.
  induction d as [|[k0 v0] d IH]; cbn [dict_get dict_set]; [discriminate|].
  destruct (text_eqb k0 k) eqn:E.
  - apply text_eqb_eq in E. subst k0. intros _.
    assert (E' : text_eqb k k' = false) by now apply text_eqb_neq.
    rewrite E'. cbn [dict_set]. now rewrite text_eqb_refl, E'.
  - intros H. destruct (text_eqb k0 k') eqn:E'; cbn [dict_set]; rewrite E, E'.
    + reflexivity.
    + now rewrite IH.
Qed.

(** Lines 51-56 with a new key, on an entry they have been through with
    another: what they give on the entry as it was before. *)
Lemma entry_after_overwrite key key' e :
  entry_after key' (entry_after key e) = entry_after key' e.
Proof.
  unfold entry_after at 1. rewrite headers_of_entry_after, dict_set_set.
  set (h := PyDict (dict_set (fields_of e HEADERS) X_MCP_API_KEY (PyStr key'))).
  assert (G : dict_set (entry_after key e) HEADERS h = entry_after key' e).
  { unfold entry_after.
    rewrite (dict_set_swap _ HEADERS DESCRIPTION)
      by (try discriminate; rewrite dict_has_set_other by discriminate;
          apply dict_has_set_same).
    rewrite (dict_set_swap _ HEADERS URL) by (try discriminate; apply dict_has_set_same).
    now rewrite dict_set_set. }
  rewrite G.
  rewrite (dict_set_same_value _ _ _ (entry_after_get_url key' e)).
  now rewrite (dict_set_same_value _ _ _ (entry_after_get_description key' e)).
Qed.

Lemma config_after_overwrite key key' config :
  config_after key' (config_after key config) = config_after key' config.
Proof.
  destruct config as [| | | | | |top]; try reflexivity.
  unfold config_after at 1. cbn [config_after].
  rewrite servers_of_set, selection_rule_after, fields_of_set.
  now rewrite entry_after_overwrite, !dict_set_set.
Qed.

Lemma with_key_document w t p :
  p <> ApiKeyFile -> document (fs (with_key w t)) p = document (fs w) p.
Proof. intros N. unfold document. destruct p; [now destruct N| |]; reflexivity. Qed.

(** X10.  The last key wins.  After a run that returns 0, when the key
    file is given a new key and the script is run again, the
    configuration file is left as a single run with the new key on the
    first configuration leaves it: the key of the first run is in it no
    more, and nothing else of the first run shows. *)
Theorem last_key_wins w w1 new_key :
  main w = (Ok 0%Z, w1) ->
  strip new_key <> [] -> encodable (strip new_key) = true ->
  exists w2 w2',
    main (with_key w1 new_key) = (Ok 0%Z, w2)
    /\ main (with_key w new_key) = (Ok 0%Z, w2')
    /\ mcp_json (fs w2) = mcp_json (fs w2').
Proof.
  intros H S2 E2.
  destruct (successful_run _ _ H)
    as (t & config & K & S & D & Wf & U & E & E' & F & D' & _ & _).
  assert (Ka : forall v, api_key_file (fs (with_key v new_key)) = Some new_key)
    by reflexivity.
  assert (D1 : document (fs (with_key w1 new_key)) McpJson
               = Some (config_after (strip t) config))
    by (rewrite with_key_document by discriminate; exact D').
  assert (D0 : document (fs (with_key w new_key)) McpJson = Some config)
    by (rewrite with_key_document by discriminate; exact D).
  pose proof (main_succeeds _ _ _ (Ka w1) S2 D1 (updatable_config_after _ _ U) E' E2) as M1.
  pose proof (main_succeeds _ _ _ (Ka w) S2 D0 U E E2) as M0.
  rewrite config_after_overwrite in M1.
  eexists. eexists. split; [exact M1|]. split; [exact M0|].
  rewrite !extend_fs. reflexivity.
Qed.

(* ================================================================== *)
(** * Whitespace around the key *)

Lemma lstrip_lead lead s : forallb isspace lead = true -> lstrip (lead ++ s) = lstrip s.
Proof.
  induction lead as [|c lead IH]; [reflexivity|]. cbn [forallb app lstrip].
  rewrite andb_true_iff. intros [-> H]. now apply IH.
Qed.

Lemma rstrip_trail s trail : forallb isspace trail = true -> rstrip (s ++ trail) = rstrip s.
Proof.
  intros H. unfold rstrip. rewrite rev_app_distr, lstrip_lead; [reflexivity|].
  rewrite forallb_forall in *. intros x Hx. apply H. now apply in_rev.
Qed.

(** [strip] gives the same for a text and for the text with whitespace
    added at its ends. *)
Lemma strip_padded lead s trail :
  forallb isspace lead = true -> forallb isspace trail = true ->
  strip (lead ++ s ++ trail) = strip s.
Proof.
  intros L T. unfold strip. rewrite (lstrip_lead _ _ L).
  induction s as [|c s IH]; cbn [app].
  - now rewrite (lstrip_blank _ T).
  - cbn [lstrip]. destruct (isspace c); [exact IH|].
    change (c :: s ++ trail) with ((c :: s) ++ trail). now apply rstrip_trail.
Qed.

Lemma replay_content f g es p :
  content f p = content g p -> content (replay f es) p = content (replay g es) p.
Proof.
  unfold replay. revert f g. induction es as [|e es IH]; intros f g E; [exact E|].
  cbn [fold_left]. apply IH. destruct e as [[]|[]|], p; cbn in *; congruence.
Qed.

(** A run reads the key file through [strip] only. *)
Lemma main_reads_the_key_trimmed w1 w2 t1 t2 :
  home w1 = home w2 -> mcp_json (fs w1) = mcp_json (fs w2) ->
  api_key_file (fs w1) = Some t1 -> api_key_file (fs w2) = Some t2 ->
  strip t1 = strip t2 ->
  exists r es, main w1 = (r, extend w1 es) /\ main w2 = (r, extend w2 es).
Proof.
  intros Hh Hc K1 K2 E.
  runs_of w1; rewrite ?Hc in *;
    try (assert (t = t1) by congruence; subst t; rewrite E in *).
  - congruence.
  - eexists. eexists. split; [exact M|]. now apply main_empty_key with t2.
  - eexists. eexists. split; [exact M|]. rewrite Hh. now apply main_no_config with t2.
  - exists (Raise e), []. split; [exact M|]. now apply main_bad_json with t2 c.
  - eexists. eexists. split; [exact M|]. now apply main_backup_fails with t2 c.
  - eexists. eexists. split; [exact M|]. now apply main_update_raises with t2 c.
  - eexists. eexists. split; [exact M|]. now apply main_write_fails with t2 c.
  - eexists. eexists. split; [exact M|]. rewrite Hh. now apply main_ok with t2 c.
Qed.

(** X11.  Whitespace at the ends of the key file does not count: when
    whitespace is added before and after what the key file holds, the run
    has the same outcome, the same events (so it prints and writes the
    same), and leaves the same configuration file and the same backup. *)
Theorem key_padding_is_ignored w key lead trail :
  api_key_file (fs w) = Some key ->
  forallb isspace lead = true -> forallb isspace trail = true ->
  let w2 := with_key w (lead ++ key ++ trail) in
  fst (main w2) = fst (main w)
  /\ events_of w2 (snd (main w2)) = events_of w (snd (main w))
  /\ mcp_json (fs (snd (main w2))) = mcp_json (fs (snd (main w)))
  /\ backup (fs (snd (main w2))) = backup (fs (snd (main w))).
Proof.
  intros K L T w2.
  assert (K2 : api_key_file (fs w2) = Some (lead ++ key ++ trail)) by reflexivity.
  destruct (main_reads_the_key_trimmed w2 w _ _ eq_refl eq_refl K2 K
              (strip_padded _ _ _ L T)) as (r & es & M2 & M).
  rewrite M2, M. cbn [fst snd]. rewrite !events_of_extend, !extend_fs.
  repeat split.
  - now apply (replay_content _ _ es McpJson).
  - now apply (replay_content _ _ es Backup).
Qed.

(* ================================================================== *)
(** * What is written can be read *)


End Floats.

(* ================================================================== *)
(** * The examples

    The theorems above hold for every [float_repr] of which
    [float_repr_reads_back] holds.  They are applied below to the example
    worlds with [repr_unchanged], of which it holds. *)

Lemma repr_unchanged_reads_back :
  forall lit, reads_as_float repr_unchanged lit = true ->
              is_float_literal repr_unchanged (repr_unchanged lit) = true.
Proof.
  intros lit. unfold reads_as_float, is_float_literal, repr_unchanged.
  destruct (match_number (fun l => l) lit) as [[v r]|] eqn:M; [|discriminate].
  destruct v as [| | |l| | |]; try discriminate. destruct r; [|discriminate]. intros _.
  destruct (match_number_inv _ _ _ _ M) as (neg & i & f & e & E & _ & _ & _ & Hv).
  rewrite List.app_nil_r in E.
  assert (L : l = lit).
  { rewrite E. unfold number_value in Hv. destruct f, e; congruence. }
  rewrite L, text_eqb_refl. reflexivity.
Qed.

Lemma selection_rule_applied_witness :
  main repr_unchanged legacy = (Ok 0%Z, snd (main repr_unchanged legacy))
  /\ exists t config config',
       api_key_file (fs legacy) = Some t
       /\ document repr_unchanged (fs legacy) McpJson = Some config
       /\ document repr_unchanged (fs (snd (main repr_unchanged legacy))) McpJson = Some config'
       /\ dict_has (servers_of config) EASYGRID = false
       /\ dict_has (servers_of config) EASYGRID_MCP = true
       /\ dict_has (servers_of config') EASYGRID = false
       /\ dict_get (fields_of (fields_of (servers_of config') EASYGRID_MCP) HEADERS)
            X_MCP_API_KEY = Some (PyStr (strip t)).
Proof.
  assert (R : main repr_unchanged legacy = (Ok 0%Z, snd (main repr_unchanged legacy))) by (vm_compute; reflexivity).
  split; [exact R|].
  destruct (proj2 (selection_rule_applied repr_unchanged repr_unchanged_reads_back) legacy _ R)
    as (t & config & config' & K & D & D' & _ & C & _).
  exists t, config, config'.
  assert (E1 : dict_has (servers_of config) EASYGRID = false).
  { vm_compute in D. injection D as <-. reflexivity. }
  assert (E2 : dict_has (servers_of config) EASYGRID_MCP = true).
  { vm_compute in D. injection D as <-. reflexivity. }
  destruct (C E1 E2) as (C1 & C2 & _).
  repeat split; assumption.
Defined.

Lemma chosen_entry_fields_witness :
  api_key_file (fs legacy) = Some (str "abc123")
  /\ document repr_unchanged (fs legacy) McpJson
     = Some (PyDict [(str "mcpServers",
                      PyDict [(str "easygrid-mcp", PyDict [(str "url", PyStr (str "old"))]);
                              (str "other", PyDict [])])])
  /\ exists w' config' entry,
       main repr_unchanged legacy = (Ok 0%Z, w')
       /\ document repr_unchanged (fs w') McpJson = Some config'
       /\ dict_get (servers_of config') (str "easygrid-mcp") = Some (PyDict entry)
       /\ dict_get entry (str "headers")
          = Some (PyDict [(str "X-MCP-API-Key", PyStr (str "abc123"))]).
Proof.
  assert (K : api_key_file (fs legacy) = Some (str "abc123")) by reflexivity.
  assert (S : strip (str "abc123") <> []) by (vm_compute; discriminate).
  assert (Ek : encodable (strip (str "abc123")) = true) by reflexivity.
  assert (D : document repr_unchanged (fs legacy) McpJson
              = Some (PyDict [(str "mcpServers",
                               PyDict [(str "easygrid-mcp",
                                        PyDict [(str "url", PyStr (str "old"))]);
                                       (str "other", PyDict [])])]))
    by (vm_compute; reflexivity).
  split; [exact K|]. split; [exact D|].
  destruct (proj2 (chosen_entry_fields repr_unchanged repr_unchanged_reads_back)
              legacy _ _ K S Ek D eq_refl eq_refl eq_refl)
    as (w' & config' & entry & M & D' & G & Hh & _).
  exists w', config', entry. repeat split; assumption.
Defined.

Lemma rest_is_preserved_witness :
  main repr_unchanged crowded = (Ok 0%Z, snd (main repr_unchanged crowded))
  /\ exists top top',
       document repr_unchanged (fs crowded) McpJson = Some (PyDict top)
       /\ document repr_unchanged (fs (snd (main repr_unchanged crowded))) McpJson = Some (PyDict top')
       /\ dict_get (servers_of (PyDict top')) EASYGRID_MCP
          = dict_get (servers_of (PyDict top)) EASYGRID_MCP
       /\ dict_get (servers_of (PyDict top')) (str "other")
          = dict_get (servers_of (PyDict top)) (str "other")
       /\ dict_get (fields_of (servers_of (PyDict top')) EASYGRID) (str "timeout")
          = Some (PyInt 30)
       /\ dict_get (fields_of (fields_of (servers_of (PyDict top')) EASYGRID) HEADERS)
            (str "Keep") = Some (PyStr (str "me"))
       /\ dict_get top' (str "theme") = Some (PyStr (str "dark")).
Proof.
  assert (R : main repr_unchanged crowded = (Ok 0%Z, snd (main repr_unchanged crowded))) by (vm_compute; reflexivity).
  split; [exact R|].
  destruct ((rest_is_preserved repr_unchanged repr_unchanged_reads_back) crowded _ R)
    as (top & top' & D & D' & P1 & _ & P2 & _ & P3 & _ & P4 & _ & P5).
  exists top, top'.
  assert (E : top = match document repr_unchanged (fs crowded) McpJson with
                    | Some (PyDict d) => d
                    | _ => []
                    end) by now rewrite D.
  vm_compute in E.
  assert (Hn : selection_rule (servers_of (PyDict top)) = EASYGRID)
    by (rewrite E; reflexivity).
  rewrite Hn in *.
  split; [exact D|]. split; [exact D'|].
  split; [apply P5; rewrite E; reflexivity|].
  split; [apply P1; discriminate|].
  split; [rewrite P2 by discriminate; rewrite E; reflexivity|].
  split; [rewrite P3 by discriminate; rewrite E; reflexivity|].
  rewrite P4 by discriminate. rewrite E. reflexivity.
Defined.

Lemma new_entry_is_exact_witness :
  main repr_unchanged scenario = (Ok 0%Z, snd (main repr_unchanged scenario))
  /\ exists config',
       document repr_unchanged (fs (snd (main repr_unchanged scenario))) McpJson = Some config'
       /\ dict_get (servers_of config') (str "easygrid")
          = Some (PyDict
                    [(str "headers", PyDict [(str "X-MCP-API-Key", PyStr (str "abc123"))]);
                     (str "url", PyStr (str "http://localhost:8080/api/mcp/v1"));
                     (str "description", PyStr (str "EasyGrid CRUD - MCP HTTP"))]).
Proof.
  assert (R : main repr_unchanged scenario = (Ok 0%Z, snd (main repr_unchanged scenario))) by (vm_compute; reflexivity).
  split; [exact R|].
  destruct (proj1 (new_entry_is_exact repr_unchanged repr_unchanged_reads_back) scenario _ R) as (t & config & config' & K & D & D' & N).
  exists config'. split; [exact D'|].
  assert (Et : strip t = str "abc123").
  { vm_compute in K. injection K as <-. reflexivity. }
  rewrite <- Et. apply N.
  - vm_compute in D. injection D as <-. reflexivity.
  - vm_compute in D. injection D as <-. reflexivity.
Defined.

Lemma handled_failures_write_nothing_witness :
  api_key_file (fs keyless) = None
  /\ fst (main repr_unchanged keyless) = Ok 1%Z
  /\ fs (snd (main repr_unchanged keyless)) = fs keyless
  /\ printed (events_of keyless (snd (main repr_unchanged keyless)))
     = [str "Error: API Key file not found at /home/user/.easygrid/api-key";
        str "Run: go run server/cmd/mcp-api-key/main.go -action=create"].
Proof.
  assert (K : api_key_file (fs keyless) = None) by reflexivity.
  split; [exact K|].
  destruct ((handled_failures_write_nothing repr_unchanged) keyless (or_introl K))
    as (w' & lines & M & E & _ & F & _ & L & _).
  rewrite M. cbn [fst snd]. split; [reflexivity|]. split; [exact F|].
  rewrite E, (L K). reflexivity.
Defined.

Lemma update_is_idempotent_witness :
  main repr_unchanged crowded = (Ok 0%Z, snd (main repr_unchanged crowded))
  /\ exists w2,
       main repr_unchanged (snd (main repr_unchanged crowded)) = (Ok 0%Z, w2)
       /\ mcp_json (fs w2) = mcp_json (fs (snd (main repr_unchanged crowded))).
Proof.
  assert (R : main repr_unchanged crowded = (Ok 0%Z, snd (main repr_unchanged crowded))) by (vm_compute; reflexivity).
  split; [exact R|].
  destruct ((update_is_idempotent repr_unchanged repr_unchanged_reads_back) crowded _ R) as (w2 & M & _ & C & _).
  now exists w2.
Defined.

(** C6, as stated, fails: on the scenario of the specification the run
    succeeds and the backup is not the text the configuration file held. *)
Lemma backup_is_not_a_copy :
  exists w',
    main repr_unchanged scenario = (Ok 0%Z, w')
    /\ mcp_json (fs scenario) = Some (jstr "{'mcpServers':{}}")
    /\ backup (fs w') = Some (str "{" ++ [10%N] ++ jstr "  'mcpServers': {}" ++ [10%N] ++ str "}")
    /\ backup (fs w') <> mcp_json (fs scenario).
Proof.
  exists (snd (main repr_unchanged scenario)).
  split; [vm_compute; reflexivity|]. split; [reflexivity|].
  split; [vm_compute; reflexivity|]. vm_compute. discriminate.
Qed.

Lemma backup_holds_the_document_witness :
  api_key_file (fs crowded) = Some (str "  abc123" ++ [10%N])
  /\ strip (str "  abc123" ++ [10%N]) <> []
  /\ backup (fs crowded) = Some (str "stale")
  /\ exists config,
       document repr_unchanged (fs crowded) McpJson = Some config
       /\ document repr_unchanged (fs (snd (main repr_unchanged crowded))) Backup = Some config.
Proof.
  assert (K : api_key_file (fs crowded) = Some (str "  abc123" ++ [10%N])) by reflexivity.
  assert (S : strip (str "  abc123" ++ [10%N]) <> []) by (vm_compute; discriminate).
  assert (D : document repr_unchanged (fs crowded) McpJson
              = Some (match document repr_unchanged (fs crowded) McpJson with
                      | Some d => d
                      | None => PyNone
                      end)) by (vm_compute; reflexivity).
  split; [exact K|]. split; [exact S|]. split; [reflexivity|].
  eexists. split; [exact D|].
  apply ((backup_holds_the_document repr_unchanged repr_unchanged_reads_back) crowded _ _ K S D). vm_compute. reflexivity.
Defined.

Lemma configuration_written_last_witness :
  main repr_unchanged scenario = (fst (main repr_unchanged scenario), snd (main repr_unchanged scenario))
  /\ mcp_json (replay (fs scenario)
                [Opened Backup;
                 Closed Backup (str "{" ++ [10%N] ++ jstr "  'mcpServers': {}" ++ [10%N]
                                ++ str "}")])
     = mcp_json (fs scenario).
Proof.
  assert (R : main repr_unchanged scenario = (fst (main repr_unchanged scenario), snd (main repr_unchanged scenario)))
    by (vm_compute; reflexivity).
  split; [exact R|].
  destruct ((configuration_written_last repr_unchanged) scenario _ _ R) as (_ & _ & P).
  refine (proj1 (P _ (skipn 2 (events_of scenario (snd (main repr_unchanged scenario)))) _ _)).
  - vm_compute. reflexivity.
  - intros [E|[E|[]]]; discriminate E.
Defined.

(** C9, as stated, fails.  A document repr_unchanged without [mcpServers] in which a str
    holds a lone surrogate is read, but cannot be written: the run raises
    at the backup and returns nothing.  And a document repr_unchanged that is a list has
    no ["mcpServers"] in it either: line 39 takes the branch, and the
    assignment of line 40 raises. *)
Lemma missing_servers_can_fail :
  (exists top,
     document repr_unchanged (fs lone_surrogate) McpJson = Some (PyDict top)
     /\ dict_has top MCP_SERVERS = false
     /\ fst (main repr_unchanged lone_surrogate) = Raise UnicodeEncodeError
     /\ mcp_json (fs (snd (main repr_unchanged lone_surrogate))) = mcp_json (fs lone_surrogate))
  /\ (document repr_unchanged (fs not_an_object) McpJson = Some (PyList [])
      /\ contains MCP_SERVERS (PyList []) = Ok false
      /\ fst (main repr_unchanged not_an_object) = Raise TypeError
      /\ mcp_json (fs (snd (main repr_unchanged not_an_object))) = mcp_json (fs not_an_object)).
Proof.
  split.
  - eexists. split; [vm_compute; reflexivity|].
    split; [reflexivity|]. split; vm_compute; reflexivity.
  - repeat split; vm_compute; reflexivity.
Qed.

Lemma missing_servers_are_created_witness :
  api_key_file (fs bare) = Some (str "abc123")
  /\ strip (str "abc123") <> []
  /\ encodable (strip (str "abc123")) = true
  /\ document repr_unchanged (fs bare) McpJson = Some (PyDict [(str "theme", PyStr (str "dark"))])
  /\ dict_has [(str "theme", PyStr (str "dark"))] MCP_SERVERS = false
  /\ encodable_value (PyDict [(str "theme", PyStr (str "dark"))]) = true
  /\ exists w' top',
       main repr_unchanged bare = (Ok 0%Z, w')
       /\ document repr_unchanged (fs w') McpJson = Some (PyDict top')
       /\ keys top' = [str "theme"; str "mcpServers"]
       /\ dict_get top' (str "theme") = Some (PyStr (str "dark")).
Proof.
  assert (K : api_key_file (fs bare) = Some (str "abc123")) by reflexivity.
  assert (S : strip (str "abc123") <> []) by (vm_compute; discriminate).
  assert (Ek : encodable (strip (str "abc123")) = true) by (vm_compute; reflexivity).
  assert (D : document repr_unchanged (fs bare) McpJson = Some (PyDict [(str "theme", PyStr (str "dark"))]))
    by (vm_compute; reflexivity).
  assert (N : dict_has [(str "theme", PyStr (str "dark"))] MCP_SERVERS = false)
    by reflexivity.
  assert (E : encodable_value (PyDict [(str "theme", PyStr (str "dark"))]) = true)
    by reflexivity.
  repeat (split; [assumption|]).
  destruct ((missing_servers_are_created repr_unchanged repr_unchanged_reads_back) bare _ _ K S Ek D N E)
    as (w' & top' & M & D' & _ & Ks & Ot).
  exists w', top'. repeat split; try assumption.
  apply Ot. discriminate.
Defined.



Lemma blank_configuration_is_rejected_witness :
  api_key_file (fs blank_config) = Some (str "abc123")
  /\ mcp_json (fs blank_config) = Some [10%N]
  /\ main repr_unchanged blank_config = (Raise JSONDecodeError, blank_config).
Proof.
  assert (K : api_key_file (fs blank_config) = Some (str "abc123")) by reflexivity.
  assert (C : mcp_json (fs blank_config) = Some [10%N]) by reflexivity.
  assert (S : strip (str "abc123") <> []) by (vm_compute; discriminate).
  assert (B : forallb is_ws [10%N] = true) by reflexivity.
  split; [exact K|]. split; [exact C|].
  exact (proj2 ((blank_configuration_is_rejected repr_unchanged) blank_config _ _ K S C B)).
Defined.

Lemma failed_update_keeps_configuration_witness :
  api_key_file (fs servers_list) = Some (str "abc123")
  /\ document repr_unchanged (fs servers_list) McpJson
     = Some (PyDict [(str "theme", PyStr (str "dark")); (str "mcpServers", PyList [])])
  /\ exists w',
       main repr_unchanged servers_list = (Raise TypeError, w')
       /\ mcp_json (fs w') = mcp_json (fs servers_list)
       /\ document repr_unchanged (fs w') Backup
          = Some (PyDict [(str "theme", PyStr (str "dark")); (str "mcpServers", PyList [])]).
Proof.
  assert (K : api_key_file (fs servers_list) = Some (str "abc123")) by reflexivity.
  assert (S : strip (str "abc123") <> []) by (vm_compute; discriminate).
  assert (D : document repr_unchanged (fs servers_list) McpJson
              = Some (PyDict [(str "theme", PyStr (str "dark"));
                              (str "mcpServers", PyList [])]))
    by (vm_compute; reflexivity).
  split; [exact K|]. split; [exact D|].
  destruct ((failed_update_keeps_configuration repr_unchanged repr_unchanged_reads_back) servers_list _ _ K S D)
    as (w' & M & _ & C & _ & _ & B); try reflexivity.
  exists w'. repeat split; assumption.
Defined.

Lemma exit_status_is_0_or_1_witness :
  api_key_file (fs keyless) = None /\ fst (main repr_unchanged keyless) = Ok 1%Z.
Proof.
  assert (K : api_key_file (fs keyless) = None) by reflexivity.
  split; [exact K|].
  exact (proj2 (proj2 ((exit_status_is_0_or_1 repr_unchanged) keyless)) (or_introl K)).
Defined.

Lemma only_returns_print_witness :
  fst (main repr_unchanged servers_list) = Raise TypeError
  /\ printed (events_of servers_list (snd (main repr_unchanged servers_list))) = []
  /\ fst (main repr_unchanged scenario) = Ok 0%Z
  /\ printed (events_of scenario (snd (main repr_unchanged scenario)))
     = [9989%N :: str " Updated /home/user/.cursor/mcp.json with API Key from /home/user/.easygrid/api-key";
        str "Please restart Cursor to apply changes"].
Proof.
  assert (R : fst (main repr_unchanged servers_list) = Raise TypeError) by (vm_compute; reflexivity).
  assert (R0 : fst (main repr_unchanged scenario) = Ok 0%Z) by (vm_compute; reflexivity).
  split; [exact R|].
  split; [exact (proj1 ((only_returns_print repr_unchanged) servers_list) _ R)|].
  split; [exact R0|].
  rewrite (proj2 ((only_returns_print repr_unchanged) scenario) R0). reflexivity.
Defined.

Lemma empty_key_is_a_blank_file_witness :
  api_key_file (fs (blank_key None)) = Some (str "   ")
  /\ main repr_unchanged (blank_key None)
     = (Ok 1%Z, extend (blank_key None) [Printed (str "Error: API Key is empty")]).
Proof.
  assert (K : api_key_file (fs (blank_key None)) = Some (str "   ")) by reflexivity.
  split; [exact K|].
  apply (proj1 ((empty_key_is_a_blank_file repr_unchanged) (blank_key None) _ K)). reflexivity.
Defined.

Lemma second_backup_is_a_copy_witness :
  main repr_unchanged crowded = (Ok 0%Z, snd (main repr_unchanged crowded))
  /\ exists w2,
       main repr_unchanged (snd (main repr_unchanged crowded)) = (Ok 0%Z, w2)
       /\ backup (fs w2) = mcp_json (fs (snd (main repr_unchanged crowded))).
Proof.
  assert (R : main repr_unchanged crowded = (Ok 0%Z, snd (main repr_unchanged crowded))) by (vm_compute; reflexivity).
  split; [exact R|].
  destruct ((second_backup_is_a_copy repr_unchanged repr_unchanged_reads_back) crowded _ R) as (w2 & M & B & _).
  now exists w2.
Defined.

Lemma last_key_wins_witness :
  main repr_unchanged legacy = (Ok 0%Z, snd (main repr_unchanged legacy))
  /\ strip (str "xyz789" ++ [10%N]) <> []
  /\ encodable (strip (str "xyz789" ++ [10%N])) = true
  /\ exists w2 w2',
       main repr_unchanged (with_key (snd (main repr_unchanged legacy)) (str "xyz789" ++ [10%N])) = (Ok 0%Z, w2)
       /\ main repr_unchanged (with_key legacy (str "xyz789" ++ [10%N])) = (Ok 0%Z, w2')
       /\ mcp_json (fs w2) = mcp_json (fs w2').
Proof.
  assert (R : main repr_unchanged legacy = (Ok 0%Z, snd (main repr_unchanged legacy))) by (vm_compute; reflexivity).
  assert (S : strip (str "xyz789" ++ [10%N]) <> []) by (vm_compute; discriminate).
  assert (E : encodable (strip (str "xyz789" ++ [10%N])) = true) by (vm_compute; reflexivity).
  split; [exact R|]. split; [exact S|]. split; [exact E|].
  exact ((last_key_wins repr_unchanged repr_unchanged_reads_back) legacy _ _ R S E).
Defined.

Lemma key_padding_is_ignored_witness :
  api_key_file (fs legacy) = Some (str "abc123")
  /\ forallb isspace [32%N; 9%N] = true
  /\ forallb isspace [13%N; 10%N] = true
  /\ fst (main repr_unchanged (with_key legacy ([32%N; 9%N] ++ str "abc123" ++ [13%N; 10%N])))
     = fst (main repr_unchanged legacy)
  /\ mcp_json (fs (snd (main repr_unchanged (with_key legacy
                                ([32%N; 9%N] ++ str "abc123" ++ [13%N; 10%N])))))
     = mcp_json (fs (snd (main repr_unchanged legacy))).
Proof.
  assert (K : api_key_file (fs legacy) = Some (str "abc123")) by reflexivity.
  assert (L : forallb isspace [32%N; 9%N] = true) by reflexivity.
  assert (T : forallb isspace [13%N; 10%N] = true) by reflexivity.
  split; [exact K|]. split; [exact L|]. split; [exact T|].
  destruct ((key_padding_is_ignored repr_unchanged) legacy _ _ _ K L T) as (R & _ & C & _).
  split; [exact R|exact C].
Defined.

